(** * NeuroCity: report deduplication and escalation clearing

    A shallow embedding of the backend of the NeuroCity civic-report
    service: the [reports] table of [database.js], the geo query and the
    image comparison of [aiService.js], the submission, status-update and
    resolution handlers of [server.js], and the coordinate check of the
    report form ([ReportForm.tsx]).

    Conventions of the embedding.
    - A JavaScript number is a [JS.number]: [NaN], the two infinities, or a
      finite value.  Finite doubles are idealised as real numbers, so
      rounding and overflow are not modelled; [NaN] and division by zero
      are.  Where rounding changes what the code answers, the distance of
      two points that are nearly antipodal, [Binary64] replays the
      computation in IEEE 754 binary64 arithmetic.
    - The [reports] table is the list of its rows in rowid order together
      with the AUTOINCREMENT counter.  A statement succeeds unless a
      NOT NULL or CHECK constraint of the table rejects it; I/O errors of
      the database are not modelled.
    - One handler runs at a time: a handler is a function from the table
      to a response and the next table.  The blockchain log is left out of
      the rows; [patchLogged] follows the two columns a status update
      writes for it.
    - Everything a handler reads from outside the repository (the clock,
      the file system, the Gemini model) is an explicit argument, and so
      are the triage of [analyzeImage] and the deadline of the escalation
      service, which a submission only stores. *)

From Stdlib Require Import List ZArith PArith NArith Bool String Ascii.
From Stdlib Require Import DecimalString.
From Stdlib Require Import Reals Lra Lia.
From Stdlib Require Import Sorting.Sorted Sorting.Permutation.
From Stdlib Require SpecFloat.
Import ListNotations.

(* ================================================================= *)
(** ** JavaScript values *)

Module JS.

Inductive number : Type :=
| NaN
| PInf
| NInf
| Num (x : R).

Definition Rltb (x y : R) : bool := if Rlt_dec x y then true else false.
Definition Rleb (x y : R) : bool := if Rle_dec x y then true else false.
Definition Reqb (x y : R) : bool := if Req_dec_T x y then true else false.

(** [a <= b]; every comparison with [NaN] is false. *)
Definition le (a b : number) : bool :=
  match a, b with
  | NaN, _ | _, NaN => false
  | NInf, _ => true
  | _, PInf => true
  | Num x, Num y => Rleb x y
  | _, _ => false
  end.

Definition ge (a b : number) : bool := le b a.

(** [a > b]. *)
Definition gt (a b : number) : bool :=
  match a, b with
  | NaN, _ | _, NaN => false
  | PInf, PInf => false
  | PInf, _ => true
  | NInf, _ => false
  | Num _, NInf => true
  | Num _, PInf => false
  | Num x, Num y => Rltb y x
  end.

Definition lt (a b : number) : bool := gt b a.

Definition isNaN (a : number) : bool :=
  match a with
  | NaN => true
  | _ => false
  end.

Definition neg (a : number) : number :=
  match a with
  | NaN => NaN
  | PInf => NInf
  | NInf => PInf
  | Num x => Num (- x)
  end.

Definition add (a b : number) : number :=
  match a, b with
  | NaN, _ | _, NaN => NaN
  | PInf, NInf | NInf, PInf => NaN
  | PInf, _ | _, PInf => PInf
  | NInf, _ | _, NInf => NInf
  | Num x, Num y => Num (x + y)
  end.

Definition sub (a b : number) : number := add a (neg b).

(** The sign of an infinite product or quotient; zero counts as [+0]. *)
Definition signed_inf (negative : bool) : number :=
  if negative then NInf else PInf.

Definition is_neg (a : number) : bool :=
  match a with
  | NInf => true
  | Num x => Rltb x 0
  | _ => false
  end.

Definition is_zero (a : number) : bool :=
  match a with
  | Num x => Reqb x 0
  | _ => false
  end.

Definition mul (a b : number) : number :=
  match a, b with
  | NaN, _ | _, NaN => NaN
  | Num x, Num y => Num (x * y)
  | _, _ =>
      if is_zero a || is_zero b then NaN
      else signed_inf (xorb (is_neg a) (is_neg b))
  end.

Definition div (a b : number) : number :=
  match a, b with
  | NaN, _ | _, NaN => NaN
  | Num x, Num y =>
      if Reqb y 0 then
        if Reqb x 0 then NaN else signed_inf (Rltb x 0)
      else Num (x / y)
  | Num _, _ => Num 0
  | _, Num _ => signed_inf (xorb (is_neg a) (is_neg b))
  | _, _ => NaN
  end.

Definition abs (a : number) : number :=
  match a with
  | NaN => NaN
  | PInf | NInf => PInf
  | Num x => Num (Rabs x)
  end.

(** [Math.max] and [Math.min] answer [NaN] as soon as an argument is. *)
Definition max (a b : number) : number :=
  match a, b with
  | NaN, _ | _, NaN => NaN
  | _, _ => if le a b then b else a
  end.

Definition min (a b : number) : number :=
  match a, b with
  | NaN, _ | _, NaN => NaN
  | _, _ => if le a b then a else b
  end.

(** [Math.atan2 y x] on finite arguments (zeros taken as [+0]). *)
Definition atan2 (y x : R) : R :=
  if Rlt_dec 0 x then atan (y / x)
  else if Rlt_dec x 0 then
    if Rle_dec 0 y then atan (y / x) + PI else atan (y / x) - PI
  else
    if Rlt_dec 0 y then PI / 2
    else if Rlt_dec y 0 then - (PI / 2)
    else 0.

(** ToBoolean of a multipart text field: [undefined] and the empty
    string are falsy, every other string is truthy. *)
Definition truthy (v : option string) : bool :=
  match v with
  | None => false
  | Some s => negb (String.eqb s EmptyString)
  end.

(** *** [parseFloat] *)

Definition digit_of (c : ascii) : option Z :=
  let n := nat_of_ascii c in
  if (48 <=? n)%nat && (n <=? 57)%nat then Some (Z.of_nat (n - 48)) else None.

Definition is_ws (c : ascii) : bool :=
  let n := nat_of_ascii c in
  (n =? 32)%nat || ((9 <=? n)%nat && (n <=? 13)%nat).

Fixpoint skip_ws (s : string) : string :=
  match s with
  | String c r => if is_ws c then skip_ws r else s
  | EmptyString => s
  end.

(** Reads a run of decimal digits onto [acc]; answers the value, the
    number of digits read and the unread rest. *)
Fixpoint digits (s : string) (acc : Z) (n : nat) : Z * nat * string :=
  match s with
  | String c r =>
      match digit_of c with
      | Some d => digits r (10 * acc + d) (S n)
      | None => (acc, n, s)
      end
  | EmptyString => (acc, n, s)
  end.

Definition sign_of (s : string) : bool * string :=
  match s with
  | String "-"%char r => (true, r)
  | String "+"%char r => (false, r)
  | _ => (false, s)
  end.

(** The exponent part, 0 when there is none or it has no digit. *)
Definition exponent (s : string) : Z :=
  match s with
  | String c r =>
      if Ascii.eqb c "e"%char || Ascii.eqb c "E"%char then
        let '(negative, r1) := sign_of r in
        let '(e, n, _) := digits r1 0 0 in
        match n with
        | O => 0%Z
        | S _ => if negative then (- e)%Z else e
        end
      else 0%Z
  | EmptyString => 0%Z
  end.

(** What [parseFloat] reads at the start of a string. *)
Inductive literal : Type :=
| NotANumber
| Infinite (negative : bool)
| Decimal (negative : bool) (mantissa : Z) (exp10 : Z).

Definition scan (s : string) : literal :=
  let '(negative, s1) := sign_of (skip_ws s) in
  if String.prefix "Infinity" s1 then Infinite negative
  else
    let '(ip, ni, s2) := digits s1 0 0 in
    let '(m, nf, s3) :=
      match s2 with
      | String "."%char r => digits r ip 0
      | _ => (ip, O, s2)
      end in
    match (ni + nf)%nat with
    | O => NotANumber
    | S _ => Decimal negative m (exponent s3 - Z.of_nat nf)
    end.

Definition value (l : literal) : number :=
  match l with
  | NotANumber => NaN
  | Infinite negative => signed_inf negative
  | Decimal negative m e =>
      Num ((if negative then -1 else 1) * IZR m * powerRZ 10 e)
  end.

Definition parseFloat (s : string) : number := value (scan s).

(** *** Strings

    Strings are sequences of bytes; case mapping and white space are
    those of ASCII. *)

Definition toLowerChar (c : ascii) : ascii :=
  let n := nat_of_ascii c in
  if (65 <=? n)%nat && (n <=? 90)%nat then ascii_of_nat (n + 32) else c.

Fixpoint toLowerCase (s : string) : string :=
  match s with
  | EmptyString => EmptyString
  | String c r => String (toLowerChar c) (toLowerCase r)
  end.

(** [s.includes(needle)] *)
Fixpoint includes (s needle : string) : bool :=
  String.prefix needle s
  || match s with
     | String _ r => includes r needle
     | EmptyString => false
     end.

(** [s.startsWith(p)] *)
Definition startsWith (s p : string) : bool := String.prefix p s.

(** [s.trim()] *)
Definition trim (s : string) : string :=
  string_of_list_ascii
    (rev (list_ascii_of_string
            (skip_ws (string_of_list_ascii
                        (rev (list_ascii_of_string (skip_ws s))))))).

(** [s.split(sep)] on a one-character separator. *)
Fixpoint split (sep : ascii) (s : string) : list string :=
  match s with
  | EmptyString => [EmptyString]
  | String c r =>
      if Ascii.eqb c sep then EmptyString :: split sep r
      else
        match split sep r with
        | h :: t => String c h :: t
        | [] => [String c EmptyString]
        end
  end.

(** The decimal digits of a non-negative integer, as [+] and template
    strings print it. *)
Definition decimal (n : N) : string := NilZero.string_of_uint (N.to_uint n).

(** The property names every object inherits from [Object.prototype]. *)
Definition objectPrototypeKeys : list string :=
  [ "constructor"%string; "__defineGetter__"%string; "__defineSetter__"%string;
    "hasOwnProperty"%string; "__lookupGetter__"%string;
    "__lookupSetter__"%string; "isPrototypeOf"%string;
    "propertyIsEnumerable"%string; "toString"%string; "valueOf"%string;
    "__proto__"%string; "toLocaleString"%string ].

(** Reading [object[key]] off an object literal: an own property, a
    member of [Object.prototype] (truthy, and without the fields of the
    literal's values), or [undefined]. *)
Inductive Property (A : Type) : Type :=
| Own (a : A)
| Inherited
| Undefined.

Arguments Own {A} a.
Arguments Inherited {A}.
Arguments Undefined {A}.

Fixpoint ownProperty {A : Type} (object : list (string * A)) (key : string)
  : option A :=
  match object with
  | [] => None
  | (k, a) :: rest => if String.eqb k key then Some a else ownProperty rest key
  end.

Definition getProperty {A : Type} (object : list (string * A)) (key : string)
  : Property A :=
  match ownProperty object key with
  | Some a => Own a
  | None =>
      if existsb (String.eqb key) objectPrototypeKeys then Inherited
      else Undefined
  end.

End JS.

(* ================================================================= *)
(** ** The [reports] table ([database.js]) *)

Inductive Status : Type := pending | verified | resolved.

Definition Status_eqb (a b : Status) : bool :=
  match a, b with
  | pending, pending | verified, verified | resolved, resolved => true
  | _, _ => false
  end.

(** The columns the deduplication and escalation logic reads or writes.
    [merged_reports] is the JSON array of merged ids, [None] for NULL.
    The other columns are left out; among them [blockchain_tx_hash] and
    [last_blockchain_update], which the handlers write with every update:
    [BlockchainColumns] and [patchLogged] below follow them through a
    status update. *)
Record Report : Type := mkReport {
  id : positive;
  photo_url : string;
  latitude : JS.number;
  longitude : JS.number;
  status : Status;
  category : option string;
  severity : option string;
  priority : string;
  duplicate_of : option positive;
  duplicate_count : Z;
  similarity_score : JS.number;
  is_primary : bool;
  merged_reports : option (list positive);
  resolution_photo_url : option string;
  ai_verification_score : JS.number;
  sla_deadline : Z;
  escalated : bool;
  escalation_notified : bool;
  created_at : Z
}.

(** The ids merged into a report, as the spec's [mergedReportIds]. *)
Definition mergedReportIds (r : Report) : list positive :=
  match merged_reports r with
  | None => []
  | Some l => l
  end.

Record Store : Type := mkStore {
  rows : list Report;
  next_id : positive
}.

Definition emptyStore : Store := {| rows := []; next_id := 1%positive |}.

Module Db.

(** [latitude REAL NOT NULL], [longitude REAL NOT NULL]: a [NaN] is
    bound as NULL and the statement fails. *)
Definition not_null (x : JS.number) : bool :=
  match x with
  | JS.NaN => false
  | _ => true
  end.

(** [CHECK (severity IN ('LOW', 'MEDIUM', 'HIGH'))], and the same on
    [priority]; a NULL passes a CHECK. *)
Definition check_level (v : option string) : bool :=
  match v with
  | None => true
  | Some s =>
      String.eqb s "LOW" || String.eqb s "MEDIUM" || String.eqb s "HIGH"
  end.

Definition constraints (r : Report) : bool :=
  not_null (latitude r) && not_null (longitude r)
  && check_level (severity r) && check_level (Some (priority r)).

(** INSERT: the row gets the next AUTOINCREMENT id, which is answered
    as [this.lastID]; [None] is a constraint error, which leaves the
    table and the counter as they were. *)
Definition insert (mk : positive -> Report) (s : Store)
  : option (positive * Store) :=
  let r := mk (next_id s) in
  if constraints r then
    Some (next_id s,
          {| rows := rows s ++ [r]; next_id := Pos.succ (next_id s) |})
  else None.

(** [SELECT * FROM reports WHERE id = ?] through [db.get]. *)
Definition get (i : Z) (s : Store) : option Report :=
  find (fun r => Z.eqb (Zpos (id r)) i) (rows s).

(** [UPDATE reports SET ... WHERE id = ?]. *)
Definition update (i : Z) (f : Report -> Report) (s : Store) : Store :=
  {| rows := map (fun r => if Z.eqb (Zpos (id r)) i then f r else r) (rows s);
     next_id := next_id s |}.

(** [this.changes] of such an UPDATE. *)
Definition changes (i : Z) (s : Store) : nat :=
  List.length (filter (fun r => Z.eqb (Zpos (id r)) i) (rows s)).

(** [ORDER BY created_at DESC]; rows of one timestamp keep rowid order. *)
Fixpoint insert_desc (r : Report) (l : list Report) : list Report :=
  match l with
  | [] => [r]
  | x :: t =>
      if (created_at x <=? created_at r)%Z then r :: l
      else x :: insert_desc r t
  end.

Definition order_by_created_at_desc (l : list Report) : list Report :=
  fold_right insert_desc [] l.

End Db.

(* ================================================================= *)
(** ** Geo query ([aiService.js]) *)

Module aiService.

Section Haversine.
Local Open Scope R_scope.

(** The body of [calculateDistance] on finite arguments, computed over
    the reals: the term [a] then lies between 0 and 1 and the result is a
    number.  The rounded computation is [Binary64.calculateDistance]. *)
Definition haversine_a (lat1 lon1 lat2 lon2 : R) : R :=
  let phi1 := lat1 * PI / 180 in
  let phi2 := lat2 * PI / 180 in
  let dphi := (lat2 - lat1) * PI / 180 in
  let dlam := (lon2 - lon1) * PI / 180 in
  sin (dphi / 2) * sin (dphi / 2) +
  cos phi1 * cos phi2 * sin (dlam / 2) * sin (dlam / 2).

Definition haversine (lat1 lon1 lat2 lon2 : R) : R :=
  let R := 6371000 in
  let a := haversine_a lat1 lon1 lat2 lon2 in
  let c := 2 * JS.atan2 (sqrt a) (sqrt (1 - a)) in
  R * c.
End Haversine.

(** [calculateDistance]: an argument that is [NaN] or infinite makes a
    sine or cosine [NaN], and with it the result. *)
Definition calculateDistance (lat1 lon1 lat2 lon2 : JS.number) : JS.number :=
  match lat1, lon1, lat2, lon2 with
  | JS.Num a, JS.Num b, JS.Num c, JS.Num d => JS.Num (haversine a b c d)
  | _, _, _, _ => JS.NaN
  end.

(** A row of the geo query: the report and its [distance] field. *)
Record NearbyReport : Type := mkNearby {
  report : Report;
  distance : JS.number
}.

(** [excludeId || -1] *)
Definition excludeParam (excludeId : option Z) : Z :=
  match excludeId with
  | None => (-1)%Z
  | Some e => if Z.eqb e 0 then (-1)%Z else e
  end.

(** The WHERE clause of the query. *)
Definition activePrimary (excludeId : option Z) (r : Report) : bool :=
  is_primary r
  && (Status_eqb (status r) pending || Status_eqb (status r) verified)
  && negb (Z.eqb (Zpos (id r)) (excludeParam excludeId)).

Definition findNearbyReports (latitude0 longitude0 : JS.number)
    (radiusMeters : JS.number) (excludeId : option Z) (s : Store)
  : list NearbyReport :=
  let reports :=
    Db.order_by_created_at_desc (filter (activePrimary excludeId) (rows s)) in
  map (fun r =>
         {| report := r;
            distance := calculateDistance latitude0 longitude0
                          (latitude r) (longitude r) |})
      (filter (fun r =>
                 JS.le (calculateDistance latitude0 longitude0
                          (latitude r) (longitude r)) radiusMeters)
              reports).

(** *** Image comparison *)

(** The result object of [compareImages]. *)
Record Similarity : Type := mkSimilarity {
  similarityScore : JS.number;
  isSameIssue : bool;
  reasoning : string;
  aiProcessed : bool;
  fallbackUsed : bool
}.

(** One attempt at the Gemini model (preprocessing, reading the files,
    [generateContent], parsing the JSON answer): the parsed answer, or the
    error thrown with its [status] if it has one.  A [similarityScore]
    that is absent from the answer reads as [NaN] in a comparison. *)
Inductive Attempt : Type :=
| Answered (score : JS.number) (same : bool) (why : string)
| Failed (status : option Z).

Record Gemini : Type := mkGemini {
  apiKeyConfigured : bool;
  generateContent : string -> string -> nat -> Attempt
}.

(** The file system as the handlers see it: [fs.existsSync], and
    [fs.statSync(p).size] with [None] when [statSync] throws. *)
Record FileSystem : Type := mkFileSystem {
  existsSync : string -> bool;
  statSync : string -> option N
}.

Definition ofN (n : N) : JS.number := JS.Num (IZR (Z.of_N n)).

Definition fallbackImageSimilarity (F : FileSystem) (imagePath1 imagePath2 : string)
  : Similarity :=
  match statSync F imagePath1, statSync F imagePath2 with
  | Some size1, Some size2 =>
      let sizeDiff := JS.abs (JS.sub (ofN size1) (ofN size2)) in
      let avgSize := JS.div (JS.add (ofN size1) (ofN size2)) (JS.Num 2) in
      let sizeSimularity :=
        JS.max (JS.Num 0)
          (JS.sub (JS.Num 100) (JS.mul (JS.div sizeDiff avgSize) (JS.Num 100))) in
      {| similarityScore := JS.min (JS.Num 50) sizeSimularity;
         isSameIssue := JS.gt sizeSimularity (JS.Num 80);
         reasoning := "Fallback comparison based on file size (AI not available)";
         aiProcessed := false;
         fallbackUsed := true |}
  | _, _ =>
      {| similarityScore := JS.Num 0;
         isSameIssue := false;
         reasoning := "Could not compare images";
         aiProcessed := false;
         fallbackUsed := true |}
  end.

Definition maxRetries : nat := 3.

(** The retry loop of [compareImages] from attempt number [attempt] with
    [remaining] iterations left; [None] is the [undefined] of a loop that
    ends without returning. *)
Fixpoint compareFrom (G : Gemini) (F : FileSystem) (imagePath1 imagePath2 : string)
    (attempt remaining : nat) : option Similarity :=
  match remaining with
  | O => None
  | S k =>
      if negb (apiKeyConfigured G) then
        Some (fallbackImageSimilarity F imagePath1 imagePath2)
      else
        match generateContent G imagePath1 imagePath2 attempt with
        | Answered score same why =>
            Some {| similarityScore := score;
                    isSameIssue := same;
                    reasoning := why;
                    aiProcessed := true;
                    fallbackUsed := false |}
        | Failed st =>
            let overloaded :=
              match st with
              | Some code => Z.eqb code 503
              | None => false
              end in
            if overloaded && (attempt <? maxRetries)%nat then
              compareFrom G F imagePath1 imagePath2 (S attempt) k
            else if (attempt =? maxRetries)%nat then
              Some (fallbackImageSimilarity F imagePath1 imagePath2)
            else compareFrom G F imagePath1 imagePath2 (S attempt) k
        end
  end.

Definition compareImages (G : Gemini) (F : FileSystem) (imagePath1 imagePath2 : string)
  : option Similarity :=
  compareFrom G F imagePath1 imagePath2 1 maxRetries.

(** *** Triage of an image *)

Section Triage.

Local Open Scope string_scope.

Record CategoryInfo : Type := mkCategoryInfo {
  info_priority : string;
  info_description : string;
  info_department : string;
  info_estimatedCost : string;
  info_estimatedTime : string
}.

(** [this.issueCategories] *)
Definition issueCategories : list (string * CategoryInfo) :=
  [ ("POTHOLE",
     mkCategoryInfo "HIGH" "Road surface damage requiring immediate attention"
       "Road Maintenance" "Medium" "2-3 days");
    ("STREET_LIGHT",
     mkCategoryInfo "MEDIUM" "Street lighting issues affecting safety"
       "Electrical" "Low" "1-2 days");
    ("GARBAGE_OVERFLOW",
     mkCategoryInfo "HIGH" "Waste management issue requiring immediate cleanup"
       "Sanitation" "Low" "1 day");
    ("DRAIN_BLOCKAGE",
     mkCategoryInfo "HIGH"
       "Drainage system blockage potentially causing flooding"
       "Water Management" "Medium" "2-3 days");
    ("BROKEN_SIDEWALK",
     mkCategoryInfo "MEDIUM" "Sidewalk damage affecting pedestrian safety"
       "Infrastructure" "Medium" "3-5 days");
    ("WATER_LEAK",
     mkCategoryInfo "HIGH" "Water supply leak requiring urgent repair"
       "Water Supply" "High" "1-2 days");
    ("DAMAGED_SIGN",
     mkCategoryInfo "LOW" "Traffic or information signage damage"
       "Traffic Management" "Low" "2-3 days");
    ("ILLEGAL_DUMPING",
     mkCategoryInfo "MEDIUM" "Unauthorized waste disposal requiring cleanup"
       "Sanitation" "Medium" "1-2 days");
    ("VEGETATION_OVERGROWTH",
     mkCategoryInfo "LOW" "Overgrown vegetation obstructing paths or visibility"
       "Parks & Gardens" "Low" "2-3 days");
    ("OTHER",
     mkCategoryInfo "MEDIUM" "General civic issue requiring assessment"
       "General Administration" "Variable" "Variable") ].

(** The result object of [analyzeImage]: the fields the handlers and the
    table use.  A field the model's answer lacks is [None]. *)
Record Analysis : Type := mkAnalysis {
  analysis_category : option string;
  analysis_severity : option string;
  analysis_confidence : JS.number;
  analysis_estimatedUrgency : option string;
  analysis_departmentResponsible : option string;
  analysis_estimatedCost : option string;
  analysis_estimatedRepairTime : option string;
  analysis_aiProcessed : bool;
  analysis_fallbackUsed : bool
}.

(** [description && description.trim()] *)
Definition hasText (description : string) : bool :=
  negb (String.eqb description "") && negb (String.eqb (JS.trim description) "").

(** The chain of keyword tests of [fallbackAnalysis]. *)
Definition keywordTriage (descriptionLower : string) : string * string :=
  if JS.includes descriptionLower "pothole" || JS.includes descriptionLower "road"
     || JS.includes descriptionLower "crack"
  then ("POTHOLE", "HIGH")
  else if JS.includes descriptionLower "light"
          || JS.includes descriptionLower "lamp"
  then ("STREET_LIGHT", "MEDIUM")
  else if JS.includes descriptionLower "garbage"
          || JS.includes descriptionLower "trash"
          || JS.includes descriptionLower "waste"
  then ("GARBAGE_OVERFLOW", "HIGH")
  else if JS.includes descriptionLower "drain"
          || JS.includes descriptionLower "water"
          || JS.includes descriptionLower "flood"
  then ("DRAIN_BLOCKAGE", "HIGH")
  else if JS.includes descriptionLower "sidewalk"
          || JS.includes descriptionLower "pavement"
  then ("BROKEN_SIDEWALK", "MEDIUM")
  else if JS.includes descriptionLower "leak"
  then ("WATER_LEAK", "HIGH")
  else if JS.includes descriptionLower "sign"
  then ("DAMAGED_SIGN", "LOW")
  else ("OTHER", "MEDIUM").

(** The metadata fields read off [categoryInfo]. *)
Definition withCategoryInfo (categoryInfo : JS.Property CategoryInfo)
    (category severity : option string) (confidence : JS.number)
    (urgency : option string) (aiProcessed fallbackUsed : bool) : Analysis :=
  {| analysis_category := category;
     analysis_severity := severity;
     analysis_confidence := confidence;
     analysis_estimatedUrgency := urgency;
     analysis_departmentResponsible :=
       match categoryInfo with
       | JS.Own info => Some (info_department info)
       | _ => None
       end;
     analysis_estimatedCost :=
       match categoryInfo with
       | JS.Own info => Some (info_estimatedCost info)
       | _ => None
       end;
     analysis_estimatedRepairTime :=
       match categoryInfo with
       | JS.Own info => Some (info_estimatedTime info)
       | _ => None
       end;
     analysis_aiProcessed := aiProcessed;
     analysis_fallbackUsed := fallbackUsed |}.

Definition fallbackAnalysis (description : string) : Analysis :=
  let descriptionLower := JS.toLowerCase description in
  let '(category, severity) :=
    if hasText description then keywordTriage descriptionLower
    else ("OTHER", "MEDIUM") in
  let categoryInfo := JS.getProperty issueCategories category in
  withCategoryInfo categoryInfo (Some category) (Some severity)
    (JS.Num (if hasText description then 60 else 40))
    (Some (if String.eqb severity "HIGH" then "URGENT" else "MODERATE"))
    false true.

(** The parsed JSON answer of the model to the triage prompt. *)
Record TriageAnswer : Type := mkTriageAnswer {
  answer_category : option string;
  answer_severity : option string;
  answer_confidence : JS.number;
  answer_estimatedUrgency : option string
}.

(** One attempt at the model: what it yields, or the error thrown with
    its [status] if it has one. *)
Inductive Try (A : Type) : Type :=
| Got (a : A)
| Threw (status : option Z).

Arguments Got {A} a.
Arguments Threw {A} status.

(** [this.issueCategories[analysis.category] || this.issueCategories['OTHER']];
    an absent category is the key ["undefined"]. *)
Definition categoryInfoOf (category : option string) : JS.Property CategoryInfo :=
  let key := match category with Some c => c | None => "undefined" end in
  match JS.getProperty issueCategories key with
  | JS.Undefined => JS.getProperty issueCategories "OTHER"
  | found => found
  end.

Definition retryDelay : nat := 5000.

(** The retry loop of [analyzeImage]; next to the result it answers the
    milliseconds spent in [setTimeout] between attempts. *)
Fixpoint analyzeFrom (configured : bool) (model : nat -> Try TriageAnswer)
    (userDescription : string) (attempt remaining : nat)
  : option Analysis * nat :=
  match remaining with
  | O => (None, O)
  | S k =>
      if negb configured then (Some (fallbackAnalysis userDescription), O)
      else
        match model attempt with
        | Got analysis =>
            (Some (withCategoryInfo (categoryInfoOf (answer_category analysis))
                     (answer_category analysis) (answer_severity analysis)
                     (answer_confidence analysis)
                     (answer_estimatedUrgency analysis) true false),
             O)
        | Threw st =>
            let overloaded :=
              match st with
              | Some code => Z.eqb code 503
              | None => false
              end in
            if overloaded && (attempt <? maxRetries)%nat then
              let '(result, waited) :=
                analyzeFrom configured model userDescription (S attempt) k in
              (result, (retryDelay + waited)%nat)
            else if (attempt =? maxRetries)%nat then
              (Some (fallbackAnalysis userDescription), O)
            else analyzeFrom configured model userDescription (S attempt) k
        end
  end.

Definition analyzeImage (configured : bool) (model : nat -> Try TriageAnswer)
    (userDescription : string) : option Analysis * nat :=
  analyzeFrom configured model userDescription 1 maxRetries.

(** *** Verification of a resolution *)

Record Verification : Type := mkVerification {
  verification_resolved : bool;
  verification_verificationScore : JS.number;
  verification_publicRecommendation : option string;
  verification_aiProcessed : bool;
  verification_fallbackUsed : bool
}.

Definition fallbackResolutionVerification : Verification :=
  {| verification_resolved := false;
     verification_verificationScore := JS.Num 50;
     verification_publicRecommendation := Some "NEEDS_REVIEW";
     verification_aiProcessed := false;
     verification_fallbackUsed := true |}.

(** The parsed JSON answer of the model to the verification prompt. *)
Record VerificationAnswer : Type := mkVerificationAnswer {
  answer_resolved : bool;
  answer_verificationScore : JS.number;
  answer_publicRecommendation : option string
}.

Fixpoint verifyFrom (configured : bool) (model : nat -> Try VerificationAnswer)
    (attempt remaining : nat) : option Verification * nat :=
  match remaining with
  | O => (None, O)
  | S k =>
      if negb configured then (Some fallbackResolutionVerification, O)
      else
        match model attempt with
        | Got verification =>
            (Some {| verification_resolved := answer_resolved verification;
                     verification_verificationScore :=
                       answer_verificationScore verification;
                     verification_publicRecommendation :=
                       answer_publicRecommendation verification;
                     verification_aiProcessed := true;
                     verification_fallbackUsed := false |},
             O)
        | Threw st =>
            let overloaded :=
              match st with
              | Some code => Z.eqb code 503
              | None => false
              end in
            if overloaded && (attempt <? maxRetries)%nat then
              let '(result, waited) := verifyFrom configured model (S attempt) k in
              (result, (retryDelay + waited)%nat)
            else if (attempt =? maxRetries)%nat then
              (Some fallbackResolutionVerification, O)
            else verifyFrom configured model (S attempt) k
        end
  end.

Definition verifyResolution (configured : bool)
    (model : nat -> Try VerificationAnswer) : option Verification * nat :=
  verifyFrom configured model 1 maxRetries.

End Triage.

Arguments Got {A} a.
Arguments Threw {A} status.

End aiService.

(* ================================================================= *)
(** ** The distance in binary64 arithmetic

    [aiService.calculateDistance] above computes with real numbers.  This
    module replays [calculateDistance] and the distance filter of
    [findNearbyReports] as JavaScript evaluates them: every [+], [-], [*],
    [/] and [Math.sqrt] is the IEEE 754 binary64 operation, rounded to
    nearest even ([SpecFloat]); [Math.sin], [Math.cos] and [Math.atan2],
    whose results ECMAScript leaves to the implementation, are those of
    the [Math] library the code runs on. *)

Module Binary64.

Definition number : Type := SpecFloat.spec_float.

Definition prec : Z := 53.
Definition emax : Z := 1024.

Definition NaN : number := SpecFloat.S754_nan.

Definition add : number -> number -> number := SpecFloat.SFadd prec emax.
Definition sub : number -> number -> number := SpecFloat.SFsub prec emax.
Definition mul : number -> number -> number := SpecFloat.SFmul prec emax.
Definition div : number -> number -> number := SpecFloat.SFdiv prec emax.
Definition sqrt : number -> number := SpecFloat.SFsqrt prec emax.

(** [a <= b]: false as soon as one side is [NaN]. *)
Definition le (a b : number) : bool := SpecFloat.SFleb a b.

(** The double of an integer literal. *)
Definition ofZ (z : Z) : number :=
  SpecFloat.binary_normalize prec emax z 0 false.

(** [Math.PI], the double 0x1.921fb54442d18p+1 (3.141592653589793). *)
Definition PI : number := SpecFloat.S754_finite false 7074237752028440 (-51).

Record Math : Type := mkMath {
  sin : number -> number;
  cos : number -> number;
  atan2 : number -> number -> number
}.

Section Distance.

Variable M : Math.

(** [x * Math.PI/180] and [x/2] *)
Definition radians (x : number) : number := div (mul x PI) (ofZ 180).

Definition half (x : number) : number := div x (ofZ 2).

Definition haversine_a (lat1 lon1 lat2 lon2 : number) : number :=
  let phi1 := radians lat1 in
  let phi2 := radians lat2 in
  let dphi := radians (sub lat2 lat1) in
  let dlam := radians (sub lon2 lon1) in
  add (mul (sin M (half dphi)) (sin M (half dphi)))
      (mul (mul (mul (cos M phi1) (cos M phi2)) (sin M (half dlam)))
           (sin M (half dlam))).

Definition calculateDistance (lat1 lon1 lat2 lon2 : number) : number :=
  let R := ofZ 6371000 in
  let a := haversine_a lat1 lon1 lat2 lon2 in
  let c := mul (ofZ 2) (atan2 M (sqrt a) (sqrt (sub (ofZ 1) a))) in
  mul R c.

(** The [filter] and [map] of [findNearbyReports] on the rows the query
    selected, whatever the other columns of a row are. *)
Definition nearbyReports {Row : Type} (latitudeOf longitudeOf : Row -> number)
    (latitude0 longitude0 radiusMeters : number) (reports : list Row)
  : list (Row * number) :=
  map (fun report =>
         (report,
          calculateDistance latitude0 longitude0
            (latitudeOf report) (longitudeOf report)))
      (filter (fun report =>
                 le (calculateDistance latitude0 longitude0
                       (latitudeOf report) (longitudeOf report))
                    radiusMeters)
              reports).

End Distance.

End Binary64.

(* ================================================================= *)
(** ** The similarity oracle as the handlers reach it *)

(** [await aiService.compareImages(a, b)] inside the handler's [try]:
    the awaited object, or an exception. *)
Inductive Outcome : Type :=
| Raised
| Returned (similarity : aiService.Similarity).

Class SimilarityOracle : Type := {
  compare : string -> string -> Outcome
}.

(** The oracle of this repository.  Reading [similarityScore] off an
    [undefined] result would throw inside the [try]. *)
Definition aiOracle (G : aiService.Gemini) (F : aiService.FileSystem)
  : SimilarityOracle :=
  {| compare := fun a b =>
       match aiService.compareImages G F a b with
       | Some similarity => Returned similarity
       | None => Raised
       end |}.

(* ================================================================= *)
(** ** Handlers ([server.js]) *)

Module server.

(** *** Requests and responses *)

Record Upload : Type := mkUpload {
  filename : string;
  path : string
}.

(** A multipart request to [POST /report] after [multer]. *)
Record ReportRequest : Type := mkReportRequest {
  files_photo : option Upload;
  body_description : option string;
  body_latitude : option string;
  body_longitude : option string
}.

(** What the handler obtains from its collaborators for one submission:
    the triage ([aiAnalysis]), the clock and the SLA deadline computed by
    the escalation service. *)
Record Triage : Type := mkTriage {
  ai_category : option string;
  ai_severity : option string;
  now : Z;
  slaDeadline : Z
}.

Record DuplicateInfo : Type := mkDuplicateInfo {
  primaryReportId : positive;
  similarityScore : JS.number;
  distance : JS.number;
  reasoning : string
}.

Inductive Response : Type :=
| Status400 (error : string)
| Status404 (error : string)
| Status500 (error : string)
| Status201 (reportId : positive) (isDuplicate : bool)
    (duplicateInfo : option DuplicateInfo)
| Status200 (clearedEscalation : bool)
| Status200Resolved (resolutionPhotoUrl : string).

(** *** The rows and updates the handlers write *)

(** [aiAnalysis.severity || 'MEDIUM'] *)
Definition priorityOf (t : Triage) : string :=
  match ai_severity t with
  | Some s => if String.eqb s EmptyString then "MEDIUM" else s
  | None => "MEDIUM"
  end.

(** [text v] is the string of a field that passed the truthiness test. *)
Definition text (v : option string) : string :=
  match v with
  | Some s => s
  | None => EmptyString
  end.

Definition duplicateRow (photoUrl : string) (lat lon : JS.number) (t : Triage)
    (info : DuplicateInfo) (i : positive) : Report :=
  {| id := i;
     photo_url := photoUrl;
     latitude := lat;
     longitude := lon;
     status := pending;
     category := ai_category t;
     severity := ai_severity t;
     priority := priorityOf t;
     duplicate_of := Some (primaryReportId info);
     duplicate_count := 1;
     similarity_score := similarityScore info;
     is_primary := false;
     merged_reports := None;
     resolution_photo_url := None;
     ai_verification_score := JS.Num 0;
     sla_deadline := slaDeadline t;
     escalated := false;
     escalation_notified := false;
     created_at := now t |}.

Definition primaryRow (photoUrl : string) (lat lon : JS.number) (t : Triage)
    (i : positive) : Report :=
  {| id := i;
     photo_url := photoUrl;
     latitude := lat;
     longitude := lon;
     status := pending;
     category := ai_category t;
     severity := ai_severity t;
     priority := priorityOf t;
     duplicate_of := None;
     duplicate_count := 1;
     similarity_score := JS.Num 0;
     is_primary := true;
     merged_reports := None;
     resolution_photo_url := None;
     ai_verification_score := JS.Num 0;
     sla_deadline := slaDeadline t;
     escalated := false;
     escalation_notified := false;
     created_at := now t |}.

(** The UPDATE of the matched primary: [duplicate_count + 1], and the new
    id put at the end of [merged_reports] ([json_array(?)] on NULL,
    [json_insert(merged_reports, '$[#]', ?)] otherwise). *)
Definition mergeDuplicate (duplicateReportId : positive) (r : Report) : Report :=
  {| id := id r;
     photo_url := photo_url r;
     latitude := latitude r;
     longitude := longitude r;
     status := status r;
     category := category r;
     severity := severity r;
     priority := priority r;
     duplicate_of := duplicate_of r;
     duplicate_count := duplicate_count r + 1;
     similarity_score := similarity_score r;
     is_primary := is_primary r;
     merged_reports :=
       match merged_reports r with
       | None => Some [duplicateReportId]
       | Some merged => Some (merged ++ [duplicateReportId])
       end;
     resolution_photo_url := resolution_photo_url r;
     ai_verification_score := ai_verification_score r;
     sla_deadline := sla_deadline r;
     escalated := escalated r;
     escalation_notified := escalation_notified r;
     created_at := created_at r |}.

(** [SET status = ?] *)
Definition setStatus (st : Status) (r : Report) : Report :=
  {| id := id r;
     photo_url := photo_url r;
     latitude := latitude r;
     longitude := longitude r;
     status := st;
     category := category r;
     severity := severity r;
     priority := priority r;
     duplicate_of := duplicate_of r;
     duplicate_count := duplicate_count r;
     similarity_score := similarity_score r;
     is_primary := is_primary r;
     merged_reports := merged_reports r;
     resolution_photo_url := resolution_photo_url r;
     ai_verification_score := ai_verification_score r;
     sla_deadline := sla_deadline r;
     escalated := escalated r;
     escalation_notified := escalation_notified r;
     created_at := created_at r |}.

(** [SET status = ?, escalated = 0, escalation_notified = 0] *)
Definition setStatusClearing (st : Status) (r : Report) : Report :=
  {| id := id r;
     photo_url := photo_url r;
     latitude := latitude r;
     longitude := longitude r;
     status := st;
     category := category r;
     severity := severity r;
     priority := priority r;
     duplicate_of := duplicate_of r;
     duplicate_count := duplicate_count r;
     similarity_score := similarity_score r;
     is_primary := is_primary r;
     merged_reports := merged_reports r;
     resolution_photo_url := resolution_photo_url r;
     ai_verification_score := ai_verification_score r;
     sla_deadline := sla_deadline r;
     escalated := false;
     escalation_notified := false;
     created_at := created_at r |}.

(** [SET status = 'resolved', resolution_photo_url = ?,
    ai_verification_score = ?, escalated = 0, escalation_notified = 0];
    the statement of the failed-verification branch leaves the score. *)
Definition setResolution (resolutionPhotoUrl : string)
    (verificationScore : option JS.number) (r : Report) : Report :=
  {| id := id r;
     photo_url := photo_url r;
     latitude := latitude r;
     longitude := longitude r;
     status := resolved;
     category := category r;
     severity := severity r;
     priority := priority r;
     duplicate_of := duplicate_of r;
     duplicate_count := duplicate_count r;
     similarity_score := similarity_score r;
     is_primary := is_primary r;
     merged_reports := merged_reports r;
     resolution_photo_url := Some resolutionPhotoUrl;
     ai_verification_score :=
       match verificationScore with
       | Some score => score
       | None => ai_verification_score r
       end;
     sla_deadline := sla_deadline r;
     escalated := false;
     escalation_notified := false;
     created_at := created_at r |}.

Section Handlers.

Context {oracle : SimilarityOracle}.

(** [fs] and the directory above [__dirname]. *)
Variable F : aiService.FileSystem.
Variable projectRoot : string.

(** [path.join(__dirname, '..', nearbyReport.photo_url)] *)
Definition nearbyImagePath (r : Report) : string :=
  String.append projectRoot (photo_url r).

(** *** [POST /report]: the similarity loop

    The loop over [nearbyReports].  Next to [duplicateInfo] it answers the
    ids of the candidates [compareImages] was called on, in call order. *)
Fixpoint similarityLoop (imagePath : string)
    (nearbyReports : list aiService.NearbyReport)
  : option DuplicateInfo * list positive :=
  match nearbyReports with
  | [] => (None, [])
  | nearbyReport :: rest =>
      let candidate := aiService.report nearbyReport in
      if aiService.existsSync F (nearbyImagePath candidate) then
        match compare imagePath (nearbyImagePath candidate) with
        | Returned similarity =>
            if JS.ge (aiService.similarityScore similarity) (JS.Num 80) then
              (Some {| primaryReportId := id candidate;
                       similarityScore := aiService.similarityScore similarity;
                       distance := aiService.distance nearbyReport;
                       reasoning := aiService.reasoning similarity |},
               [id candidate])
            else
              let '(found, compared) := similarityLoop imagePath rest in
              (found, id candidate :: compared)
        | Raised =>
            let '(found, compared) := similarityLoop imagePath rest in
            (found, id candidate :: compared)
        end
      else similarityLoop imagePath rest
  end.

(** *** [POST /report] *)

Definition postReport (req : ReportRequest) (t : Triage) (s : Store)
  : Response * Store :=
  match files_photo req with
  | None => (Status400 "Photo is required", s)
  | Some file =>
      if negb (JS.truthy (body_latitude req))
         || negb (JS.truthy (body_longitude req)) then
        (Status400 "Latitude and longitude are required", s)
      else
        let photoUrl := String.append "/uploads/" (filename file) in
        let imagePath := path file in
        let lat := JS.parseFloat (text (body_latitude req)) in
        let lon := JS.parseFloat (text (body_longitude req)) in
        let nearbyReports :=
          aiService.findNearbyReports lat lon (JS.Num 50) None s in
        match fst (similarityLoop imagePath nearbyReports) with
        | Some duplicateInfo =>
            match Db.insert (duplicateRow photoUrl lat lon t duplicateInfo) s with
            | None => (Status500 "Failed to save report", s)
            | Some (duplicateReportId, s1) =>
                (Status201 duplicateReportId true (Some duplicateInfo),
                 Db.update (Zpos (primaryReportId duplicateInfo))
                   (mergeDuplicate duplicateReportId) s1)
            end
        | None =>
            match Db.insert (primaryRow photoUrl lat lon t) s with
            | None => (Status500 "Failed to save report", s)
            | Some (reportId, s1) => (Status201 reportId false None, s1)
            end
        end
  end.

End Handlers.

(** *** [PATCH /report/:id] *)

Definition parseStatus (s : string) : option Status :=
  if String.eqb s "pending" then Some pending
  else if String.eqb s "verified" then Some verified
  else if String.eqb s "resolved" then Some resolved
  else None.

(** [idParam] is the row id the path segment denotes. *)
Definition patchReport (idParam : Z) (body_status : option string) (s : Store)
  : Response * Store :=
  match body_status with
  | None =>
      (Status400 "Invalid status. Must be pending, verified, or resolved", s)
  | Some text0 =>
      match parseStatus text0 with
      | None =>
          (Status400 "Invalid status. Must be pending, verified, or resolved", s)
      | Some newStatus =>
          match Db.get idParam s with
          | None => (Status404 "Report not found", s)
          | Some _ =>
              let s' :=
                if Status_eqb newStatus resolved
                then Db.update idParam (setStatusClearing newStatus) s
                else Db.update idParam (setStatus newStatus) s in
              match Db.changes idParam s with
              | O => (Status404 "Report not found", s')
              | S _ => (Status200 (Status_eqb newStatus resolved), s')
              end
          end
      end
  end.

(** *** [POST /report/:id/resolve]

    [verification] is the score of [aiService.verifyResolution], [None]
    when it throws. *)
Definition resolveReport (idParam : Z) (file : option Upload)
    (verification : option JS.number) (s : Store) : Response * Store :=
  match file with
  | None => (Status400 "Resolution photo is required", s)
  | Some upload =>
      match Db.get idParam s with
      | None => (Status404 "Report not found", s)
      | Some _ =>
          let resolutionPhotoUrl := String.append "/uploads/" (filename upload) in
          (Status200Resolved resolutionPhotoUrl,
           Db.update idParam (setResolution resolutionPhotoUrl verification) s)
      end
  end.

(** *** The read handlers *)

(** The answer of a handler that reads: the body of a 200, or a status
    code with its [error] (or [message]). *)
Inductive Reply (A : Type) : Type :=
| Reply200 (body : A)
| ReplyError (code : nat) (error : string).

Arguments Reply200 {A} body.
Arguments ReplyError {A} code error.

(** A stable sort of rows: [earlier r x] tells that [r] may come before
    [x]; rows neither of which must come first keep their rowid order. *)
Fixpoint insert_by (earlier : Report -> Report -> bool) (r : Report)
    (l : list Report) : list Report :=
  match l with
  | [] => [r]
  | x :: t => if earlier r x then r :: l else x :: insert_by earlier r t
  end.

Definition order_by (earlier : Report -> Report -> bool) (l : list Report)
  : list Report :=
  fold_right (insert_by earlier) [] l.

(** [CASE severity WHEN 'HIGH' THEN 3 WHEN 'MEDIUM' THEN 2 WHEN 'LOW' THEN 1
    ELSE 0 END] *)
Definition severityRank (r : Report) : Z :=
  match severity r with
  | Some s =>
      if String.eqb s "HIGH" then 3
      else if String.eqb s "MEDIUM" then 2
      else if String.eqb s "LOW" then 1
      else 0
  | None => 0
  end.

Definition b2z (b : bool) : Z := if b then 1 else 0.

(** [a <= b] in the lexicographic order of equally long key lists. *)
Fixpoint lex_le (a b : list Z) : bool :=
  match a, b with
  | x :: a', y :: b' => Z.ltb x y || (Z.eqb x y && lex_le a' b')
  | _, _ => true
  end.

Section Listing.

(** The [urgent] column, which the record of a row leaves out, as a
    function of the row. *)
Variable urgent : Report -> bool.

(** The terms of [ORDER BY escalated DESC, urgent DESC, CASE severity ...
    DESC, duplicate_count DESC, created_at DESC]. *)
Definition riskKey (r : Report) : list Z :=
  [ b2z (escalated r); b2z (urgent r); severityRank r; duplicate_count r;
    created_at r ].

Definition riskFirst (r x : Report) : bool := lex_le (riskKey x) (riskKey r).

(** [GET /reports]; [includeDuplicates] is the query parameter. *)
Definition getReports (includeDuplicates : option string) (s : Store)
  : list Report :=
  let showDuplicates :=
    match includeDuplicates with
    | Some v => String.eqb v "true"
    | None => false
    end in
  order_by riskFirst
    (if showDuplicates then rows s else filter is_primary (rows s)).

End Listing.

(** [GET /escalations] *)
Definition getEscalations (s : Store) : list Report :=
  order_by (fun r x => (sla_deadline r <=? sla_deadline x)%Z)
    (filter (fun r => escalated r && negb (Status_eqb (status r) resolved))
       (rows s)).

(** [GET /report/:id] *)
Definition getReport (idParam : Z) (s : Store) : Reply Report :=
  match Db.get idParam s with
  | Some row => Reply200 row
  | None => ReplyError 404 "Report not found"
  end.

(** The body of [GET /report/:id/resolution]. *)
Record ResolutionView : Type := mkResolutionView {
  view_reportId : positive;
  view_beforePhoto : string;
  view_afterPhoto : string;
  view_verificationScore : JS.number
}.

Definition getResolution (idParam : Z) (s : Store) : Reply ResolutionView :=
  match Db.get idParam s with
  | None => ReplyError 404 "Report not found"
  | Some report =>
      if negb (Status_eqb (status report) resolved)
         || negb (JS.truthy (resolution_photo_url report))
      then ReplyError 404 "No resolution data available"
      else
        Reply200 {| view_reportId := id report;
                    view_beforePhoto := photo_url report;
                    view_afterPhoto := text (resolution_photo_url report);
                    view_verificationScore := ai_verification_score report |}
  end.

(** The [escalationStats] of [GET /analytics]. *)
Record EscalationStats : Type := mkEscalationStats {
  totalEscalated : nat;
  pendingEscalated : nat;
  resolvedEscalated : nat
}.

Definition escalationStats (s : Store) : EscalationStats :=
  {| totalEscalated := List.length (filter escalated (rows s));
     pendingEscalated :=
       List.length
         (filter (fun r => escalated r && negb (Status_eqb (status r) resolved))
            (rows s));
     resolvedEscalated :=
       List.length
         (filter (fun r => escalated r && Status_eqb (status r) resolved)
            (rows s)) |}.

(** *** Admin access *)

(** [POST /admin/login]: the token of a 200, or the 401.  [now] is
    [Date.now()]. *)
Definition adminLogin (username password : option string) (now : N)
  : Reply string :=
  match username, password with
  | Some u, Some pw =>
      if String.eqb u "admin" && String.eqb pw "admin"
      then Reply200 (String.append "admin-token-" (JS.decimal now))
      else ReplyError 401 "Invalid credentials"
  | _, _ => ReplyError 401 "Invalid credentials"
  end.

(** [authHeader && authHeader.split(' ')[1]], [None] when falsy. *)
Definition bearerToken (authorization : option string) : option string :=
  match authorization with
  | None => None
  | Some authHeader =>
      if String.eqb authHeader "" then None
      else
        match nth_error (JS.split " "%char authHeader) 1 with
        | Some token => if String.eqb token "" then None else Some token
        | None => None
        end
  end.

(** [verifyAdmin]: [None] is [next()], [Some] the 401 with its message. *)
Definition verifyAdmin (authorization : option string) : option string :=
  match bearerToken authorization with
  | None => Some "Access denied. No token provided."%string
  | Some token =>
      if JS.startsWith token "admin-token-" then None
      else Some "Invalid token."%string
  end.

(** [GET /admin/reports] *)
Definition getAdminReports (urgent : Report -> bool)
    (authorization includeDuplicates : option string) (s : Store)
  : Reply (list Report) :=
  match verifyAdmin authorization with
  | Some message => ReplyError 401 message
  | None => Reply200 (getReports urgent includeDuplicates s)
  end.

(** *** The handlers on the repository's own services *)

(** [aiAnalysis.estimatedUrgency === 'IMMEDIATE' || ... === 'URGENT'] *)
Definition isUrgent (aiAnalysis : aiService.Analysis) : bool :=
  match aiService.analysis_estimatedUrgency aiAnalysis with
  | Some u => String.eqb u "IMMEDIATE" || String.eqb u "URGENT"
  | None => false
  end.

(** [POST /report] with [aiService] for the triage and the comparison:
    [model] is the Gemini model on the triage prompt, [G] the model on the
    comparison prompt and the API key, [clock] and [deadline] the creation
    time and the SLA deadline of the escalation service.  A triage that
    came back [undefined] would throw after the validation. *)
Definition submitReport (G : aiService.Gemini)
    (model : nat -> aiService.Try aiService.TriageAnswer)
    (F : aiService.FileSystem) (projectRoot : string) (clock deadline : Z)
    (req : ReportRequest) (s : Store) : Response * Store :=
  match fst (aiService.analyzeImage (aiService.apiKeyConfigured G) model
               (text (body_description req))) with
  | Some aiAnalysis =>
      @postReport (aiOracle G F) F projectRoot req
        {| ai_category := aiService.analysis_category aiAnalysis;
           ai_severity := aiService.analysis_severity aiAnalysis;
           now := clock;
           slaDeadline := deadline |} s
  | None =>
      match files_photo req with
      | None => (Status400 "Photo is required", s)
      | Some _ =>
          if negb (JS.truthy (body_latitude req))
             || negb (JS.truthy (body_longitude req))
          then (Status400 "Latitude and longitude are required", s)
          else (Status500 "Internal server error", s)
      end
  end.

(** [POST /report/:id/resolve] with [aiService.verifyResolution]; reading
    the score off an [undefined] verification throws into the handler's
    [catch]. *)
Definition resolveWithVerification (configured : bool)
    (model : nat -> aiService.Try aiService.VerificationAnswer)
    (idParam : Z) (file : option Upload) (s : Store) : Response * Store :=
  resolveReport idParam file
    (option_map aiService.verification_verificationScore
       (fst (aiService.verifyResolution configured model))) s.

End server.

(* ================================================================= *)
(** ** Manual coordinates in the report form ([ReportForm.tsx]) *)

Module ReportForm.

(** [handleManualLocation]: the location that is set, [None] when the
    form shows its error message instead. *)
Definition handleManualLocation (manualLatitude manualLongitude : string)
  : option (JS.number * JS.number) :=
  let lat := JS.parseFloat manualLatitude in
  let lng := JS.parseFloat manualLongitude in
  if JS.isNaN lat || JS.isNaN lng
     || JS.lt lat (JS.Num (-90)) || JS.gt lat (JS.Num 90)
     || JS.lt lng (JS.Num (-180)) || JS.gt lng (JS.Num 180)
  then None
  else Some (lat, lng).

End ReportForm.

(* ================================================================= *)
(** ** Vocabulary of the properties *)

(** Most recent first. *)
Definition newer_first (a b : Report) : Prop := (created_at b <= created_at a)%Z.

(** The merge candidates of the spec's [findNearby]: open primaries other
    than [excludeId] within [radiusMeters] of the query point. *)
Definition Candidate (lat lon radiusMeters : JS.number) (excludeId : option Z)
    (r : Report) : Prop :=
  is_primary r = true
  /\ (status r = pending \/ status r = verified)
  /\ excludeId <> Some (Zpos (id r))
  /\ JS.le (aiService.calculateDistance lat lon (latitude r) (longitude r))
       radiusMeters = true.

(** Row ids are unique and below the AUTOINCREMENT counter, and so is
    every id a duplicate refers to. *)
Definition WellFormed (s : Store) : Prop :=
  NoDup (map id (rows s))
  /\ (forall r, In r (rows s) -> (id r < next_id s)%positive)
  /\ (forall r j, In r (rows s) -> duplicate_of r = Some j ->
        (j < next_id s)%positive).

(** The rows whose [duplicate_of] is [i]. *)
Definition refers (i : positive) (r : Report) : bool :=
  match duplicate_of r with
  | Some j => Pos.eqb j i
  | None => false
  end.

Definition duplicatesOf (i : positive) (s : Store) : list Report :=
  filter (refers i) (rows s).

(** On every primary, [duplicateCount = 1 + |mergedReportIds|], and
    [mergedReportIds] has one entry per report that is a duplicate of it. *)
Definition MergeInvariant (s : Store) : Prop :=
  forall r, In r (rows s) -> is_primary r = true ->
    duplicate_count r = (1 + Z.of_nat (List.length (mergedReportIds r)))%Z
    /\ (1 + Z.of_nat (List.length (mergedReportIds r)))%Z
       = (1 + Z.of_nat (List.length (duplicatesOf (id r) s)))%Z.

(** The core operations: a submission (with the oracle, file system and
    triage it runs against), a status update, a resolution upload. *)
Inductive Operation : Type :=
| Submit (oracle : SimilarityOracle) (F : aiService.FileSystem)
    (projectRoot : string) (req : server.ReportRequest) (t : server.Triage)
| UpdateStatus (idParam : Z) (body_status : option string)
| Resolve (idParam : Z) (file : option server.Upload)
    (verification : option JS.number).

Definition run (op : Operation) (s : Store) : server.Response * Store :=
  match op with
  | Submit oracle F projectRoot req t =>
      @server.postReport oracle F projectRoot req t s
  | UpdateStatus idParam body_status => server.patchReport idParam body_status s
  | Resolve idParam file verification =>
      server.resolveReport idParam file verification s
  end.

(** The stores the service can be in, starting from the empty table. *)
Inductive reachable : Store -> Prop :=
| reachable_empty : reachable emptyStore
| reachable_step (op : Operation) (s : Store) :
    reachable s -> reachable (snd (run op s)).

(** A submission that passes the handler's validation and that the table
    accepts: its coordinates are numbers, and its triage names one of the
    three severities or none. *)
Definition Acceptable (req : server.ReportRequest) (t : server.Triage) : Prop :=
  server.files_photo req <> None
  /\ JS.truthy (server.body_latitude req) = true
  /\ JS.truthy (server.body_longitude req) = true
  /\ JS.parseFloat (server.text (server.body_latitude req)) <> JS.NaN
  /\ JS.parseFloat (server.text (server.body_longitude req)) <> JS.NaN
  /\ (server.ai_severity t = None
      \/ server.ai_severity t = Some "LOW"%string
      \/ server.ai_severity t = Some "MEDIUM"%string
      \/ server.ai_severity t = Some "HIGH"%string).

(** The query point of a submission. *)
Definition queryLatitude (req : server.ReportRequest) : JS.number :=
  JS.parseFloat (server.text (server.body_latitude req)).

Definition queryLongitude (req : server.ReportRequest) : JS.number :=
  JS.parseFloat (server.text (server.body_longitude req)).

(** The image path of a submission, [""] when there is no photo. *)
Definition imagePathOf (req : server.ReportRequest) : string :=
  match server.files_photo req with
  | Some file => server.path file
  | None => EmptyString
  end.

Section Matching.

Context {oracle : SimilarityOracle}.
Variable F : aiService.FileSystem.
Variable projectRoot : string.

(** Candidate [n] is a match for the new image with comparison result
    [similarity]: its photo is there, the oracle answers, and the score is
    at least 80. *)
Definition Matches (imagePath : string) (n : aiService.NearbyReport)
    (similarity : aiService.Similarity) : Prop :=
  aiService.existsSync F
    (server.nearbyImagePath projectRoot (aiService.report n)) = true
  /\ compare imagePath (server.nearbyImagePath projectRoot (aiService.report n))
     = Returned similarity
  /\ JS.ge (aiService.similarityScore similarity) (JS.Num 80) = true.

(** The candidates of a list whose photo is on disk. *)
Definition withPhoto (l : list aiService.NearbyReport)
  : list aiService.NearbyReport :=
  filter (fun n => aiService.existsSync F
                     (server.nearbyImagePath projectRoot (aiService.report n))) l.

(** The candidates of a submission, as the handler queries them. *)
Definition candidatesOf (req : server.ReportRequest) (s : Store)
  : list aiService.NearbyReport :=
  aiService.findNearbyReports (queryLatitude req) (queryLongitude req)
    (JS.Num 50) None s.

(** The match the handler settles on for a submission. *)
Definition matchOf (req : server.ReportRequest) (s : Store)
  : option server.DuplicateInfo :=
  fst (server.similarityLoop F projectRoot (imagePathOf req) (candidatesOf req s)).

End Matching.

(** The [photo_url] of a submission. *)
Definition photoUrlOf (req : server.ReportRequest) : string :=
  match server.files_photo req with
  | Some file => String.append "/uploads/" (server.filename file)
  | None => EmptyString
  end.

(** The table after a submission was stored as a duplicate of
    [primaryReportId info], and after it was stored as a primary. *)
Definition storedDuplicate (req : server.ReportRequest) (t : server.Triage)
    (info : server.DuplicateInfo) (s : Store) : Store :=
  Db.update (Zpos (server.primaryReportId info))
    (server.mergeDuplicate (next_id s))
    {| rows := rows s
               ++ [server.duplicateRow (photoUrlOf req) (queryLatitude req)
                     (queryLongitude req) t info (next_id s)];
       next_id := Pos.succ (next_id s) |}.

Definition storedPrimary (req : server.ReportRequest) (t : server.Triage)
    (s : Store) : Store :=
  {| rows := rows s
             ++ [server.primaryRow (photoUrlOf req) (queryLatitude req)
                   (queryLongitude req) t (next_id s)];
     next_id := Pos.succ (next_id s) |}.

(** An update that leaves the merge bookkeeping of every row alone. *)
Definition KeepsBookkeeping (g : Report -> Report) : Prop :=
  forall r,
    id (g r) = id r
    /\ is_primary (g r) = is_primary r
    /\ duplicate_of (g r) = duplicate_of r
    /\ duplicate_count (g r) = duplicate_count r
    /\ merged_reports (g r) = merged_reports r.

(* ================================================================= *)
(** ** Sample inputs *)

Module Sample.

Local Open Scope string_scope.

Definition upload : server.Upload :=
  {| server.filename := "a.jpg"; server.path := "uploads/a.jpg" |}.

(** A report at (12.00, 77.00). *)
Definition request : server.ReportRequest :=
  {| server.files_photo := Some upload;
     server.body_description := Some "pothole";
     server.body_latitude := Some "12.00";
     server.body_longitude := Some "77.00" |}.

(** The same with coordinates no place on Earth has. *)
Definition farOut : server.ReportRequest :=
  {| server.files_photo := Some upload;
     server.body_description := Some "pothole";
     server.body_latitude := Some "999";
     server.body_longitude := Some "999" |}.

Definition triage : server.Triage :=
  {| server.ai_category := Some "POTHOLE";
     server.ai_severity := Some "HIGH";
     server.now := 1700000000;
     server.slaDeadline := 1700086400 |}.

(** Every photo is on disk and has 1000 bytes. *)
Definition files : aiService.FileSystem :=
  {| aiService.existsSync := fun _ => true;
     aiService.statSync := fun _ => Some 1000%N |}.

(** Every photo is on disk and is empty. *)
Definition emptyFiles : aiService.FileSystem :=
  {| aiService.existsSync := fun _ => true;
     aiService.statSync := fun _ => Some 0%N |}.

(** No API key. *)
Definition unconfigured : aiService.Gemini :=
  {| aiService.apiKeyConfigured := false;
     aiService.generateContent := fun _ _ _ => aiService.Failed None |}.

(** An oracle that scores every pair [score]. *)
Definition scoring (score : R) : SimilarityOracle :=
  {| compare := fun _ _ =>
       Returned {| aiService.similarityScore := JS.Num score;
                   aiService.isSameIssue := true;
                   aiService.reasoning := "same pothole";
                   aiService.aiProcessed := true;
                   aiService.fallbackUsed := false |} |}.

(** An oracle that raises on every pair. *)
Definition failing : SimilarityOracle :=
  {| compare := fun _ _ => Raised |}.

(** The table after [request] was stored as the first primary. *)
Definition oneReport : Store := storedPrimary request triage emptyStore.

(** An escalated, notified, pending report with id 1. *)
Definition escalatedReport : Report :=
  {| id := 1;
     photo_url := "/uploads/a.jpg";
     latitude := JS.Num 12;
     longitude := JS.Num 77;
     status := pending;
     category := Some "POTHOLE";
     severity := Some "HIGH";
     priority := "HIGH";
     duplicate_of := None;
     duplicate_count := 1;
     similarity_score := JS.Num 0;
     is_primary := true;
     merged_reports := None;
     resolution_photo_url := None;
     ai_verification_score := JS.Num 0;
     sla_deadline := 1700086400;
     escalated := true;
     escalation_notified := true;
     created_at := 1700000000 |}.

Definition escalatedStore : Store :=
  {| rows := [escalatedReport]; next_id := 2 |}.

End Sample.

(* ================================================================= *)
(** ** Vocabulary of the further properties *)

(** The first attempt of a list that the model answers. *)
Fixpoint firstAnswered (call : nat -> aiService.Attempt) (attempts : list nat)
  : option aiService.Similarity :=
  match attempts with
  | [] => None
  | k :: rest =>
      match call k with
      | aiService.Answered score same why =>
          Some {| aiService.similarityScore := score;
                  aiService.isSameIssue := same;
                  aiService.reasoning := why;
                  aiService.aiProcessed := true;
                  aiService.fallbackUsed := false |}
      | aiService.Failed _ => firstAnswered call rest
      end
  end.

(** What a report is stored with and keeps for good. *)
Definition birth (r : Report)
  : positive * string * JS.number * JS.number * Z * Z
    * option string * option string * string :=
  (id r, photo_url r, latitude r, longitude r, created_at r, sla_deadline r,
   category r, severity r, priority r).

(** Every row is a primary without [duplicate_of], or a duplicate of an
    older row of the table that is itself such a primary. *)
Definition ChainFree (s : Store) : Prop :=
  forall r, In r (rows s) ->
    match duplicate_of r with
    | None => is_primary r = true
    | Some j =>
        is_primary r = false
        /\ (j < id r)%positive
        /\ exists p, In p (rows s) /\ id p = j
                     /\ is_primary p = true /\ duplicate_of p = None
    end.

(** The first attempt of a list that yields an answer. *)
Fixpoint firstGot {A : Type} (model : nat -> aiService.Try A)
    (attempts : list nat) : option A :=
  match attempts with
  | [] => None
  | k :: rest =>
      match model k with
      | aiService.Got a => Some a
      | aiService.Threw _ => firstGot model rest
      end
  end.

(** The triage a submission is stored with when [analyzeImage] answers
    [aiAnalysis]. *)
Definition triageOf (aiAnalysis : aiService.Analysis) (clock deadline : Z)
  : server.Triage :=
  {| server.ai_category := aiService.analysis_category aiAnalysis;
     server.ai_severity := aiService.analysis_severity aiAnalysis;
     server.now := clock;
     server.slaDeadline := deadline |}.

(** The result [analyzeImage] builds from an answer of the model, and
    the one [verifyResolution] builds. *)
Definition analysisOf (answer : aiService.TriageAnswer) : aiService.Analysis :=
  aiService.withCategoryInfo
    (aiService.categoryInfoOf (aiService.answer_category answer))
    (aiService.answer_category answer) (aiService.answer_severity answer)
    (aiService.answer_confidence answer)
    (aiService.answer_estimatedUrgency answer) true false.

Definition verificationOf (answer : aiService.VerificationAnswer)
  : aiService.Verification :=
  {| aiService.verification_resolved := aiService.answer_resolved answer;
     aiService.verification_verificationScore :=
       aiService.answer_verificationScore answer;
     aiService.verification_publicRecommendation :=
       aiService.answer_publicRecommendation answer;
     aiService.verification_aiProcessed := true;
     aiService.verification_fallbackUsed := false |}.

(** The milliseconds of [setTimeout] over a list of attempts: the retry
    delay for each attempt that throws with status 503, up to the first
    attempt that yields an answer. *)
Fixpoint waitedOn {A : Type} (model : nat -> aiService.Try A)
    (attempts : list nat) : nat :=
  match attempts with
  | [] => O
  | k :: rest =>
      match model k with
      | aiService.Got _ => O
      | aiService.Threw (Some code) =>
          ((if Z.eqb code 503 then aiService.retryDelay else O)
           + waitedOn model rest)%nat
      | aiService.Threw None => waitedOn model rest
      end
  end.

(** The categories and severities the keyword tests of [fallbackAnalysis]
    can settle on. *)
Definition keywordOutcomes : list (string * string) :=
  [ ("POTHOLE", "HIGH"); ("STREET_LIGHT", "MEDIUM"); ("GARBAGE_OVERFLOW", "HIGH");
    ("DRAIN_BLOCKAGE", "HIGH"); ("BROKEN_SIDEWALK", "MEDIUM");
    ("WATER_LEAK", "HIGH"); ("DAMAGED_SIGN", "LOW"); ("OTHER", "MEDIUM") ]%string.

(** The levels of [CASE severity WHEN 'HIGH' THEN 3 WHEN 'MEDIUM' THEN 2
    WHEN 'LOW' THEN 1 ELSE 0 END], by name. *)
Definition levelOf (v : option string) : nat :=
  match v with
  | None => 0
  | Some name =>
      if string_dec name "HIGH" then 3
      else if string_dec name "MEDIUM" then 2
      else if string_dec name "LOW" then 1
      else 0
  end.

(** The order of the listings spelled out: [a] may stand before [b] when
    it is escalated and [b] is not; or, these being equal, when it is
    urgent and [b] is not; or, these being equal too, when its severity
    is the higher level; or, at one level, when it has more duplicates;
    or, with as many, when it was not created before [b]. *)
Definition ListedBefore (urgent : Report -> bool) (a b : Report) : Prop :=
  (escalated a = true /\ escalated b = false)
  \/ (escalated a = escalated b
      /\ ((urgent a = true /\ urgent b = false)
          \/ (urgent a = urgent b
              /\ ((levelOf (severity b) < levelOf (severity a))%nat
                  \/ (levelOf (severity a) = levelOf (severity b)
                      /\ ((duplicate_count b < duplicate_count a)%Z
                          \/ (duplicate_count a = duplicate_count b
                              /\ (created_at b <= created_at a)%Z))))))).

(** *** [PATCH /report/:id] with the blockchain columns

    The columns [blockchain_tx_hash] and [last_blockchain_update], which
    the record of a row leaves out, by row id; [None] is NULL. *)
Record BlockchainColumns : Type := mkBlockchainColumns {
  blockchain_tx_hash : Z -> option string;
  last_blockchain_update : Z -> option string
}.

(** [SET blockchain_tx_hash = ?, last_blockchain_update = ? WHERE id = ?] *)
Definition setBlockchain (i : Z) (txHash : option string) (updated : string)
    (c : BlockchainColumns) : BlockchainColumns :=
  {| blockchain_tx_hash :=
       fun j => if Z.eqb j i then txHash else blockchain_tx_hash c j;
     last_blockchain_update :=
       fun j => if Z.eqb j i then Some updated else last_blockchain_update c j |}.

(** What a status update leaves: the answer with its [blockchainTxHash]
    ([None] when it is null or the answer is an error), the rows, and
    the two columns. *)
Record Patched : Type := mkPatched {
  answer : server.Response;
  answer_blockchainTxHash : option string;
  table : Store;
  columns : BlockchainColumns
}.

(** The handler of [PATCH /report/:id] with the two columns.
    [logComplaintEvent] is the blockchain service, [None] when it throws
    or answers null; [dateNow] is [Date.now()] and [isoString] is
    [new Date().toISOString()] at the UPDATE. *)
Definition patchLogged (logComplaintEvent : Z -> string -> Z -> option string)
    (dateNow : Z) (isoString : string) (idParam : Z)
    (body_status : option string) (s : Store) (c : BlockchainColumns)
  : Patched :=
  match body_status with
  | None =>
      mkPatched
        (server.Status400 "Invalid status. Must be pending, verified, or resolved")
        None s c
  | Some text0 =>
      match server.parseStatus text0 with
      | None =>
          mkPatched
            (server.Status400
               "Invalid status. Must be pending, verified, or resolved")
            None s c
      | Some newStatus =>
          match Db.get idParam s with
          | None => mkPatched (server.Status404 "Report not found") None s c
          | Some _ =>
              let blockchainTxHash := logComplaintEvent idParam text0 dateNow in
              let s' :=
                if Status_eqb newStatus resolved
                then Db.update idParam (server.setStatusClearing newStatus) s
                else Db.update idParam (server.setStatus newStatus) s in
              match Db.changes idParam s with
              | O => mkPatched (server.Status404 "Report not found") None s' c
              | S _ =>
                  mkPatched (server.Status200 (Status_eqb newStatus resolved))
                    blockchainTxHash s'
                    (setBlockchain idParam blockchainTxHash isoString c)
              end
          end
      end
  end.

(** Further sample inputs. *)
Module More.

(** The table with one report, already resolved. *)
Definition resolvedStore : Store :=
  {| rows := [server.setStatusClearing resolved Sample.escalatedReport];
     next_id := 2 |}.

(** An API key, and a model that never answers the comparison prompt. *)
Definition configured : aiService.Gemini :=
  {| aiService.apiKeyConfigured := true;
     aiService.generateContent := fun _ _ _ => aiService.Failed None |}.

(** A triage answer with a severity the table has no level for. *)
Definition critical : aiService.TriageAnswer :=
  {| aiService.answer_category := Some "POTHOLE"%string;
     aiService.answer_severity := Some "CRITICAL"%string;
     aiService.answer_confidence := JS.Num 95;
     aiService.answer_estimatedUrgency := Some "IMMEDIATE"%string |}.

(** The triage of a submission made ten minutes after that of
    [Sample.triage]. *)
Definition laterTriage : server.Triage :=
  {| server.ai_category := Some "POTHOLE"%string;
     server.ai_severity := Some "HIGH"%string;
     server.now := 1700000600;
     server.slaDeadline := 1700087000 |}.

(** Two pending primaries at (12.00, 77.00), the second one the more
    recent. *)
Definition olderReport : Report :=
  server.primaryRow "/uploads/a.jpg" (JS.Num 12) (JS.Num 77) Sample.triage 1.

Definition newerReport : Report :=
  server.primaryRow "/uploads/b.jpg" (JS.Num 12) (JS.Num 77) laterTriage 2.

Definition twoReports : Store :=
  {| rows := [olderReport; newerReport]; next_id := 3 |}.

(** A [Math] library tabulated at the arguments of the distance from
    (12, 77) to (-12, -103), with the correctly rounded values:
    sin(-0.20943951023931953) = -0.20791169081775931,
    sin(-1.5707963267948966) = -1 and
    cos(0.20943951023931953) = cos(-0.20943951023931953)
    = 0.9781476007338057.  [atan2] answers [NaN] on a [NaN]. *)
Definition tabulated : Binary64.Math :=
  {| Binary64.sin := fun x =>
       if SpecFloat.SFeqb x
            (SpecFloat.S754_finite true 7545853602163669 (-55))
       then SpecFloat.S754_finite true 7490808106342645 (-55)
       else if SpecFloat.SFeqb x
                 (SpecFloat.S754_finite true 7074237752028440 (-52))
       then Binary64.ofZ (-1)
       else SpecFloat.S754_zero false;
     Binary64.cos := fun x =>
       if SpecFloat.SFeqb x
            (SpecFloat.S754_finite false 7545853602163669 (-55))
          || SpecFloat.SFeqb x
               (SpecFloat.S754_finite true 7545853602163669 (-55))
       then SpecFloat.S754_finite false 8810370340356224 (-53)
       else Binary64.ofZ 1;
     Binary64.atan2 := fun y x =>
       match y, x with
       | SpecFloat.S754_nan, _ | _, SpecFloat.S754_nan => Binary64.NaN
       | _, _ => SpecFloat.S754_zero false
       end |}.

End More.

(* ================================================================= *)
(** ** Properties of the geo query *)

Section ListFacts.

Context {A : Type}.

Lemma filter_Permutation (f : A -> bool) (l l' : list A) :
  Permutation l l' -> Permutation (filter f l) (filter f l').
Proof.
  induction 1 as [ | x l l' _ IH | x y l | l l' l'' _ IH1 _ IH2 ]; simpl.
  - constructor.
  - destruct (f x); [ constructor | ]; exact IH.
  - destruct (f x), (f y); try apply Permutation_refl. constructor.
  - eapply Permutation_trans; eassumption.
Qed.

Lemma filter_twice (f g : A -> bool) (l : list A) :
  filter g (filter f l) = filter (fun x => f x && g x) l.
Proof.
  induction l as [ | x l IH ]; simpl; [ reflexivity | ].
  destruct (f x); simpl; [ destruct (g x) | ]; rewrite IH; reflexivity.
Qed.

Lemma filter_StronglySorted (R : A -> A -> Prop) (f : A -> bool) (l : list A) :
  StronglySorted R l -> StronglySorted R (filter f l).
Proof.
  induction 1 as [ | x l _ IH Hx ]; simpl; [ constructor | ].
  destruct (f x); [ | exact IH ].
  constructor; [ exact IH | ].
  rewrite Forall_forall in *. intros y Hy.
  apply filter_In in Hy. apply Hx, Hy.
Qed.

End ListFacts.

Lemma insert_desc_Permutation (r : Report) (l : list Report) :
  Permutation (r :: l) (Db.insert_desc r l).
Proof.
  induction l as [ | x l IH ]; simpl; [ apply Permutation_refl | ].
  destruct (created_at x <=? created_at r)%Z; [ apply Permutation_refl | ].
  eapply Permutation_trans; [ apply perm_swap | ].
  constructor. exact IH.
Qed.

Lemma order_by_Permutation (l : list Report) :
  Permutation l (Db.order_by_created_at_desc l).
Proof.
  induction l as [ | r l IH ]; simpl; [ constructor | ].
  eapply Permutation_trans; [ | apply insert_desc_Permutation ].
  constructor. exact IH.
Qed.

Lemma insert_desc_sorted (r : Report) (l : list Report) :
  StronglySorted newer_first l -> StronglySorted newer_first (Db.insert_desc r l).
Proof.
  induction 1 as [ | x l Hl IH Hx ]; simpl.
  - repeat constructor.
  - destruct (created_at x <=? created_at r)%Z eqn:E.
    + apply Z.leb_le in E.
      constructor; [ constructor; assumption | ].
      constructor; [ exact E | ].
      rewrite Forall_forall in *. intros y Hy.
      specialize (Hx y Hy). unfold newer_first in *. lia.
    + apply Z.leb_gt in E.
      constructor; [ exact IH | ].
      rewrite Forall_forall in *. intros y Hy.
      apply (Permutation_in _ (Permutation_sym (insert_desc_Permutation r l))) in Hy.
      destruct Hy as [<- | Hy]; [ unfold newer_first; lia | apply Hx, Hy ].
Qed.

Lemma order_by_sorted (l : list Report) :
  StronglySorted newer_first (Db.order_by_created_at_desc l).
Proof.
  induction l as [ | r l IH ]; simpl; [ constructor | ].
  apply insert_desc_sorted, IH.
Qed.

Section HaversineFacts.

Local Open Scope R_scope.

Lemma half_angle_identity (u v : R) :
  sin (v - u) * sin (v - u) + cos (2 * u) * cos (2 * v)
  = cos (u + v) * cos (u + v).
Proof.
  rewrite sin_minus, !cos_2a, cos_plus. ring.
Qed.

Lemma sin_sq_bound (x : R) : 0 <= sin x * sin x <= 1.
Proof.
  pose proof (sin2_cos2 x) as H.
  pose proof (Rle_0_sqr (sin x)) as H1. pose proof (Rle_0_sqr (cos x)) as H2.
  unfold Rsqr in *. lra.
Qed.

Lemma cos_sq_bound (x : R) : 0 <= cos x * cos x <= 1.
Proof.
  pose proof (sin2_cos2 x) as H.
  pose proof (Rle_0_sqr (sin x)) as H1. pose proof (Rle_0_sqr (cos x)) as H2.
  unfold Rsqr in *. lra.
Qed.

(** The haversine of the central angle lies in [[0, 1]] for all
    arguments, so both square roots of [calculateDistance] are taken of
    non-negative numbers. *)
Lemma haversine_a_range (lat1 lon1 lat2 lon2 : R) :
  0 <= aiService.haversine_a lat1 lon1 lat2 lon2 <= 1.
Proof.
  unfold aiService.haversine_a. cbv zeta.
  set (u := lat1 * PI / 180 / 2). set (v := lat2 * PI / 180 / 2).
  replace ((lat2 - lat1) * PI / 180 / 2) with (v - u) by (unfold u, v; field).
  replace (lat1 * PI / 180) with (2 * u) by (unfold u; field).
  replace (lat2 * PI / 180) with (2 * v) by (unfold v; field).
  set (w := (lon2 - lon1) * PI / 180 / 2).
  pose proof (half_angle_identity u v) as Hid.
  pose proof (sin_sq_bound (v - u)) as HA.
  pose proof (cos_sq_bound (u + v)) as HB.
  pose proof (sin_sq_bound w) as Hs.
  set (A := sin (v - u) * sin (v - u)) in *.
  set (B := cos (u + v) * cos (u + v)) in *.
  set (s := sin w * sin w) in *.
  replace (A + cos (2 * u) * cos (2 * v) * sin w * sin w)
    with ((1 - s) * A + s * B) by (unfold s; rewrite <- Hid; ring).
  split; nra.
Qed.

(** [atan2 (sqrt a) (sqrt (1 - a))] is the angle in [[0, PI/2]] whose
    squared sine is [a]. *)
Lemma atan2_half_angle (a : R) :
  0 <= a <= 1 ->
  0 <= JS.atan2 (sqrt a) (sqrt (1 - a)) <= PI / 2
  /\ sin (JS.atan2 (sqrt a) (sqrt (1 - a)))
     * sin (JS.atan2 (sqrt a) (sqrt (1 - a))) = a.
Proof.
  intros [Ha0 Ha1]. unfold JS.atan2.
  destruct (Rlt_dec 0 (sqrt (1 - a))) as [Hx | Hx].
  - assert (H1a : 0 < 1 - a).
    { destruct (Rle_lt_dec (1 - a) 0) as [Hle | Hlt]; [ | exact Hlt ].
      rewrite (sqrt_neg_0 _ Hle) in Hx. lra. }
    set (y := sqrt a) in *. set (x := sqrt (1 - a)) in *.
    assert (Hy : 0 <= y) by apply sqrt_pos.
    assert (Hyy : y * y = a) by (apply sqrt_sqrt; lra).
    assert (Hxx : x * x = 1 - a) by (apply sqrt_sqrt; lra).
    assert (Hq : 0 <= y / x).
    { unfold Rdiv. apply Rmult_le_pos; [ exact Hy | ].
      left. apply Rinv_0_lt_compat. exact Hx. }
    split.
    + pose proof (atan_bound (y / x)) as [_ Hub].
      destruct Hq as [Hq | Hq].
      * pose proof (atan_increasing 0 (y / x) Hq) as Hinc.
        rewrite atan_0 in Hinc. lra.
      * rewrite <- Hq, atan_0. pose proof PI_RGT_0. lra.
    + rewrite sin_atan.
      assert (H1 : 1 + (y / x)² = 1 / (x * x)).
      { unfold Rsqr.
        replace (y / x * (y / x)) with ((y * y) / (x * x)) by (field; lra).
        rewrite Hyy, Hxx. field. lra. }
      assert (Hpos : 0 < 1 + (y / x)²).
      { pose proof (Rle_0_sqr (y / x)). lra. }
      assert (Hs : sqrt (1 + (y / x)²) * sqrt (1 + (y / x)²) = 1 + (y / x)²)
        by (apply sqrt_sqrt; lra).
      assert (Hsp : 0 < sqrt (1 + (y / x)²)) by (apply sqrt_lt_R0; exact Hpos).
      set (q := sqrt (1 + (y / x)²)) in *.
      replace (y / x / q * (y / x / q)) with ((y * y) / (x * x) / (q * q))
        by (field; lra).
      rewrite Hs, H1, Hyy, Hxx. field. lra.
  - assert (Hx0 : sqrt (1 - a) = 0) by (pose proof (sqrt_pos (1 - a)); lra).
    assert (Ha : a = 1).
    { destruct (Req_dec a 1) as [E | E]; [ exact E | ].
      assert (0 < sqrt (1 - a)) by (apply sqrt_lt_R0; lra). lra. }
    subst a. rewrite Hx0, sqrt_1.
    destruct (Rlt_dec 0 0) as [H | _]; [ lra | ].
    destruct (Rlt_dec 0 1) as [_ | H]; [ | lra ].
    rewrite sin_PI2. pose proof PI_RGT_0. lra.
Qed.

(** A point is at distance 0 from itself. *)
Lemma haversine_same (lat lon : R) : aiService.haversine lat lon lat lon = 0.
Proof.
  unfold aiService.haversine, aiService.haversine_a. cbv zeta.
  replace ((lat - lat) * PI / 180 / 2) with 0 by field.
  replace ((lon - lon) * PI / 180 / 2) with 0 by field.
  rewrite sin_0.
  replace (0 * 0 + cos (lat * PI / 180) * cos (lat * PI / 180) * 0 * 0)
    with 0 by ring.
  rewrite Rminus_0_r, sqrt_0, sqrt_1. unfold JS.atan2.
  destruct (Rlt_dec 0 1) as [_ | H]; [ | lra ].
  unfold Rdiv. rewrite Rmult_0_l, atan_0. ring.
Qed.

End HaversineFacts.

Lemma Status_eqb_eq (a b : Status) : Status_eqb a b = true <-> a = b.
Proof.
  destruct a, b; simpl; split; intro H; congruence.
Qed.

Lemma excludeParam_spec (excludeId : option Z) (i : positive) :
  Z.eqb (Zpos i) (aiService.excludeParam excludeId) = false
  <-> excludeId <> Some (Zpos i).
Proof.
  unfold aiService.excludeParam. rewrite Z.eqb_neq.
  destruct excludeId as [e | ]; [ | split; [ discriminate | lia ] ].
  destruct (Z.eqb_spec e 0) as [-> | Hne].
  - split; [ intros _ H; discriminate H | lia ].
  - split; [ intros H E; injection E as ->; lia | intros H E; apply H; f_equal; lia ].
Qed.

Lemma activePrimary_spec (excludeId : option Z) (r : Report) :
  aiService.activePrimary excludeId r = true
  <-> is_primary r = true
      /\ (status r = pending \/ status r = verified)
      /\ excludeId <> Some (Zpos (id r)).
Proof.
  unfold aiService.activePrimary.
  rewrite !andb_true_iff, orb_true_iff, negb_true_iff, !Status_eqb_eq,
    excludeParam_spec.
  tauto.
Qed.

Lemma map_report_nearby (f : Report -> JS.number) (l : list Report) :
  map aiService.report
    (map (fun r => {| aiService.report := r; aiService.distance := f r |}) l) = l.
Proof.
  induction l as [ | r l IH ]; simpl; [ reflexivity | ]. rewrite IH. reflexivity.
Qed.

Lemma findNearbyReports_reports (lat lon radiusMeters : JS.number)
    (excludeId : option Z) (s : Store) :
  map aiService.report
    (aiService.findNearbyReports lat lon radiusMeters excludeId s)
  = filter (fun r => JS.le (aiService.calculateDistance lat lon
                              (latitude r) (longitude r)) radiusMeters)
      (Db.order_by_created_at_desc
         (filter (aiService.activePrimary excludeId) (rows s))).
Proof.
  unfold aiService.findNearbyReports. apply map_report_nearby.
Qed.

Lemma findNearbyReports_In (lat lon radiusMeters : JS.number)
    (excludeId : option Z) (s : Store) (r : Report) :
  In r (map aiService.report
          (aiService.findNearbyReports lat lon radiusMeters excludeId s))
  <-> In r (rows s) /\ Candidate lat lon radiusMeters excludeId r.
Proof.
  rewrite findNearbyReports_reports, filter_In. unfold Candidate.
  pose proof (activePrimary_spec excludeId r) as Hact.
  split.
  - intros [Hin Hle].
    apply (Permutation_in _ (Permutation_sym (order_by_Permutation _))) in Hin.
    apply filter_In in Hin. tauto.
  - intros [Hin Hc]. split; [ | tauto ].
    apply (Permutation_in _ (order_by_Permutation _)).
    apply filter_In. tauto.
Qed.

Lemma findNearbyReports_distance (lat lon radiusMeters : JS.number)
    (excludeId : option Z) (s : Store) (n : aiService.NearbyReport) :
  In n (aiService.findNearbyReports lat lon radiusMeters excludeId s) ->
  aiService.distance n
  = aiService.calculateDistance lat lon
      (latitude (aiService.report n)) (longitude (aiService.report n)).
Proof.
  unfold aiService.findNearbyReports. intro H.
  apply in_map_iff in H. destruct H as [r [<- _]]. reflexivity.
Qed.

(** Over the reals, [calculateDistance] is Earth's radius times the
    central angle that the haversine formula gives for the two points,
    taken in radians. *)
Lemma calculateDistance_great_circle (lat1 lon1 lat2 lon2 : R) :
  exists theta : R,
    (0 <= theta <= PI)%R
    /\ (sin (theta / 2) * sin (theta / 2)
        = sin ((lat2 - lat1) * PI / 180 / 2) * sin ((lat2 - lat1) * PI / 180 / 2)
          + cos (lat1 * PI / 180) * cos (lat2 * PI / 180)
            * sin ((lon2 - lon1) * PI / 180 / 2)
            * sin ((lon2 - lon1) * PI / 180 / 2))%R
    /\ aiService.calculateDistance (JS.Num lat1) (JS.Num lon1)
         (JS.Num lat2) (JS.Num lon2)
       = JS.Num (6371000 * theta)%R.
Proof.
  pose proof (haversine_a_range lat1 lon1 lat2 lon2) as Hr.
  destruct (atan2_half_angle _ Hr) as [Hb Hs].
  set (a := aiService.haversine_a lat1 lon1 lat2 lon2) in *.
  exists (2 * JS.atan2 (sqrt a) (sqrt (1 - a)))%R.
  split; [ lra | ]. split.
  - replace (2 * JS.atan2 (sqrt a) (sqrt (1 - a)) / 2)%R
      with (JS.atan2 (sqrt a) (sqrt (1 - a))) by field.
    rewrite Hs. reflexivity.
  - reflexivity.
Qed.

(** Whatever [calculateDistance] computes: for every query point, radius
    and [excludeId], the geo query answers exactly the rows that are
    primary, pending or verified, different from [excludeId] and whose
    computed distance is at most the radius (each once, as often as the
    table holds it), most recent first, each with its distance. *)
Lemma findNearbyReports_selects (lat lon radiusMeters : JS.number)
    (excludeId : option Z) (s : Store) :
  let found := aiService.findNearbyReports lat lon radiusMeters excludeId s in
  (forall r, In r (map aiService.report found)
             <-> In r (rows s) /\ Candidate lat lon radiusMeters excludeId r)
  /\ (exists keep : Report -> bool,
        (forall r, keep r = true <-> Candidate lat lon radiusMeters excludeId r)
        /\ Permutation (map aiService.report found) (filter keep (rows s)))
  /\ StronglySorted newer_first (map aiService.report found)
  /\ (forall n, In n found ->
        aiService.distance n
        = aiService.calculateDistance lat lon
            (latitude (aiService.report n)) (longitude (aiService.report n))).
Proof.
  intro found. unfold found.
  split; [ intro r; apply findNearbyReports_In | ].
  split.
  { exists (fun r =>
              aiService.activePrimary excludeId r
              && JS.le (aiService.calculateDistance lat lon
                          (latitude r) (longitude r)) radiusMeters).
    split.
    - intro r. unfold Candidate. rewrite andb_true_iff.
      pose proof (activePrimary_spec excludeId r). tauto.
    - rewrite findNearbyReports_reports, <- filter_twice.
      apply filter_Permutation, Permutation_sym, order_by_Permutation. }
  split.
  { rewrite findNearbyReports_reports.
    apply filter_StronglySorted, order_by_sorted. }
  intro n; apply findNearbyReports_distance.
Qed.

(** The great-circle distance from (12, 77) to its antipode (-12, -103)
    is half the circumference. *)
Lemma great_circle_antipode :
  aiService.calculateDistance (JS.Num 12) (JS.Num 77) (JS.Num (-12))
    (JS.Num (-103))
  = JS.Num (6371000 * PI).
Proof.
  cbn [aiService.calculateDistance]. f_equal.
  unfold aiService.haversine. cbv zeta.
  assert (Ha : aiService.haversine_a 12 77 (-12) (-103) = 1%R).
  { unfold aiService.haversine_a. cbv zeta.
    replace ((-12 - 12) * PI / 180 / 2)%R with (- (12 * PI / 180))%R by field.
    replace (-12 * PI / 180)%R with (- (12 * PI / 180))%R by field.
    replace ((-103 - 77) * PI / 180 / 2)%R with (- (PI / 2))%R by field.
    rewrite !sin_neg, cos_neg, sin_PI2.
    pose proof (sin2_cos2 (12 * PI / 180)) as H. unfold Rsqr in H. lra. }
  rewrite Ha. replace (1 - 1)%R with 0%R by ring. rewrite sqrt_1, sqrt_0.
  unfold JS.atan2.
  destruct (Rlt_dec 0 0) as [H | _]; [ exfalso; lra | ].
  destruct (Rlt_dec 0 1) as [_ | H]; [ | exfalso; lra ].
  field.
Qed.

(** C4.  In binary64 arithmetic the geo query misses a report at the
    antipode of the query point, for every radius.  From (12, 77) to
    (-12, -103), with the sines and cosines correctly rounded
    (sin(-0.20943951023931953) = -0.20791169081775931,
    sin(-1.5707963267948966) = -1,
    cos(0.20943951023931953) = cos(-0.20943951023931953)
    = 0.9781476007338057), the haversine term [a] is rounded to 1 + 2^-52,
    [Math.sqrt(1-a)] is [NaN], and so is the distance, which is at most
    no radius; the great-circle distance of the two points is
    6,371,000 m times pi, half the circumference. *)
Theorem findNearbyReports_misses_antipode (M : Binary64.Math)
    (radiusMeters : Binary64.number) :
  (forall y, Binary64.atan2 M y Binary64.NaN = Binary64.NaN) ->
  Binary64.sin M
    (Binary64.half
       (Binary64.radians
          (Binary64.sub (Binary64.ofZ (-12)) (Binary64.ofZ 12))))
  = SpecFloat.S754_finite true 7490808106342645 (-55) ->
  Binary64.sin M
    (Binary64.half
       (Binary64.radians
          (Binary64.sub (Binary64.ofZ (-103)) (Binary64.ofZ 77))))
  = Binary64.ofZ (-1) ->
  Binary64.cos M (Binary64.radians (Binary64.ofZ 12))
  = SpecFloat.S754_finite false 8810370340356224 (-53) ->
  Binary64.cos M (Binary64.radians (Binary64.ofZ (-12)))
  = SpecFloat.S754_finite false 8810370340356224 (-53) ->
  Binary64.haversine_a M (Binary64.ofZ 12) (Binary64.ofZ 77)
    (Binary64.ofZ (-12)) (Binary64.ofZ (-103))
  = SpecFloat.S754_finite false 4503599627370497 (-52)
  /\ Binary64.calculateDistance M (Binary64.ofZ 12) (Binary64.ofZ 77)
       (Binary64.ofZ (-12)) (Binary64.ofZ (-103))
     = Binary64.NaN
  /\ (forall (Row : Type) (latitudeOf longitudeOf : Row -> Binary64.number)
             (reports : list Row) (report : Row),
        latitudeOf report = Binary64.ofZ (-12) ->
        longitudeOf report = Binary64.ofZ (-103) ->
        ~ In report
            (map fst
               (Binary64.nearbyReports M latitudeOf longitudeOf
                  (Binary64.ofZ 12) (Binary64.ofZ 77) radiusMeters reports)))
  /\ aiService.calculateDistance (JS.Num 12) (JS.Num 77) (JS.Num (-12))
       (JS.Num (-103))
     = JS.Num (6371000 * PI).
Proof.
  intros Hnan Hs1 Hs2 Hc1 Hc2.
  assert (Ha : Binary64.haversine_a M (Binary64.ofZ 12) (Binary64.ofZ 77)
                 (Binary64.ofZ (-12)) (Binary64.ofZ (-103))
               = SpecFloat.S754_finite false 4503599627370497 (-52)).
  { unfold Binary64.haversine_a. cbv zeta. rewrite Hs1, Hs2, Hc1, Hc2.
    vm_compute. reflexivity. }
  assert (Hd : Binary64.calculateDistance M (Binary64.ofZ 12) (Binary64.ofZ 77)
                 (Binary64.ofZ (-12)) (Binary64.ofZ (-103))
               = Binary64.NaN).
  { unfold Binary64.calculateDistance. cbv zeta. rewrite Ha.
    replace (Binary64.sqrt
               (Binary64.sub (Binary64.ofZ 1)
                  (SpecFloat.S754_finite false 4503599627370497 (-52))))
      with Binary64.NaN by (vm_compute; reflexivity).
    rewrite Hnan. vm_compute. reflexivity. }
  split; [ exact Ha | ]. split; [ exact Hd | ].
  split; [ | exact great_circle_antipode ].
  intros Row latitudeOf longitudeOf reports report Hlat Hlon Hin.
  unfold Binary64.nearbyReports in Hin. rewrite map_map in Hin.
  cbn [fst] in Hin. rewrite map_id in Hin.
  apply filter_In in Hin. destruct Hin as [_ Hle].
  rewrite Hlat, Hlon, Hd in Hle. discriminate Hle.
Qed.

Lemma findNearbyReports_misses_antipode_witness :
  Binary64.calculateDistance More.tabulated (Binary64.ofZ 12) (Binary64.ofZ 77)
    (Binary64.ofZ (-12)) (Binary64.ofZ (-103))
  = Binary64.NaN
  /\ ~ In (Binary64.ofZ (-12), Binary64.ofZ (-103))
         (map fst
            (Binary64.nearbyReports More.tabulated fst snd (Binary64.ofZ 12)
               (Binary64.ofZ 77) (SpecFloat.S754_infinity false)
               [ (Binary64.ofZ 12, Binary64.ofZ 77);
                 (Binary64.ofZ (-12), Binary64.ofZ (-103)) ])).
Proof.
  pose proof (findNearbyReports_misses_antipode More.tabulated
                (SpecFloat.S754_infinity false)) as H.
  destruct H as [_ [Hd [Hq _]]];
    [ intros [ | | | ]; reflexivity
    | vm_compute; reflexivity
    | vm_compute; reflexivity
    | vm_compute; reflexivity
    | vm_compute; reflexivity
    | ].
  split; [ exact Hd | ].
  apply Hq; reflexivity.
Defined.

(* ================================================================= *)
(** ** Properties of the similarity loop *)

Section LoopFacts.

Context {oracle : SimilarityOracle}.
Variable F : aiService.FileSystem.
Variable projectRoot : string.

Local Abbreviation loop := (server.similarityLoop F projectRoot).
Local Abbreviation pathOf n := (server.nearbyImagePath projectRoot (aiService.report n)).

Lemma loop_cons (imagePath : string) (n : aiService.NearbyReport)
    (rest : list aiService.NearbyReport) :
  loop imagePath (n :: rest)
  = if aiService.existsSync F (pathOf n) then
      match compare imagePath (pathOf n) with
      | Returned similarity =>
          if JS.ge (aiService.similarityScore similarity) (JS.Num 80) then
            (Some {| server.primaryReportId := id (aiService.report n);
                     server.similarityScore := aiService.similarityScore similarity;
                     server.distance := aiService.distance n;
                     server.reasoning := aiService.reasoning similarity |},
             [id (aiService.report n)])
          else (fst (loop imagePath rest),
                id (aiService.report n) :: snd (loop imagePath rest))
      | Raised => (fst (loop imagePath rest),
                   id (aiService.report n) :: snd (loop imagePath rest))
      end
    else loop imagePath rest.
Proof.
  cbn [server.similarityLoop].
  destruct (aiService.existsSync F (pathOf n)); [ | reflexivity ].
  destruct (compare imagePath (pathOf n)) as [ | similarity ].
  - destruct (loop imagePath rest); reflexivity.
  - destruct (JS.ge (aiService.similarityScore similarity) (JS.Num 80));
      [ reflexivity | ].
    destruct (loop imagePath rest); reflexivity.
Qed.

(** A candidate that is not a match is passed over: the loop goes on
    with the rest, and the candidate is logged if it was compared. *)
Lemma loop_skip (imagePath : string) (n : aiService.NearbyReport)
    (rest : list aiService.NearbyReport) :
  (forall similarity, ~ Matches F projectRoot imagePath n similarity) ->
  fst (loop imagePath (n :: rest)) = fst (loop imagePath rest)
  /\ snd (loop imagePath (n :: rest))
     = map (fun m => id (aiService.report m)) (withPhoto F projectRoot [n])
       ++ snd (loop imagePath rest).
Proof.
  intro Hno. rewrite loop_cons. unfold withPhoto, Matches in *.
  cbn [filter].
  destruct (aiService.existsSync F (pathOf n)) eqn:Ex; [ | split; reflexivity ].
  destruct (compare imagePath (pathOf n)) as [ | similarity ] eqn:Ec;
    [ split; reflexivity | ].
  destruct (JS.ge (aiService.similarityScore similarity) (JS.Num 80)) eqn:Eg;
    [ | split; reflexivity ].
  exfalso. apply (Hno similarity). auto.
Qed.

Lemma loop_accept (imagePath : string) (n : aiService.NearbyReport)
    (rest : list aiService.NearbyReport) (similarity : aiService.Similarity) :
  Matches F projectRoot imagePath n similarity ->
  loop imagePath (n :: rest)
  = (Some {| server.primaryReportId := id (aiService.report n);
             server.similarityScore := aiService.similarityScore similarity;
             server.distance := aiService.distance n;
             server.reasoning := aiService.reasoning similarity |},
     [id (aiService.report n)]).
Proof.
  intros [Ex [Ec Eg]]. rewrite loop_cons, Ex, Ec, Eg. reflexivity.
Qed.

(** Whether a candidate is a match can be told from the file system and
    the oracle's answer. *)
Lemma Matches_dec (imagePath : string) (n : aiService.NearbyReport) :
  (exists similarity, Matches F projectRoot imagePath n similarity)
  \/ (forall similarity, ~ Matches F projectRoot imagePath n similarity).
Proof.
  unfold Matches.
  destruct (aiService.existsSync F (pathOf n)) eqn:Ex;
    [ | right; intros sim [H _]; discriminate H ].
  destruct (compare imagePath (pathOf n)) as [ | similarity ] eqn:Ec;
    [ right; intros sim [_ [H _]]; discriminate H | ].
  destruct (JS.ge (aiService.similarityScore similarity) (JS.Num 80)) eqn:Eg.
  - left. exists similarity. auto.
  - right. intros sim [_ [H1 H2]]. injection H1 as <-. congruence.
Qed.

(** C2.  The loop examines the candidates in the order of the geo query.
    When it answers a match, the match is the first candidate of the list
    that is one (photo on disk, oracle answer of at least 80): no candidate
    before it matches, and the oracle was called on the candidates before
    it that have a photo and on the match, and on none after it, whatever
    those would score.  When it answers none, no candidate matches. *)
Theorem similarityLoop_first_match (imagePath : string)
    (nearbyReports : list aiService.NearbyReport) :
  match loop imagePath nearbyReports with
  | (Some info, compared) =>
      exists before n after similarity,
        nearbyReports = before ++ n :: after
        /\ Matches F projectRoot imagePath n similarity
        /\ (forall b similarity', In b before ->
              ~ Matches F projectRoot imagePath b similarity')
        /\ info = {| server.primaryReportId := id (aiService.report n);
                     server.similarityScore :=
                       aiService.similarityScore similarity;
                     server.distance := aiService.distance n;
                     server.reasoning := aiService.reasoning similarity |}
        /\ compared
           = map (fun m => id (aiService.report m)) (withPhoto F projectRoot before)
             ++ [id (aiService.report n)]
  | (None, compared) =>
      (forall n similarity, In n nearbyReports ->
         ~ Matches F projectRoot imagePath n similarity)
      /\ compared
         = map (fun m => id (aiService.report m))
             (withPhoto F projectRoot nearbyReports)
  end.
Proof.
  induction nearbyReports as [ | n rest IH ].
  - simpl. split; [ intros n sim [] | reflexivity ].
  - destruct (Matches_dec imagePath n) as [[sim Hm] | Hno].
    + rewrite (loop_accept _ _ _ _ Hm).
      exists [], n, rest, sim. simpl.
      repeat split; try apply Hm. intros b sim' [].
    + destruct (loop_skip imagePath n rest Hno) as [E1 E2].
      destruct (loop imagePath (n :: rest)) as [found compared].
      destruct (loop imagePath rest) as [found' compared'].
      simpl in E1, E2. subst found compared.
      destruct found' as [info | ].
      * destruct IH as [before [m [after [sim [-> [Hm [Hb [-> ->]]]]]]]].
        exists (n :: before), m, after, sim.
        split; [ reflexivity | ]. split; [ exact Hm | ].
        split; [ intros b sim' [<- | Hin]; [ apply Hno | apply Hb, Hin ] | ].
        split; [ reflexivity | ].
        unfold withPhoto. simpl.
        destruct (aiService.existsSync F (pathOf n)); simpl; reflexivity.
      * destruct IH as [Hall ->]. split.
        -- intros m sim [<- | Hin]; [ apply Hno | apply Hall, Hin ].
        -- unfold withPhoto. simpl.
           destruct (aiService.existsSync F (pathOf n)); reflexivity.
Qed.

End LoopFacts.

(* ================================================================= *)
(** ** Properties of the table operations *)

Lemma find_app {A : Type} (f : A -> bool) (l l' : list A) :
  find f (l ++ l')
  = match find f l with
    | Some x => Some x
    | None => find f l'
    end.
Proof.
  induction l as [ | x l IH ]; simpl; [ reflexivity | ].
  destruct (f x); [ reflexivity | exact IH ].
Qed.

Lemma get_unique (s : Store) (r : Report) :
  NoDup (map id (rows s)) -> In r (rows s) -> Db.get (Zpos (id r)) s = Some r.
Proof.
  unfold Db.get. induction (rows s) as [ | x l IH ]; [ intros _ [] | ].
  cbn [find map]. intros Hnd [<- | Hin].
  - rewrite Z.eqb_refl. reflexivity.
  - inversion Hnd as [ | ? ? Hx Hl ]; subst.
    destruct (Z.eqb_spec (Zpos (id x)) (Zpos (id r))) as [E | _].
    + exfalso. apply Hx. injection E as ->. apply in_map, Hin.
    + apply IH; assumption.
Qed.

Lemma get_update (i j : Z) (f : Report -> Report) (s : Store) :
  (forall r, id (f r) = id r) ->
  Db.get i (Db.update j f s)
  = if Z.eqb i j then option_map f (Db.get i s) else Db.get i s.
Proof.
  intro Hid. unfold Db.get, Db.update. cbn [rows].
  induction (rows s) as [ | x l IH ]; cbn [find map option_map].
  - destruct (Z.eqb i j); reflexivity.
  - destruct (Z.eqb_spec (Zpos (id x)) j) as [Ej | Ej].
    + rewrite Hid. destruct (Z.eqb_spec (Zpos (id x)) i) as [Ei | Ei].
      * subst. rewrite Z.eqb_refl. reflexivity.
      * exact IH.
    + destruct (Z.eqb_spec (Zpos (id x)) i) as [Ei | Ei].
      * destruct (Z.eqb_spec i j) as [E | _]; [ congruence | reflexivity ].
      * exact IH.
Qed.

Lemma get_fresh (s : Store) (i : positive) :
  (forall r, In r (rows s) -> (id r < i)%positive) ->
  Db.get (Zpos i) s = None.
Proof.
  intro Hb. unfold Db.get.
  destruct (find _ (rows s)) as [r | ] eqn:E; [ | reflexivity ].
  apply find_some in E. destruct E as [Hin He].
  apply Z.eqb_eq in He. specialize (Hb r Hin). lia.
Qed.

Lemma get_appended (s : Store) (k : positive) (r : Report) (i : Z) :
  Db.get i {| rows := rows s ++ [r]; next_id := k |}
  = match Db.get i s with
    | Some x => Some x
    | None => if Z.eqb (Zpos (id r)) i then Some r else None
    end.
Proof.
  unfold Db.get. cbn [rows]. rewrite find_app. reflexivity.
Qed.

Lemma changes_positive (i : Z) (s : Store) (r : Report) :
  Db.get i s = Some r -> exists k, Db.changes i s = S k.
Proof.
  unfold Db.get, Db.changes.
  induction (rows s) as [ | x l IH ]; [ discriminate | ].
  cbn [find filter].
  destruct (Z.eqb (Zpos (id x)) i); [ intros _; eexists; reflexivity | exact IH ].
Qed.

Lemma mergeDuplicate_merged (n : positive) (r : Report) :
  mergedReportIds (server.mergeDuplicate n r) = mergedReportIds r ++ [n].
Proof.
  unfold mergedReportIds. simpl. destruct (merged_reports r); reflexivity.
Qed.

(* ================================================================= *)
(** ** Properties of a submission *)

Section SubmissionFacts.

Context {oracle : SimilarityOracle}.
Variable F : aiService.FileSystem.
Variable projectRoot : string.

Local Abbreviation loop := (server.similarityLoop F projectRoot).
Local Abbreviation post := (server.postReport F projectRoot).

Lemma not_null_iff (x : JS.number) : Db.not_null x = true <-> x <> JS.NaN.
Proof.
  destruct x; simpl; split; intro H; congruence.
Qed.

Lemma check_level_priority (t : server.Triage) :
  server.ai_severity t = None
  \/ server.ai_severity t = Some "LOW"%string
  \/ server.ai_severity t = Some "MEDIUM"%string
  \/ server.ai_severity t = Some "HIGH"%string ->
  Db.check_level (server.ai_severity t) = true
  /\ Db.check_level (Some (server.priorityOf t)) = true.
Proof.
  unfold server.priorityOf.
  intros [-> | [-> | [-> | ->]]]; split; reflexivity.
Qed.

(** What [POST /report] does with a submission it can store. *)
Lemma postReport_accepted (req : server.ReportRequest) (t : server.Triage)
    (s : Store) :
  Acceptable req t ->
  post req t s
  = match matchOf F projectRoot req s with
    | Some info =>
        (server.Status201 (next_id s) true (Some info),
         storedDuplicate req t info s)
    | None =>
        (server.Status201 (next_id s) false None, storedPrimary req t s)
    end.
Proof.
  intros [Hp [Hla [Hlo [Hna [Hno Hsev]]]]].
  destruct (check_level_priority t Hsev) as [Hc1 Hc2].
  unfold server.postReport, matchOf, candidatesOf, storedDuplicate,
    storedPrimary, imagePathOf, photoUrlOf, queryLatitude, queryLongitude in *.
  destruct (server.files_photo req) as [file | ]; [ | congruence ].
  rewrite Hla, Hlo. cbn [negb orb].
  apply not_null_iff in Hna. apply not_null_iff in Hno.
  destruct (fst (loop (server.path file) _)) as [info | ];
    unfold Db.insert, Db.constraints;
    cbn [latitude longitude severity priority server.duplicateRow
         server.primaryRow];
    rewrite Hna, Hno, Hc1, Hc2; reflexivity.
Qed.

(** Whatever the request, the table is left as it was, or gets the new
    row as a duplicate of the match, or as a primary when there is none. *)
Lemma postReport_store (req : server.ReportRequest) (t : server.Triage)
    (s : Store) :
  snd (post req t s) = s
  \/ (exists info, matchOf F projectRoot req s = Some info
                   /\ snd (post req t s) = storedDuplicate req t info s)
  \/ (matchOf F projectRoot req s = None
      /\ snd (post req t s) = storedPrimary req t s).
Proof.
  unfold server.postReport, matchOf, candidatesOf, storedDuplicate,
    storedPrimary, imagePathOf, photoUrlOf, queryLatitude, queryLongitude.
  destruct (server.files_photo req) as [file | ]; [ | left; reflexivity ].
  destruct (negb (JS.truthy (server.body_latitude req))
            || negb (JS.truthy (server.body_longitude req)));
    [ left; reflexivity | ].
  destruct (fst (loop (server.path file) _)) as [info | ]; unfold Db.insert;
    match goal with
    | |- context [if ?c then _ else _] => destruct c
    end;
    [ right; left; exists info; split; reflexivity
    | left; reflexivity
    | right; right; split; reflexivity
    | left; reflexivity ].
Qed.

(** A request without a photo, or with a missing or empty coordinate
    field, is answered 400 and the table is not touched. *)
Lemma postReport_missing_field (req : server.ReportRequest) (t : server.Triage)
    (s : Store) :
  server.files_photo req = None
  \/ JS.truthy (server.body_latitude req) = false
  \/ JS.truthy (server.body_longitude req) = false ->
  exists error, post req t s = (server.Status400 error, s).
Proof.
  unfold server.postReport.
  destruct (server.files_photo req) as [file | ]; [ | eexists; reflexivity ].
  intros [H | [H | H]]; [ discriminate H | | ]; rewrite H.
  - eexists; reflexivity.
  - rewrite orb_true_r. eexists; reflexivity.
Qed.

(** A latitude that is not a number finds no candidate and cannot be
    stored: the INSERT fails on the NOT NULL column, the answer is 500
    and the table is as before. *)
Lemma postReport_not_a_number (req : server.ReportRequest) (t : server.Triage)
    (s : Store) (file : server.Upload) :
  server.files_photo req = Some file ->
  JS.truthy (server.body_latitude req) = true ->
  JS.truthy (server.body_longitude req) = true ->
  JS.parseFloat (server.text (server.body_latitude req)) = JS.NaN ->
  post req t s = (server.Status500 "Failed to save report", s).
Proof.
  intros Hf Hla Hlo Hnan. unfold server.postReport.
  rewrite Hf, Hla, Hlo, Hnan. cbn [negb orb].
  assert (Hnone : forall lon,
             aiService.findNearbyReports JS.NaN lon (JS.Num 50) None s = []).
  { intro lon. unfold aiService.findNearbyReports.
    induction (Db.order_by_created_at_desc _) as [ | x l IH ];
      [ reflexivity | exact IH ]. }
  rewrite Hnone. reflexivity.
Qed.

(** The match of the loop is one of the candidates it was given. *)
Lemma loop_match_In (imagePath : string) (l : list aiService.NearbyReport)
    (info : server.DuplicateInfo) :
  fst (loop imagePath l) = Some info ->
  exists n, In n l
            /\ server.primaryReportId info = id (aiService.report n)
            /\ server.distance info = aiService.distance n
            /\ JS.ge (server.similarityScore info) (JS.Num 80) = true.
Proof.
  induction l as [ | n rest IH ]; [ discriminate | ].
  rewrite loop_cons.
  destruct (aiService.existsSync F _);
    [ | intro H; destruct (IH H) as [m [Hin Hm]]; exists m; split;
        [ right; exact Hin | exact Hm ] ].
  destruct (compare imagePath _) as [ | similarity ].
  - cbn [fst]. intro H. destruct (IH H) as [m [Hin Hm]].
    exists m. split; [ right; exact Hin | exact Hm ].
  - destruct (JS.ge (aiService.similarityScore similarity) (JS.Num 80)) eqn:Eg.
    + cbn [fst]. intro H. injection H as <-. exists n.
      cbn [server.primaryReportId server.distance server.similarityScore].
      split; [ left; reflexivity | auto ].
    + cbn [fst]. intro H. destruct (IH H) as [m [Hin Hm]].
      exists m. split; [ right; exact Hin | exact Hm ].
Qed.

(** The match of a submission is a row of the table: an open primary
    within 50 m of the submitted coordinates. *)
Lemma matchOf_candidate (req : server.ReportRequest) (s : Store)
    (info : server.DuplicateInfo) :
  matchOf F projectRoot req s = Some info ->
  exists p, In p (rows s)
            /\ id p = server.primaryReportId info
            /\ Candidate (queryLatitude req) (queryLongitude req) (JS.Num 50)
                 None p
            /\ server.distance info
               = aiService.calculateDistance (queryLatitude req)
                   (queryLongitude req) (latitude p) (longitude p).
Proof.
  unfold matchOf, candidatesOf. intro H.
  apply loop_match_In in H. destruct H as [n [Hin [Hid [Hd _]]]].
  exists (aiService.report n).
  pose proof (findNearbyReports_distance _ _ _ _ _ _ Hin) as Hdist.
  assert (Hr : In (aiService.report n)
                 (map aiService.report
                    (aiService.findNearbyReports (queryLatitude req)
                       (queryLongitude req) (JS.Num 50) None s)))
    by (apply in_map, Hin).
  apply findNearbyReports_In in Hr. destruct Hr as [Hrow Hc].
  repeat split; try apply Hc; auto. congruence.
Qed.

End SubmissionFacts.

(* ================================================================= *)
(** ** The invariants of the table *)

Lemma refers_map_length (g : Report -> Report) (i : positive) (l : list Report) :
  (forall r, duplicate_of (g r) = duplicate_of r) ->
  List.length (filter (refers i) (map g l)) = List.length (filter (refers i) l).
Proof.
  intro Hg. induction l as [ | r l IH ]; [ reflexivity | ].
  cbn [map filter].
  replace (refers i (g r)) with (refers i r)
    by (unfold refers; rewrite Hg; reflexivity).
  destruct (refers i r); cbn [List.length]; rewrite IH; reflexivity.
Qed.

Lemma WellFormed_empty : WellFormed emptyStore.
Proof.
  repeat split; simpl; [ constructor | intros r [] | intros r j [] ].
Qed.

Lemma WellFormed_update (i : Z) (g : Report -> Report) (s : Store) :
  (forall r, id (g r) = id r) ->
  (forall r, duplicate_of (g r) = duplicate_of r) ->
  WellFormed s -> WellFormed (Db.update i g s).
Proof.
  intros Hid Hdup [Hnd [Hlt Href]]. unfold WellFormed, Db.update. cbn [rows next_id].
  set (h := fun r => if Z.eqb (Zpos (id r)) i then g r else r).
  assert (Hh : forall r, id (h r) = id r /\ duplicate_of (h r) = duplicate_of r).
  { intro r. unfold h. destruct (Z.eqb (Zpos (id r)) i); auto. }
  split; [ | split ].
  - rewrite map_map.
    replace (map (fun x => id (h x)) (rows s)) with (map id (rows s));
      [ exact Hnd | ].
    apply map_ext. intro r. symmetry. apply Hh.
  - intros r' Hin. apply in_map_iff in Hin. destruct Hin as [r [<- Hin]].
    destruct (Hh r) as [-> _]. apply Hlt, Hin.
  - intros r' j Hin Hj. apply in_map_iff in Hin. destruct Hin as [r [<- Hin]].
    destruct (Hh r) as [_ E]. rewrite E in Hj. apply (Href r j Hin Hj).
Qed.

Lemma WellFormed_append (s : Store) (r : Report) :
  id r = next_id s ->
  (forall j, duplicate_of r = Some j -> (j < next_id s)%positive) ->
  WellFormed s ->
  WellFormed {| rows := rows s ++ [r]; next_id := Pos.succ (next_id s) |}.
Proof.
  intros Hid Hdup [Hnd [Hlt Href]]. unfold WellFormed. cbn [rows next_id].
  split; [ | split ].
  - rewrite map_app. cbn [map].
    apply (Permutation_NoDup (Permutation_cons_append _ _)).
    constructor; [ | exact Hnd ].
    intro Hin. apply in_map_iff in Hin. destruct Hin as [x [Hx Hin]].
    specialize (Hlt x Hin). lia.
  - intros x Hin. apply in_app_or in Hin. destruct Hin as [Hin | [<- | []]].
    + specialize (Hlt x Hin). lia.
    + lia.
  - intros x j Hin Hj. apply in_app_or in Hin. destruct Hin as [Hin | [<- | []]].
    + specialize (Href x j Hin Hj). lia.
    + specialize (Hdup j Hj). lia.
Qed.

Lemma MergeInvariant_update (i : Z) (g : Report -> Report) (s : Store) :
  KeepsBookkeeping g -> MergeInvariant s -> MergeInvariant (Db.update i g s).
Proof.
  intros Hg Hinv r' Hin Hprim.
  unfold duplicatesOf, Db.update in *. cbn [rows] in *.
  set (h := fun r => if Z.eqb (Zpos (id r)) i then g r else r) in *.
  assert (Hh : KeepsBookkeeping h).
  { intro x. unfold h. destruct (Z.eqb (Zpos (id x)) i);
      [ apply Hg | repeat split ]. }
  apply in_map_iff in Hin. destruct Hin as [r [<- Hin]].
  destruct (Hh r) as [Eid [Eprim [_ [Ecount Emerged]]]].
  rewrite Eprim in Hprim. destruct (Hinv r Hin Hprim) as [H1 H2].
  unfold mergedReportIds in *.
  rewrite Ecount, Emerged, Eid.
  rewrite (refers_map_length h); [ auto | ].
  intro x. apply Hh.
Qed.

Lemma MergeInvariant_storedPrimary (req : server.ReportRequest)
    (t : server.Triage) (s : Store) :
  WellFormed s -> MergeInvariant s -> MergeInvariant (storedPrimary req t s).
Proof.
  intros [_ [_ Href]] Hinv r Hin Hprim.
  assert (Hd : forall i,
             duplicatesOf i (storedPrimary req t s) = duplicatesOf i s).
  { intro i. unfold duplicatesOf, storedPrimary. cbn [rows].
    rewrite filter_app. cbn [filter]. unfold refers at 2.
    cbn [duplicate_of server.primaryRow]. apply app_nil_r. }
  rewrite Hd. unfold storedPrimary in Hin. cbn [rows] in Hin.
  apply in_app_or in Hin. destruct Hin as [Hin | [<- | []]].
  - apply Hinv; assumption.
  - unfold mergedReportIds.
    cbn [server.primaryRow duplicate_count merged_reports id List.length].
    split; [ reflexivity | ].
    replace (duplicatesOf (next_id s) s) with (@nil Report); [ reflexivity | ].
    symmetry. unfold duplicatesOf.
    induction (rows s) as [ | x l IH ]; [ reflexivity | ].
    cbn [filter]. unfold refers at 1.
    destruct (duplicate_of x) as [j | ] eqn:Ej.
    + assert (Hj : (j < next_id s)%positive) by (apply (Href x j); [ left | ]; auto).
      destruct (Pos.eqb_spec j (next_id s)) as [E | _]; [ lia | ].
      apply IH. intros y k Hy. apply Href. right. exact Hy.
    + apply IH. intros y k Hy. apply Href. right. exact Hy.
Qed.

Lemma MergeInvariant_storedDuplicate (req : server.ReportRequest)
    (t : server.Triage) (info : server.DuplicateInfo) (s : Store) :
  MergeInvariant s -> MergeInvariant (storedDuplicate req t info s).
Proof.
  intros Hinv r' Hin Hprim.
  unfold storedDuplicate, Db.update in Hin. cbn [rows] in Hin.
  set (p := server.primaryReportId info) in *.
  set (n := next_id s) in *.
  set (h := fun r => if Z.eqb (Zpos (id r)) (Zpos p)
                     then server.mergeDuplicate n r else r) in *.
  set (new := server.duplicateRow _ _ _ t info n) in *.
  assert (Hh : forall r, id (h r) = id r /\ is_primary (h r) = is_primary r
                         /\ duplicate_of (h r) = duplicate_of r).
  { intro r. unfold h. destruct (Z.eqb (Zpos (id r)) (Zpos p)); repeat split. }
  assert (Hd : forall i,
             List.length (duplicatesOf i (storedDuplicate req t info s))
             = (List.length (duplicatesOf i s)
                + if Pos.eqb p i then 1 else 0)%nat).
  { intro i. unfold duplicatesOf, storedDuplicate, Db.update. cbn [rows].
    fold p n h new. rewrite (refers_map_length h) by (intro r; apply Hh).
    rewrite filter_app, length_app. f_equal.
    cbn [filter]. unfold refers at 1. unfold new.
    cbn [duplicate_of server.duplicateRow]. fold p.
    destruct (Pos.eqb p i); reflexivity. }
  apply in_map_iff in Hin. destruct Hin as [r [<- Hin]].
  destruct (Hh r) as [Eid [Eprim _]]. rewrite Eprim in Hprim.
  apply in_app_or in Hin. destruct Hin as [Hin | [<- | []]];
    [ | unfold new in Hprim; discriminate Hprim ].
  destruct (Hinv r Hin Hprim) as [H1 H2].
  rewrite Hd, Eid. unfold h.
  destruct (Z.eqb_spec (Zpos (id r)) (Zpos p)) as [E | E].
  - injection E as E. rewrite mergeDuplicate_merged, length_app.
    replace (Pos.eqb p (id r)) with true by (symmetry; apply Pos.eqb_eq; auto).
    cbn [server.mergeDuplicate duplicate_count List.length]. lia.
  - replace (Pos.eqb p (id r)) with false
      by (symmetry; apply Pos.eqb_neq; congruence).
    lia.
Qed.

Lemma setStatus_keeps (st : Status) : KeepsBookkeeping (server.setStatus st).
Proof.
  intro r. repeat split.
Qed.

Lemma setStatusClearing_keeps (st : Status) :
  KeepsBookkeeping (server.setStatusClearing st).
Proof.
  intro r. repeat split.
Qed.

Lemma setResolution_keeps (url : string) (score : option JS.number) :
  KeepsBookkeeping (server.setResolution url score).
Proof.
  intro r. repeat split.
Qed.

(** The table after a status update: untouched, or one UPDATE that keeps
    the merge bookkeeping. *)
Lemma patchReport_store (idParam : Z) (body_status : option string) (s : Store) :
  snd (server.patchReport idParam body_status s) = s
  \/ exists g, KeepsBookkeeping g
               /\ snd (server.patchReport idParam body_status s)
                  = Db.update idParam g s.
Proof.
  unfold server.patchReport.
  destruct body_status as [text0 | ]; [ | left; reflexivity ].
  destruct (server.parseStatus text0) as [st | ]; [ | left; reflexivity ].
  destruct (Db.get idParam s); [ | left; reflexivity ].
  right. destruct (Status_eqb st resolved).
  - exists (server.setStatusClearing st). split; [ apply setStatusClearing_keeps | ].
    destruct (Db.changes idParam s); reflexivity.
  - exists (server.setStatus st). split; [ apply setStatus_keeps | ].
    destruct (Db.changes idParam s); reflexivity.
Qed.

Lemma resolveReport_store (idParam : Z) (file : option server.Upload)
    (verification : option JS.number) (s : Store) :
  snd (server.resolveReport idParam file verification s) = s
  \/ exists g, KeepsBookkeeping g
               /\ snd (server.resolveReport idParam file verification s)
                  = Db.update idParam g s.
Proof.
  unfold server.resolveReport.
  destruct file as [upload | ]; [ | left; reflexivity ].
  destruct (Db.get idParam s); [ | left; reflexivity ].
  right. eexists. split; [ apply setResolution_keeps | reflexivity ].
Qed.

Lemma WellFormed_storedPrimary (req : server.ReportRequest) (t : server.Triage)
    (s : Store) :
  WellFormed s -> WellFormed (storedPrimary req t s).
Proof.
  intro Hwf. unfold storedPrimary.
  apply WellFormed_append; [ reflexivity | discriminate | exact Hwf ].
Qed.

Lemma WellFormed_storedDuplicate (req : server.ReportRequest)
    (t : server.Triage) (info : server.DuplicateInfo) (s : Store) :
  (server.primaryReportId info < next_id s)%positive ->
  WellFormed s -> WellFormed (storedDuplicate req t info s).
Proof.
  intros Hlt Hwf. unfold storedDuplicate.
  apply WellFormed_update; try reflexivity.
  apply WellFormed_append; [ reflexivity | | exact Hwf ].
  cbn [duplicate_of server.duplicateRow]. intros j E. injection E as <-. exact Hlt.
Qed.

Lemma run_invariants (op : Operation) (s : Store) :
  WellFormed s /\ MergeInvariant s ->
  WellFormed (snd (run op s)) /\ MergeInvariant (snd (run op s)).
Proof.
  intros [Hwf Hinv].
  destruct op as [oracle F root req t | idParam body | idParam file v];
    cbn [run].
  - destruct (@postReport_store oracle F root req t s)
      as [-> | [[info [Hm ->]] | [_ ->]]].
    + auto.
    + split; [ | apply MergeInvariant_storedDuplicate, Hinv ].
      apply WellFormed_storedDuplicate; [ | exact Hwf ].
      destruct (matchOf_candidate _ _ _ _ _ Hm) as [p [Hin [<- _]]].
      apply Hwf, Hin.
    + split; [ apply WellFormed_storedPrimary, Hwf
             | apply MergeInvariant_storedPrimary; assumption ].
  - destruct (patchReport_store idParam body s) as [-> | [g [Hg ->]]]; [ auto | ].
    split; [ apply WellFormed_update; try assumption; intro r; apply Hg
           | apply MergeInvariant_update; assumption ].
  - destruct (resolveReport_store idParam file v s) as [-> | [g [Hg ->]]];
      [ auto | ].
    split; [ apply WellFormed_update; try assumption; intro r; apply Hg
           | apply MergeInvariant_update; assumption ].
Qed.

Lemma reachable_invariants (s : Store) :
  reachable s -> WellFormed s /\ MergeInvariant s.
Proof.
  induction 1 as [ | op s _ IH ].
  - split; [ apply WellFormed_empty | intros r [] ].
  - apply run_invariants, IH.
Qed.

(** C3.  In every store the service can reach from the empty table, and
    again after any further core operation (a submission stored as primary
    or merged as a duplicate, a status update, a resolution), every primary
    has [duplicateCount = 1 + |mergedReportIds|], which is 1 plus the
    number of reports whose [duplicateOf] is its id. *)
Theorem merge_counters_invariant (s : Store) :
  reachable s ->
  MergeInvariant s /\ forall op, MergeInvariant (snd (run op s)).
Proof.
  intro Hr. split.
  - apply reachable_invariants, Hr.
  - intro op. apply run_invariants, reachable_invariants, Hr.
Qed.

(* ================================================================= *)
(** ** Bookkeeping of a submission *)

Section SubmissionTheorems.

Context {oracle : SimilarityOracle}.
Variable F : aiService.FileSystem.
Variable projectRoot : string.

Local Abbreviation loop := (server.similarityLoop F projectRoot).
Local Abbreviation post := (server.postReport F projectRoot).
Local Abbreviation pathOf n :=
  (server.nearbyImagePath projectRoot (aiService.report n)).

(** The new row of a submission stored as a duplicate, and the matched
    primary before and after. *)
Lemma storedDuplicate_rows (req : server.ReportRequest) (t : server.Triage)
    (info : server.DuplicateInfo) (s : Store) :
  WellFormed s ->
  matchOf F projectRoot req s = Some info ->
  Db.get (Zpos (next_id s)) (storedDuplicate req t info s)
  = Some (server.duplicateRow (photoUrlOf req) (queryLatitude req)
            (queryLongitude req) t info (next_id s))
  /\ exists p,
       Db.get (Zpos (server.primaryReportId info)) s = Some p
       /\ Candidate (queryLatitude req) (queryLongitude req) (JS.Num 50) None p
       /\ Db.get (Zpos (server.primaryReportId info))
            (storedDuplicate req t info s)
          = Some (server.mergeDuplicate (next_id s) p).
Proof.
  intros Hwf Hm.
  destruct (matchOf_candidate _ _ _ _ _ Hm) as [p [Hin [Hid [Hc _]]]].
  destruct Hwf as [Hnd [Hlt Href]].
  pose proof (Hlt p Hin) as Hp. rewrite Hid in Hp.
  pose proof (get_unique s p Hnd Hin) as Hget. rewrite Hid in Hget.
  unfold storedDuplicate. split.
  - rewrite get_update by reflexivity.
    destruct (Z.eqb_spec (Zpos (next_id s)) (Zpos (server.primaryReportId info)))
      as [E | _]; [ injection E as E; lia | ].
    rewrite get_appended, (get_fresh s (next_id s) Hlt).
    cbn [id server.duplicateRow]. rewrite Z.eqb_refl. reflexivity.
  - exists p. split; [ exact Hget | ]. split; [ exact Hc | ].
    rewrite get_update by reflexivity.
    rewrite Z.eqb_refl, get_appended, Hget. reflexivity.
Qed.

Lemma storedPrimary_row (req : server.ReportRequest) (t : server.Triage)
    (s : Store) :
  WellFormed s ->
  Db.get (Zpos (next_id s)) (storedPrimary req t s)
  = Some (server.primaryRow (photoUrlOf req) (queryLatitude req)
            (queryLongitude req) t (next_id s)).
Proof.
  intros [_ [Hlt _]]. unfold storedPrimary.
  rewrite get_appended, (get_fresh s (next_id s) Hlt).
  cbn [id server.primaryRow]. rewrite Z.eqb_refl. reflexivity.
Qed.

(** C1.  A submission that passes validation is stored under the next id.
    If the loop found a match, the new row is stored with
    [is_primary = false] and [duplicate_of] the id of the match, and the
    matched primary has its [duplicate_count] incremented by exactly one
    and the new id appended to its [mergedReportIds].  If it found none,
    the new row is stored as a primary with [duplicate_count = 1] and no
    merged ids. *)
Theorem postReport_merge_bookkeeping (req : server.ReportRequest)
    (t : server.Triage) (s : Store) :
  WellFormed s ->
  Acceptable req t ->
  match matchOf F projectRoot req s with
  | Some info =>
      fst (post req t s) = server.Status201 (next_id s) true (Some info)
      /\ (exists r,
            Db.get (Zpos (next_id s)) (snd (post req t s)) = Some r
            /\ is_primary r = false
            /\ duplicate_of r = Some (server.primaryReportId info))
      /\ (exists p p',
            Db.get (Zpos (server.primaryReportId info)) s = Some p
            /\ is_primary p = true
            /\ Db.get (Zpos (server.primaryReportId info)) (snd (post req t s))
               = Some p'
            /\ is_primary p' = true
            /\ duplicate_count p' = (duplicate_count p + 1)%Z
            /\ mergedReportIds p' = mergedReportIds p ++ [next_id s])
  | None =>
      fst (post req t s) = server.Status201 (next_id s) false None
      /\ (exists r,
            Db.get (Zpos (next_id s)) (snd (post req t s)) = Some r
            /\ is_primary r = true
            /\ duplicate_of r = None
            /\ duplicate_count r = 1%Z
            /\ mergedReportIds r = [])
  end.
Proof.
  intros Hwf Hacc. rewrite (postReport_accepted F projectRoot req t s Hacc).
  destruct (matchOf F projectRoot req s) as [info | ] eqn:Hm; cbn [fst snd].
  - destruct (storedDuplicate_rows req t info s Hwf Hm) as [Hnew [p [Hp [Hc Hp']]]].
    split; [ reflexivity | ]. split.
    + eexists. split; [ exact Hnew | ]. split; reflexivity.
    + exists p, (server.mergeDuplicate (next_id s) p).
      split; [ exact Hp | ]. split; [ apply Hc | ]. split; [ exact Hp' | ].
      split; [ apply Hc | ]. split; [ reflexivity | ].
      apply mergeDuplicate_merged.
  - split; [ reflexivity | ].
    eexists. split; [ apply storedPrimary_row, Hwf | ]. repeat split.
Qed.

Lemma le_Num_inv (d : JS.number) (radius : R) :
  JS.le d (JS.Num radius) = true ->
  d = JS.NInf \/ exists x, d = JS.Num x /\ (x <= radius)%R.
Proof.
  destruct d as [ | | | x ]; simpl; try discriminate; [ left; reflexivity | ].
  unfold JS.Rleb. destruct (Rle_dec x radius); [ | discriminate ].
  intros _. right. exists x. auto.
Qed.

Lemma calculateDistance_not_NInf (a b c d : JS.number) :
  aiService.calculateDistance a b c d <> JS.NInf.
Proof.
  destruct a, b, c, d; simpl; discriminate.
Qed.

(** C5.  When the row stored for a submission has [duplicate_of] set, it
    names a primary of the table whose distance from the submitted
    coordinates is at most 50 metres; a row farther away than that (or at
    no distance at all) is never the one named. *)
Theorem duplicate_within_radius (req : server.ReportRequest)
    (t : server.Triage) (s : Store) (r : Report) (j : positive) :
  WellFormed s ->
  Db.get (Zpos (next_id s)) (snd (post req t s)) = Some r ->
  duplicate_of r = Some j ->
  latitude r = queryLatitude req /\ longitude r = queryLongitude req
  /\ (exists p d,
        Db.get (Zpos j) s = Some p
        /\ is_primary p = true
        /\ aiService.calculateDistance (latitude r) (longitude r)
             (latitude p) (longitude p) = JS.Num d
        /\ (d <= 50)%R)
  /\ (forall q, In q (rows s) ->
        JS.le (aiService.calculateDistance (latitude r) (longitude r)
                 (latitude q) (longitude q)) (JS.Num 50) = false ->
        id q <> j).
Proof.
  intros Hwf Hget Hdup.
  destruct (postReport_store F projectRoot req t s)
    as [E | [[info [Hm E]] | [_ E]]]; rewrite E in Hget.
  - destruct Hwf as [_ [Hlt _]]. rewrite (get_fresh s _ Hlt) in Hget.
    discriminate Hget.
  - destruct (storedDuplicate_rows req t info s Hwf Hm) as [Hnew [p [Hp [Hc _]]]].
    rewrite Hnew in Hget. injection Hget as <-.
    cbn [duplicate_of latitude longitude server.duplicateRow] in *.
    injection Hdup as <-.
    split; [ reflexivity | ]. split; [ reflexivity | ].
    destruct Hc as [Hprim [_ [_ Hle]]].
    split.
    + destruct (le_Num_inv _ _ Hle) as [Hinf | [d [Hd Hd50]]];
        [ exfalso; exact (calculateDistance_not_NInf _ _ _ _ Hinf) | ].
      exists p, d. auto.
    + intros q Hq Hfar Hid.
      destruct Hwf as [Hnd _].
      pose proof (get_unique s q Hnd Hq) as Hgq. rewrite Hid, Hp in Hgq.
      injection Hgq as ->. congruence.
  - rewrite (storedPrimary_row req t s Hwf) in Hget. injection Hget as <-.
    discriminate Hdup.
Qed.

(** A candidate whose photo is not on disk, or on which the oracle
    raises, is no match. *)
Lemma unavailable_is_no_match (imagePath : string) (n : aiService.NearbyReport) :
  aiService.existsSync F (pathOf n) = false
  \/ compare imagePath (pathOf n) = Raised ->
  forall similarity, ~ Matches F projectRoot imagePath n similarity.
Proof.
  intros [H | H] sim [Hex [Hc _]]; congruence.
Qed.

End SubmissionTheorems.

(* ================================================================= *)
(** ** The comparison of [aiService] *)

Ltac rdecide :=
  unfold JS.Rleb, JS.Rltb, JS.Reqb in *;
  repeat match goal with
         | |- context [Rle_dec ?a ?b] => destruct (Rle_dec a b)
         | |- context [Rlt_dec ?a ?b] => destruct (Rlt_dec a b)
         | |- context [Req_dec_T ?a ?b] => destruct (Req_dec_T a b)
         end;
  try reflexivity; try (exfalso; lra).

(** [Math.min(50, x)] is never 80 or more. *)
Lemma min50_below_threshold (x : JS.number) :
  JS.ge (JS.min (JS.Num 50) x) (JS.Num 80) = false.
Proof.
  destruct x as [ | | | y ]; try reflexivity.
  - unfold JS.ge, JS.min. cbn [JS.le]. rdecide.
  - unfold JS.ge, JS.min. cbn [JS.le]. unfold JS.Rleb.
    destruct (Rle_dec 50 y); cbn [JS.le]; rdecide.
Qed.

(** [Math.min(50, x)] is at most 50 unless it is [NaN]. *)
Lemma min50_capped (x : JS.number) :
  x <> JS.NaN -> JS.le (JS.min (JS.Num 50) x) (JS.Num 50) = true.
Proof.
  destruct x as [ | | | y ]; [ congruence | | reflexivity | ]; intros _.
  - unfold JS.min. cbn [JS.le]. rdecide.
  - unfold JS.min. cbn [JS.le]. unfold JS.Rleb.
    destruct (Rle_dec 50 y); cbn [JS.le]; rdecide.
Qed.

(** The fallback never answers a score that passes the threshold. *)
Lemma fallback_below_threshold (F : aiService.FileSystem) (a b : string) :
  JS.ge (aiService.similarityScore (aiService.fallbackImageSimilarity F a b))
    (JS.Num 80) = false.
Proof.
  unfold aiService.fallbackImageSimilarity.
  destruct (aiService.statSync F a), (aiService.statSync F b);
    cbn [aiService.similarityScore];
    try apply min50_below_threshold;
    unfold JS.ge; cbn [JS.le]; rdecide.
Qed.

(** The fallback's score is at most 50 when the files are not both empty. *)
Lemma fallback_capped (F : aiService.FileSystem) (a b : string) (size1 size2 : N) :
  aiService.statSync F a = Some size1 ->
  aiService.statSync F b = Some size2 ->
  (size1 + size2 <> 0)%N ->
  JS.le (aiService.similarityScore (aiService.fallbackImageSimilarity F a b))
    (JS.Num 50) = true.
Proof.
  intros Ha Hb Hne. unfold aiService.fallbackImageSimilarity. rewrite Ha, Hb.
  cbn [aiService.similarityScore]. apply min50_capped.
  unfold aiService.ofN.
  assert (H1 : (0 <= IZR (Z.of_N size1))%R) by (apply IZR_le; lia).
  assert (H2 : (0 <= IZR (Z.of_N size2))%R) by (apply IZR_le; lia).
  assert (H3 : (0 < IZR (Z.of_N size1) + IZR (Z.of_N size2))%R).
  { rewrite <- plus_IZR. apply IZR_lt. lia. }
  cbn [JS.sub JS.add JS.neg JS.abs JS.div]. unfold JS.Reqb.
  destruct (Req_dec_T 2 0) as [E | _]; [ exfalso; lra | ].
  cbn [JS.div]. unfold JS.Reqb.
  destruct (Req_dec_T ((IZR (Z.of_N size1) + IZR (Z.of_N size2)) / 2) 0)
    as [E | _]; [ exfalso; lra | ].
  cbn [JS.mul JS.sub JS.add JS.neg JS.max JS.le].
  destruct (JS.Rleb _ _); discriminate.
Qed.

Ltac unfold_retries :=
  unfold aiService.compareImages, aiService.maxRetries;
  cbn [aiService.compareFrom];
  unfold aiService.maxRetries; cbn [Nat.ltb Nat.leb Nat.eqb].

Ltac split_status st :=
  let c := fresh "code" in
  destruct st as [ c | ]; [ destruct (Z.eqb c 503) | ]; cbn [andb].

(** With no API key [compareImages] answers the fallback at once. *)
Lemma compareImages_unconfigured (G : aiService.Gemini)
    (F : aiService.FileSystem) (a b : string) :
  aiService.apiKeyConfigured G = false ->
  aiService.compareImages G F a b
  = Some (aiService.fallbackImageSimilarity F a b).
Proof.
  intro H. unfold_retries. rewrite H. reflexivity.
Qed.

(** When all three attempts fail, [compareImages] answers the fallback. *)
Lemma compareImages_exhausted (G : aiService.Gemini)
    (F : aiService.FileSystem) (a b : string) :
  (forall attempt, exists st,
      aiService.generateContent G a b attempt = aiService.Failed st) ->
  aiService.compareImages G F a b
  = Some (aiService.fallbackImageSimilarity F a b).
Proof.
  intro Hfail. unfold_retries.
  destruct (aiService.apiKeyConfigured G); cbn [negb]; [ | reflexivity ].
  destruct (Hfail 1%nat) as [st1 ->]. destruct (Hfail 2%nat) as [st2 ->].
  destruct (Hfail 3%nat) as [st3 ->].
  split_status st1; split_status st2; split_status st3; reflexivity.
Qed.

(** [compareImages] never ends without a result. *)
Lemma compareImages_returns (G : aiService.Gemini) (F : aiService.FileSystem)
    (a b : string) :
  exists similarity, aiService.compareImages G F a b = Some similarity.
Proof.
  unfold_retries.
  destruct (aiService.apiKeyConfigured G); cbn [negb]; [ | eexists; reflexivity ].
  destruct (aiService.generateContent G a b 1) as [ ? ? ? | st1 ];
    [ eexists; reflexivity | ].
  destruct (aiService.generateContent G a b 2) as [ ? ? ? | st2 ];
    [ split_status st1; eexists; reflexivity | ].
  destruct (aiService.generateContent G a b 3) as [ ? ? ? | st3 ];
    split_status st1; split_status st2; try split_status st3;
    eexists; reflexivity.
Qed.

(** A result marked [fallbackUsed] is the fallback's. *)
Lemma compareImages_fallbackUsed (G : aiService.Gemini)
    (F : aiService.FileSystem) (a b : string) (similarity : aiService.Similarity) :
  aiService.compareImages G F a b = Some similarity ->
  aiService.fallbackUsed similarity = true ->
  similarity = aiService.fallbackImageSimilarity F a b.
Proof.
  unfold_retries.
  destruct (aiService.apiKeyConfigured G); cbn [negb];
    [ | intros H _; injection H as <-; reflexivity ].
  destruct (aiService.generateContent G a b 1) as [ ? ? ? | st1 ];
    [ intros H; injection H as <-; discriminate | ].
  destruct (aiService.generateContent G a b 2) as [ ? ? ? | st2 ];
    [ split_status st1; intros H; injection H as <-; discriminate | ].
  destruct (aiService.generateContent G a b 3) as [ ? ? ? | st3 ];
    split_status st1; split_status st2; try split_status st3;
    intros H; injection H as <-; try discriminate; reflexivity.
Qed.

(** The oracle of the repository never raises, and answers the fallback,
    which is no match, when every attempt at the model fails. *)
Lemma aiOracle_total (G : aiService.Gemini) (F : aiService.FileSystem)
    (a b : string) :
  @compare (aiOracle G F) a b <> Raised.
Proof.
  unfold aiOracle. cbn [compare].
  destruct (compareImages_returns G F a b) as [similarity ->]. discriminate.
Qed.

Lemma aiOracle_exhausted (G : aiService.Gemini) (F : aiService.FileSystem)
    (a b : string) :
  (forall attempt, exists st,
      aiService.generateContent G a b attempt = aiService.Failed st) ->
  exists similarity,
    @compare (aiOracle G F) a b = Returned similarity
    /\ aiService.fallbackUsed similarity = true
    /\ JS.ge (aiService.similarityScore similarity) (JS.Num 80) = false.
Proof.
  intro Hfail. unfold aiOracle. cbn [compare].
  rewrite (compareImages_exhausted G F a b Hfail).
  exists (aiService.fallbackImageSimilarity F a b).
  split; [ reflexivity | ]. split; [ | apply fallback_below_threshold ].
  unfold aiService.fallbackImageSimilarity.
  destruct (aiService.statSync F a), (aiService.statSync F b); reflexivity.
Qed.

Section Completion.

Context {oracle : SimilarityOracle}.
Variable F : aiService.FileSystem.
Variable projectRoot : string.

Local Abbreviation loop := (server.similarityLoop F projectRoot).
Local Abbreviation post := (server.postReport F projectRoot).
Local Abbreviation pathOf n :=
  (server.nearbyImagePath projectRoot (aiService.report n)).

(** When no comparison of the loop reaches the threshold, there is no
    match. *)
Lemma loop_no_match (imagePath : string) (l : list aiService.NearbyReport) :
  (forall n similarity, In n l ->
     compare imagePath (pathOf n) = Returned similarity ->
     JS.ge (aiService.similarityScore similarity) (JS.Num 80) = false) ->
  fst (loop imagePath l) = None.
Proof.
  induction l as [ | n rest IH ]; intro Hall; [ reflexivity | ].
  destruct (loop_skip F projectRoot imagePath n rest) as [-> _].
  - intros sim [_ [Hc Hg]].
    rewrite (Hall n sim (or_introl eq_refl) Hc) in Hg. discriminate Hg.
  - apply IH. intros m sim Hin. apply Hall. right. exact Hin.
Qed.

(** C6.  A candidate whose photo is not on disk, or on which the oracle
    raises, is passed over and the loop goes on with the next one; and a
    submission that passes validation is always answered 201, stored
    under the next id, as a duplicate exactly when the loop found a match
    and as a primary otherwise, whatever the oracle does.  The oracle of
    the repository itself never raises: when every attempt at the model
    fails it answers the file-size fallback, which is no match. *)
Theorem oracle_failure_never_blocks (req : server.ReportRequest)
    (t : server.Triage) (s : Store) :
  Acceptable req t ->
  (forall imagePath n rest,
     aiService.existsSync F (pathOf n) = false
     \/ compare imagePath (pathOf n) = Raised ->
     fst (loop imagePath (n :: rest)) = fst (loop imagePath rest))
  /\ (exists isDuplicate r,
        post req t s
        = (server.Status201 (next_id s) isDuplicate (matchOf F projectRoot req s),
           snd (post req t s))
        /\ isDuplicate
           = match matchOf F projectRoot req s with
             | Some _ => true
             | None => false
             end
        /\ In r (rows (snd (post req t s)))
        /\ id r = next_id s
        /\ is_primary r = negb isDuplicate)
  /\ (forall G F0 a b,
        @compare (aiOracle G F0) a b <> Raised
        /\ ((forall attempt, exists st,
               aiService.generateContent G a b attempt = aiService.Failed st) ->
            exists similarity,
              @compare (aiOracle G F0) a b = Returned similarity
              /\ aiService.fallbackUsed similarity = true
              /\ JS.ge (aiService.similarityScore similarity) (JS.Num 80) = false)).
Proof.
  intro Hacc. split; [ | split ].
  - intros imagePath n rest H.
    apply (loop_skip F projectRoot imagePath n rest).
    apply unavailable_is_no_match, H.
  - rewrite (postReport_accepted F projectRoot req t s Hacc).
    destruct (matchOf F projectRoot req s) as [info | ]; cbn [fst snd].
    + unfold storedDuplicate, Db.update. cbn [rows].
      eexists true, _. split; [ reflexivity | ]. split; [ reflexivity | ].
      split; [ apply in_map, in_or_app; right; left; reflexivity | ].
      cbn [id server.duplicateRow].
      destruct (Z.eqb _ _); split; reflexivity.
    + unfold storedPrimary. cbn [rows].
      eexists false, _. split; [ reflexivity | ]. split; [ reflexivity | ].
      split; [ apply in_or_app; right; left; reflexivity | ].
      split; reflexivity.
  - intros G F0 a b. split; [ apply aiOracle_total | apply aiOracle_exhausted ].
Qed.

End Completion.

(* ================================================================= *)
(** ** Status updates and escalation flags *)

Lemma update_rows_cleared (i : Z) (g : Report -> Report) (s : Store) (x : Report) :
  (forall r, id (g r) = id r) ->
  In x (rows (Db.update i g s)) -> Zpos (id x) = i ->
  exists r, In r (rows s) /\ x = g r.
Proof.
  intros Hid Hin Hx. unfold Db.update in Hin. cbn [rows] in Hin.
  apply in_map_iff in Hin. destruct Hin as [r [E Hin]].
  exists r. split; [ exact Hin | ].
  destruct (Z.eqb_spec (Zpos (id r)) i) as [_ | Hne]; [ auto | ].
  subst x. contradiction.
Qed.

(** C7.  On an existing report, a status update to [resolved] and a
    resolution upload (whether or not the verification succeeds) each
    leave the report resolved with [escalated] and [escalation_notified]
    both false, by one UPDATE that sets the three columns together; this
    holds for the row [db.get] answers and for every row of that id. *)
Theorem resolving_clears_escalation (idParam : Z) (s : Store) (r : Report) :
  Db.get idParam s = Some r ->
  (fst (server.patchReport idParam (Some "resolved"%string) s)
   = server.Status200 true
   /\ snd (server.patchReport idParam (Some "resolved"%string) s)
      = Db.update idParam (server.setStatusClearing resolved) s
   /\ Db.get idParam (snd (server.patchReport idParam (Some "resolved"%string) s))
      = Some (server.setStatusClearing resolved r)
   /\ forall x,
        In x (rows (snd (server.patchReport idParam (Some "resolved"%string) s))) ->
        Zpos (id x) = idParam ->
        status x = resolved /\ escalated x = false
        /\ escalation_notified x = false)
  /\ (forall upload verification,
        fst (server.resolveReport idParam (Some upload) verification s)
        = server.Status200Resolved
            (String.append "/uploads/" (server.filename upload))
        /\ (exists r',
              Db.get idParam
                (snd (server.resolveReport idParam (Some upload) verification s))
              = Some r'
              /\ status r' = resolved /\ escalated r' = false
              /\ escalation_notified r' = false)
        /\ forall x,
             In x (rows (snd (server.resolveReport idParam (Some upload)
                                verification s))) ->
             Zpos (id x) = idParam ->
             status x = resolved /\ escalated x = false
             /\ escalation_notified x = false).
Proof.
  intro Hget. split.
  - unfold server.patchReport.
    change (server.parseStatus "resolved") with (Some resolved).
    cbv iota. rewrite Hget. cbn [Status_eqb].
    destruct (changes_positive idParam s r Hget) as [k ->]. cbn [fst snd].
    split; [ reflexivity | ]. split; [ reflexivity | ]. split.
    + rewrite get_update by reflexivity. rewrite Z.eqb_refl, Hget. reflexivity.
    + intros x Hin Hx.
      destruct (update_rows_cleared idParam (server.setStatusClearing resolved)
                  s x (fun _ => eq_refl) Hin Hx) as [r0 [_ ->]].
      repeat split.
  - intros upload verification. unfold server.resolveReport.
    rewrite Hget. cbn [fst snd]. split; [ reflexivity | ]. split.
    + eexists. split.
      * rewrite get_update by reflexivity. rewrite Z.eqb_refl, Hget. reflexivity.
      * repeat split.
    + intros x Hin Hx.
      destruct (update_rows_cleared idParam
                  (server.setResolution
                     (String.append "/uploads/" (server.filename upload))
                     verification)
                  s x (fun _ => eq_refl) Hin Hx) as [r0 [_ ->]].
      repeat split.
Qed.

Lemma update_map_field {B : Type} (field : Report -> B) (i : Z)
    (g : Report -> Report) (s : Store) :
  (forall r, field (g r) = field r) ->
  map field (rows (Db.update i g s)) = map field (rows s).
Proof.
  intro Hg. unfold Db.update. cbn [rows]. rewrite map_map.
  apply map_ext. intro r. destruct (Z.eqb (Zpos (id r)) i); auto.
Qed.

(** C8.  A status update to [pending] or [verified] on an existing report
    is answered 200 without [clearedEscalation], sets the status, and
    leaves [escalated] and [escalation_notified] of every row as they
    were, the updated report included. *)
Theorem status_update_keeps_escalation (idParam : Z) (text0 : string)
    (s : Store) (r : Report) :
  text0 = "pending"%string \/ text0 = "verified"%string ->
  Db.get idParam s = Some r ->
  fst (server.patchReport idParam (Some text0) s) = server.Status200 false
  /\ (exists r',
        Db.get idParam (snd (server.patchReport idParam (Some text0) s))
        = Some r'
        /\ server.parseStatus text0 = Some (status r')
        /\ escalated r' = escalated r
        /\ escalation_notified r' = escalation_notified r)
  /\ map escalated (rows (snd (server.patchReport idParam (Some text0) s)))
     = map escalated (rows s)
  /\ map escalation_notified
       (rows (snd (server.patchReport idParam (Some text0) s)))
     = map escalation_notified (rows s).
Proof.
  intros Htext Hget. unfold server.patchReport.
  assert (Hst : exists st, server.parseStatus text0 = Some st
                           /\ Status_eqb st resolved = false).
  { destruct Htext as [-> | ->]; eexists; split; reflexivity. }
  destruct Hst as [st [Hparse Hnr]]. rewrite Hparse, Hget, Hnr.
  destruct (changes_positive idParam s r Hget) as [k ->]. cbn [fst snd].
  split; [ reflexivity | ]. split; [ | split ].
  - exists (server.setStatus st r). split.
    + rewrite get_update by reflexivity. rewrite Z.eqb_refl, Hget. reflexivity.
    + repeat split.
  - apply update_map_field. reflexivity.
  - apply update_map_field. reflexivity.
Qed.

(* ================================================================= *)
(** ** The sample inputs, evaluated *)

Lemma parseFloat_12 : JS.parseFloat "12.00" = JS.Num 12.
Proof.
  change (JS.parseFloat "12.00") with (JS.Num (1 * 1200 * powerRZ 10 (-2))).
  f_equal. unfold powerRZ. simpl. lra.
Qed.

Lemma parseFloat_77 : JS.parseFloat "77.00" = JS.Num 77.
Proof.
  change (JS.parseFloat "77.00") with (JS.Num (1 * 7700 * powerRZ 10 (-2))).
  f_equal. unfold powerRZ. simpl. lra.
Qed.

Lemma parseFloat_999 : JS.parseFloat "999" = JS.Num 999.
Proof.
  change (JS.parseFloat "999") with (JS.Num (1 * 999 * powerRZ 10 0)).
  f_equal. unfold powerRZ. simpl. lra.
Qed.

Lemma request_acceptable : Acceptable Sample.request Sample.triage.
Proof.
  unfold Acceptable.
  cbn [Sample.request server.files_photo server.body_latitude
       server.body_longitude JS.truthy server.text].
  rewrite parseFloat_12, parseFloat_77.
  repeat split; try discriminate. right. right. right. reflexivity.
Qed.

Lemma farOut_acceptable : Acceptable Sample.farOut Sample.triage.
Proof.
  unfold Acceptable.
  cbn [Sample.farOut server.files_photo server.body_latitude
       server.body_longitude JS.truthy server.text].
  rewrite parseFloat_999.
  repeat split; try discriminate. right. right. right. reflexivity.
Qed.

Lemma oneReport_WellFormed : WellFormed Sample.oneReport.
Proof.
  apply WellFormed_storedPrimary, WellFormed_empty.
Qed.

Lemma calculateDistance_same (a b : R) :
  aiService.calculateDistance (JS.Num a) (JS.Num b) (JS.Num a) (JS.Num b)
  = JS.Num 0.
Proof.
  cbn [aiService.calculateDistance]. rewrite haversine_same. reflexivity.
Qed.

(** The geo query of a second report at (12.00, 77.00) finds the first. *)
Lemma candidates_oneReport :
  candidatesOf Sample.request Sample.oneReport
  = [ {| aiService.report :=
           server.primaryRow "/uploads/a.jpg" (JS.Num 12) (JS.Num 77)
             Sample.triage 1;
         aiService.distance := JS.Num 0 |} ].
Proof.
  unfold candidatesOf, aiService.findNearbyReports.
  unfold Sample.oneReport, storedPrimary. cbn [rows emptyStore app next_id].
  unfold queryLatitude, queryLongitude.
  cbn [Sample.request server.body_latitude server.body_longitude server.text].
  rewrite parseFloat_12, parseFloat_77.
  cbn [filter aiService.activePrimary is_primary status server.primaryRow
       Status_eqb andb orb negb id aiService.excludeParam Z.eqb
       Db.order_by_created_at_desc fold_right Db.insert_desc latitude longitude].
  rewrite calculateDistance_same.
  cbn [JS.le]. unfold JS.Rleb.
  destruct (Rle_dec 0 50) as [_ | H]; [ | exfalso; lra ].
  cbn [filter map latitude longitude]. rewrite calculateDistance_same.
  reflexivity.
Qed.

(** With an oracle score of 85 the first report is the match. *)
Lemma match_oneReport :
  @matchOf (Sample.scoring 85) Sample.files "" Sample.request Sample.oneReport
  = Some {| server.primaryReportId := 1;
            server.similarityScore := JS.Num 85;
            server.distance := JS.Num 0;
            server.reasoning := "same pothole" |}.
Proof.
  unfold matchOf. rewrite candidates_oneReport.
  cbn [server.similarityLoop aiService.report aiService.existsSync Sample.files
       compare Sample.scoring aiService.similarityScore].
  unfold JS.ge. cbn [JS.le]. unfold JS.Rleb.
  destruct (Rle_dec 80 85) as [_ | H]; [ | exfalso; lra ].
  reflexivity.
Qed.

(** The scenario of two reports at one place with a score of 85: the
    second is stored as a duplicate of the first, whose counter becomes 2
    and whose merged ids become [[2]]. *)
Example scenario_duplicate :
  let s2 := snd (@server.postReport (Sample.scoring 85) Sample.files ""
                   Sample.request Sample.triage Sample.oneReport) in
  (exists d, Db.get 2 s2 = Some d
             /\ is_primary d = false /\ duplicate_of d = Some 1%positive)
  /\ (exists p, Db.get 1 s2 = Some p
                /\ is_primary p = true /\ duplicate_count p = 2%Z
                /\ mergedReportIds p = [2%positive]).
Proof.
  cbv zeta.
  rewrite (postReport_accepted _ _ _ _ _ request_acceptable), match_oneReport.
  cbn [snd]. split; eexists; (split; [ reflexivity | repeat split ]).
Qed.

(** The scenario of a report far from every other: it is a primary. *)
Example scenario_primary :
  fst (@server.postReport (Sample.scoring 100) Sample.files ""
         Sample.request Sample.triage emptyStore)
  = server.Status201 1 false None.
Proof.
  rewrite (postReport_accepted _ _ _ _ _ request_acceptable). reflexivity.
Qed.

(** A later candidate that would score higher is not looked at. *)
Example scenario_first_match (n1 n2 : aiService.NearbyReport) :
  snd (@server.similarityLoop (Sample.scoring 85) Sample.files ""
         "uploads/new.jpg" [n1; n2])
  = [id (aiService.report n1)].
Proof.
  cbn [server.similarityLoop aiService.existsSync Sample.files compare
       Sample.scoring aiService.similarityScore].
  unfold JS.ge. cbn [JS.le]. unfold JS.Rleb.
  destruct (Rle_dec 80 85) as [_ | H]; [ | exfalso; lra ].
  reflexivity.
Qed.

(* ================================================================= *)
(** ** Validation of a submission, and the fallback score *)

(** The form rejects the coordinates (999, 999). *)
Lemma form_rejects_farOut :
  ReportForm.handleManualLocation "999" "999" = None.
Proof.
  unfold ReportForm.handleManualLocation. rewrite parseFloat_999.
  unfold JS.lt. cbn [JS.isNaN JS.gt orb]. unfold JS.Rltb.
  destruct (Rlt_dec 999 (-90)) as [H | _]; [ exfalso; lra | ].
  destruct (Rlt_dec 90 999) as [_ | H]; [ | exfalso; lra ].
  reflexivity.
Qed.

(** C9.  The handler stores a submission whose coordinates are out of
    range: with a photo, latitude "999" and longitude "999" it answers 201
    and the table gains a primary at (999, 999), although 999 is above 90
    and the report form rejects the same coordinates. *)
Theorem postReport_stores_out_of_range :
  @server.postReport Sample.failing Sample.files ""
    Sample.farOut Sample.triage emptyStore
  = (server.Status201 1 false None,
     {| rows := [server.primaryRow "/uploads/a.jpg" (JS.Num 999) (JS.Num 999)
                   Sample.triage 1];
        next_id := 2 |})
  /\ JS.gt (JS.Num 999) (JS.Num 90) = true
  /\ ReportForm.handleManualLocation "999" "999" = None.
Proof.
  split; [ | split; [ | apply form_rejects_farOut ] ].
  - rewrite (postReport_accepted _ _ _ _ _ farOut_acceptable).
    change (@matchOf Sample.failing Sample.files "" Sample.farOut emptyStore)
      with (@None server.DuplicateInfo).
    unfold storedPrimary, queryLatitude, queryLongitude.
    cbn [Sample.farOut server.body_latitude server.body_longitude server.text].
    rewrite parseFloat_999. reflexivity.
  - cbn [JS.gt]. unfold JS.Rltb.
    destruct (Rlt_dec 90 999) as [_ | H]; [ reflexivity | exfalso; lra ].
Qed.

(** When every comparison of a submission used the fallback, there is no
    match, and a submission that passes validation is stored as a
    primary. *)
Lemma fallback_only_is_primary (G : aiService.Gemini)
    (F0 F : aiService.FileSystem) (projectRoot : string)
    (req : server.ReportRequest) (t : server.Triage) (s : Store) :
  (forall a b similarity,
     aiService.compareImages G F0 a b = Some similarity ->
     aiService.fallbackUsed similarity = true) ->
  @matchOf (aiOracle G F0) F projectRoot req s = None
  /\ (Acceptable req t ->
      @server.postReport (aiOracle G F0) F projectRoot req t s
      = (server.Status201 (next_id s) false None, storedPrimary req t s)).
Proof.
  intro Hfb.
  assert (Hm : @matchOf (aiOracle G F0) F projectRoot req s = None).
  { unfold matchOf. apply loop_no_match. intros n sim _.
    unfold aiOracle. cbn [compare].
    destruct (aiService.compareImages G F0 _ _) as [sim' | ] eqn:E;
      [ | discriminate ].
    intro H. injection H as <-.
    rewrite (compareImages_fallbackUsed G F0 _ _ sim' E (Hfb _ _ _ E)).
    apply fallback_below_threshold. }
  split; [ exact Hm | ].
  intro Hacc. rewrite (postReport_accepted _ _ _ _ _ Hacc), Hm. reflexivity.
Qed.

(** C10.  With no API key and two empty files the comparison answers the
    file-size fallback with a [similarityScore] of [NaN], the result of
    0/0, which is not at most 50. *)
Theorem fallback_score_of_empty_files :
  aiService.compareImages Sample.unconfigured Sample.emptyFiles
    "uploads/a.jpg" "uploads/b.jpg"
  = Some (aiService.fallbackImageSimilarity Sample.emptyFiles
            "uploads/a.jpg" "uploads/b.jpg")
  /\ aiService.fallbackUsed
       (aiService.fallbackImageSimilarity Sample.emptyFiles
          "uploads/a.jpg" "uploads/b.jpg") = true
  /\ aiService.similarityScore
       (aiService.fallbackImageSimilarity Sample.emptyFiles
          "uploads/a.jpg" "uploads/b.jpg") = JS.NaN
  /\ JS.le JS.NaN (JS.Num 50) = false.
Proof.
  split; [ apply compareImages_unconfigured; reflexivity | ].
  split; [ reflexivity | ]. split; [ | reflexivity ].
  unfold aiService.fallbackImageSimilarity.
  cbn [Sample.emptyFiles aiService.statSync aiService.similarityScore].
  unfold aiService.ofN. cbn [Z.of_N].
  cbn [JS.sub JS.add JS.neg JS.abs JS.div]. unfold JS.Reqb.
  destruct (Req_dec_T 2 0) as [E | _]; [ exfalso; lra | ].
  cbn [JS.div]. unfold JS.Reqb.
  destruct (Req_dec_T ((0 + 0) / 2) 0) as [_ | E]; [ | exfalso; lra ].
  destruct (Req_dec_T (Rabs (0 + - 0)) 0) as [_ | E].
  - reflexivity.
  - exfalso. apply E. replace (0 + - 0)%R with 0%R by lra. apply Rabs_R0.
Qed.

(* ================================================================= *)
(** ** The theorems at the sample inputs *)

Lemma postReport_merge_bookkeeping_witness :
  match @matchOf (Sample.scoring 85) Sample.files "" Sample.request
          Sample.oneReport with
  | Some info =>
      fst (@server.postReport (Sample.scoring 85) Sample.files ""
             Sample.request Sample.triage Sample.oneReport)
      = server.Status201 (next_id Sample.oneReport) true (Some info)
      /\ (exists r,
            Db.get (Zpos (next_id Sample.oneReport))
              (snd (@server.postReport (Sample.scoring 85) Sample.files ""
                      Sample.request Sample.triage Sample.oneReport)) = Some r
            /\ is_primary r = false
            /\ duplicate_of r = Some (server.primaryReportId info))
      /\ (exists p p',
            Db.get (Zpos (server.primaryReportId info)) Sample.oneReport = Some p
            /\ is_primary p = true
            /\ Db.get (Zpos (server.primaryReportId info))
                 (snd (@server.postReport (Sample.scoring 85) Sample.files ""
                         Sample.request Sample.triage Sample.oneReport))
               = Some p'
            /\ is_primary p' = true
            /\ duplicate_count p' = (duplicate_count p + 1)%Z
            /\ mergedReportIds p' = mergedReportIds p ++ [next_id Sample.oneReport])
  | None =>
      fst (@server.postReport (Sample.scoring 85) Sample.files ""
             Sample.request Sample.triage Sample.oneReport)
      = server.Status201 (next_id Sample.oneReport) false None
      /\ (exists r,
            Db.get (Zpos (next_id Sample.oneReport))
              (snd (@server.postReport (Sample.scoring 85) Sample.files ""
                      Sample.request Sample.triage Sample.oneReport)) = Some r
            /\ is_primary r = true
            /\ duplicate_of r = None
            /\ duplicate_count r = 1%Z
            /\ mergedReportIds r = [])
  end.
Proof.
  apply (@postReport_merge_bookkeeping (Sample.scoring 85) Sample.files ""
           Sample.request Sample.triage Sample.oneReport).
  - exact oneReport_WellFormed.
  - exact request_acceptable.
Defined.

Lemma merge_counters_invariant_witness :
  MergeInvariant
    (snd (run (Submit (Sample.scoring 85) Sample.files "" Sample.request
                 Sample.triage)
            (snd (run (Submit Sample.failing Sample.files "" Sample.request
                         Sample.triage) emptyStore))))
  /\ forall op,
       MergeInvariant
         (snd (run op
                 (snd (run (Submit (Sample.scoring 85) Sample.files ""
                              Sample.request Sample.triage)
                         (snd (run (Submit Sample.failing Sample.files ""
                                      Sample.request Sample.triage)
                                 emptyStore)))))).
Proof.
  apply (merge_counters_invariant
           (snd (run (Submit (Sample.scoring 85) Sample.files "" Sample.request
                        Sample.triage)
                   (snd (run (Submit Sample.failing Sample.files ""
                                Sample.request Sample.triage) emptyStore))))).
  apply reachable_step, reachable_step, reachable_empty.
Defined.

Lemma duplicate_within_radius_witness :
  Db.get 2
    (snd (@server.postReport (Sample.scoring 85) Sample.files ""
            Sample.request Sample.triage Sample.oneReport))
  = Some (server.duplicateRow "/uploads/a.jpg" (queryLatitude Sample.request)
            (queryLongitude Sample.request) Sample.triage
            {| server.primaryReportId := 1;
               server.similarityScore := JS.Num 85;
               server.distance := JS.Num 0;
               server.reasoning := "same pothole" |} 2)
  /\ exists p d,
       Db.get 1 Sample.oneReport = Some p
       /\ is_primary p = true
       /\ aiService.calculateDistance (queryLatitude Sample.request)
            (queryLongitude Sample.request) (latitude p) (longitude p)
          = JS.Num d
       /\ (d <= 50)%R.
Proof.
  assert (Hget :
    Db.get (Zpos (next_id Sample.oneReport))
      (snd (@server.postReport (Sample.scoring 85) Sample.files ""
              Sample.request Sample.triage Sample.oneReport))
    = Some (server.duplicateRow "/uploads/a.jpg" (queryLatitude Sample.request)
              (queryLongitude Sample.request) Sample.triage
              {| server.primaryReportId := 1;
                 server.similarityScore := JS.Num 85;
                 server.distance := JS.Num 0;
                 server.reasoning := "same pothole" |} 2)).
  { rewrite (postReport_accepted _ _ _ _ _ request_acceptable), match_oneReport.
    reflexivity. }
  split; [ exact Hget | ].
  exact (proj1 (proj2 (proj2
    (@duplicate_within_radius (Sample.scoring 85) Sample.files ""
       Sample.request Sample.triage Sample.oneReport _ 1%positive
       oneReport_WellFormed Hget eq_refl)))).
Defined.

Lemma oracle_failure_never_blocks_witness :
  exists isDuplicate r,
    @server.postReport Sample.failing Sample.files ""
      Sample.request Sample.triage Sample.oneReport
    = (server.Status201 (next_id Sample.oneReport) isDuplicate
         (@matchOf Sample.failing Sample.files "" Sample.request Sample.oneReport),
       snd (@server.postReport Sample.failing Sample.files ""
              Sample.request Sample.triage Sample.oneReport))
    /\ isDuplicate
       = match @matchOf Sample.failing Sample.files "" Sample.request
                 Sample.oneReport with
         | Some _ => true
         | None => false
         end
    /\ In r (rows (snd (@server.postReport Sample.failing Sample.files ""
                          Sample.request Sample.triage Sample.oneReport)))
    /\ id r = next_id Sample.oneReport
    /\ is_primary r = negb isDuplicate.
Proof.
  exact (proj1 (proj2
    (@oracle_failure_never_blocks Sample.failing Sample.files ""
       Sample.request Sample.triage Sample.oneReport request_acceptable))).
Defined.

Lemma resolving_clears_escalation_witness :
  Db.get 1 Sample.escalatedStore = Some Sample.escalatedReport
  /\ escalated Sample.escalatedReport = true
  /\ Db.get 1 (snd (server.patchReport 1 (Some "resolved"%string)
                      Sample.escalatedStore))
     = Some (server.setStatusClearing resolved Sample.escalatedReport)
  /\ escalated (server.setStatusClearing resolved Sample.escalatedReport) = false
  /\ escalation_notified (server.setStatusClearing resolved Sample.escalatedReport)
     = false.
Proof.
  split; [ reflexivity | ]. split; [ reflexivity | ].
  split; [ | split; reflexivity ].
  exact (proj1 (proj2 (proj2 (proj1
    (resolving_clears_escalation 1 Sample.escalatedStore Sample.escalatedReport
       eq_refl))))).
Defined.

Lemma status_update_keeps_escalation_witness :
  fst (server.patchReport 1 (Some "verified"%string) Sample.escalatedStore)
  = server.Status200 false
  /\ map escalated
       (rows (snd (server.patchReport 1 (Some "verified"%string)
                     Sample.escalatedStore)))
     = [true]
  /\ map escalation_notified
       (rows (snd (server.patchReport 1 (Some "verified"%string)
                     Sample.escalatedStore)))
     = [true].
Proof.
  pose proof (status_update_keeps_escalation 1 "verified" Sample.escalatedStore
                Sample.escalatedReport (or_intror eq_refl) eq_refl)
    as [H1 [_ [H2 H3]]].
  split; [ exact H1 | ]. split; [ exact H2 | exact H3 ].
Defined.

(* ================================================================= *)
(** ** Further properties: distances and coordinates *)

Section DistanceFacts.

Local Open Scope R_scope.

Lemma haversine_a_sym (lat1 lon1 lat2 lon2 : R) :
  aiService.haversine_a lat1 lon1 lat2 lon2
  = aiService.haversine_a lat2 lon2 lat1 lon1.
Proof.
  unfold aiService.haversine_a. cbv zeta.
  replace ((lat1 - lat2) * PI / 180 / 2) with (- ((lat2 - lat1) * PI / 180 / 2))
    by field.
  replace ((lon1 - lon2) * PI / 180 / 2) with (- ((lon2 - lon1) * PI / 180 / 2))
    by field.
  rewrite !sin_neg. ring.
Qed.

Lemma haversine_bounds (lat1 lon1 lat2 lon2 : R) :
  0 <= aiService.haversine lat1 lon1 lat2 lon2 <= 6371000 * PI.
Proof.
  unfold aiService.haversine. cbv zeta.
  destruct (atan2_half_angle _ (haversine_a_range lat1 lon1 lat2 lon2))
    as [[Hlo Hhi] _].
  split; nra.
Qed.

End DistanceFacts.

(** X1.  [calculateDistance] is symmetric in the two points; its result
    is never negative and never infinite, that is, [NaN] or a finite
    number that is at least 0; it is 0 from a point with a latitude
    between -90 and 90 to itself; as soon as a coordinate is [NaN] or
    infinite it is [NaN]. *)
Theorem calculateDistance_metric :
  (forall lat1 lon1 lat2 lon2 : JS.number,
     aiService.calculateDistance lat1 lon1 lat2 lon2
     = aiService.calculateDistance lat2 lon2 lat1 lon1)
  /\ (forall lat1 lon1 lat2 lon2 : JS.number,
        aiService.calculateDistance lat1 lon1 lat2 lon2 = JS.NaN
        \/ exists d, aiService.calculateDistance lat1 lon1 lat2 lon2 = JS.Num d
                     /\ (0 <= d)%R)
  /\ (forall lat lon : R,
        (-90 <= lat <= 90)%R ->
        aiService.calculateDistance (JS.Num lat) (JS.Num lon)
          (JS.Num lat) (JS.Num lon) = JS.Num 0)
  /\ (forall lat1 lon1 lat2 lon2 : JS.number,
        (forall x, lat1 <> JS.Num x) \/ (forall x, lon1 <> JS.Num x)
        \/ (forall x, lat2 <> JS.Num x) \/ (forall x, lon2 <> JS.Num x) ->
        aiService.calculateDistance lat1 lon1 lat2 lon2 = JS.NaN).
Proof.
  split; [ | split; [ | split ] ].
  - intros lat1 lon1 lat2 lon2.
    destruct lat1, lon1, lat2, lon2; try reflexivity.
    cbn [aiService.calculateDistance]. unfold aiService.haversine.
    rewrite haversine_a_sym. reflexivity.
  - intros lat1 lon1 lat2 lon2.
    destruct lat1, lon1, lat2, lon2; try (left; reflexivity).
    right. eexists. split; [ reflexivity | apply haversine_bounds ].
  - intros lat lon _. apply calculateDistance_same.
  - intros lat1 lon1 lat2 lon2 H.
    destruct lat1, lon1, lat2, lon2; try reflexivity.
    exfalso. destruct H as [H | [H | [H | H]]]; eapply H; reflexivity.
Qed.

Lemma calculateDistance_metric_witness :
  aiService.calculateDistance JS.PInf (JS.Num 77) (JS.Num 12) (JS.Num 77)
  = JS.NaN
  /\ aiService.calculateDistance (JS.Num 12) (JS.Num 77) (JS.Num 12)
       (JS.Num 77)
     = JS.Num 0.
Proof.
  split.
  - apply (proj2 (proj2 (proj2 calculateDistance_metric))).
    left. intros x H. discriminate H.
  - apply (proj1 (proj2 (proj2 calculateDistance_metric))). lra.
Defined.

Lemma gt_Num (x y : R) : JS.gt (JS.Num x) (JS.Num y) = true <-> (y < x)%R.
Proof.
  cbn [JS.gt]. unfold JS.Rltb.
  destruct (Rlt_dec y x); split; intro H; auto; discriminate H.
Qed.

Lemma gt_Num_false (x y : R) : JS.gt (JS.Num x) (JS.Num y) = false <-> (x <= y)%R.
Proof.
  cbn [JS.gt]. unfold JS.Rltb.
  destruct (Rlt_dec y x); split; intro H; auto; try discriminate H; lra.
Qed.

(** X2.  The report form sets a manually entered location exactly when
    both fields parse to finite numbers with the latitude in [-90, 90] and
    the longitude in [-180, 180]; the location it sets is the parsed
    pair. *)
Theorem handleManualLocation_in_range (manualLatitude manualLongitude : string)
    (lat lng : JS.number) :
  ReportForm.handleManualLocation manualLatitude manualLongitude = Some (lat, lng)
  <-> lat = JS.parseFloat manualLatitude
      /\ lng = JS.parseFloat manualLongitude
      /\ exists x y, lat = JS.Num x /\ lng = JS.Num y
                     /\ (-90 <= x <= 90)%R /\ (-180 <= y <= 180)%R.
Proof.
  unfold ReportForm.handleManualLocation, JS.lt.
  destruct (JS.parseFloat manualLatitude) as [ | | | x ];
    destruct (JS.parseFloat manualLongitude) as [ | | | y ];
    cbn [JS.isNaN JS.gt orb]; rewrite ?orb_false_r, ?orb_true_r;
    try (split; [ discriminate
                | intros [E1 [E2 [x' [y' [H1 [H2 _]]]]]]; congruence ]).
  assert (Hout : forall P : Prop,
             ~ ((-90 <= x <= 90)%R /\ (-180 <= y <= 180)%R) ->
             (None = Some (lat, lng) <->
              lat = JS.Num x /\ lng = JS.Num y
              /\ exists x' y', lat = JS.Num x' /\ lng = JS.Num y'
                               /\ (-90 <= x' <= 90)%R /\ (-180 <= y' <= 180)%R)).
  { intros _ Hno. split; [ discriminate | ].
    intros [E1 [E2 [x' [y' [H1 [H2 H3]]]]]]. exfalso. apply Hno.
    rewrite E1 in H1. rewrite E2 in H2.
    injection H1 as <-. injection H2 as <-. exact H3. }
  unfold JS.Rltb.
  destruct (Rlt_dec x (-90)); cbn [orb]; [ apply (Hout True); lra | ].
  destruct (Rlt_dec 90 x); cbn [orb]; [ apply (Hout True); lra | ].
  destruct (Rlt_dec y (-180)); cbn [orb]; [ apply (Hout True); lra | ].
  destruct (Rlt_dec 180 y); [ apply (Hout True); lra | ].
  split.
  - intro H. injection H as <- <-. split; [ reflexivity | ].
    split; [ reflexivity | ]. exists x, y. repeat split; lra.
  - intros [-> [-> _]]. reflexivity.
Qed.

(* ================================================================= *)
(** ** Further properties: the image comparison *)

Lemma sizeDiff_sym (n1 n2 : N) :
  JS.abs (JS.sub (aiService.ofN n1) (aiService.ofN n2))
  = JS.abs (JS.sub (aiService.ofN n2) (aiService.ofN n1)).
Proof.
  unfold aiService.ofN. cbn [JS.sub JS.add JS.neg JS.abs]. f_equal.
  replace (IZR (Z.of_N n1) + - IZR (Z.of_N n2))%R
    with (IZR (Z.of_N n1) - IZR (Z.of_N n2))%R by ring.
  replace (IZR (Z.of_N n2) + - IZR (Z.of_N n1))%R
    with (IZR (Z.of_N n2) - IZR (Z.of_N n1))%R by ring.
  apply Rabs_minus_sym.
Qed.

Lemma sizeSum_sym (n1 n2 : N) :
  JS.add (aiService.ofN n1) (aiService.ofN n2)
  = JS.add (aiService.ofN n2) (aiService.ofN n1).
Proof.
  unfold aiService.ofN. cbn [JS.add]. f_equal. apply Rplus_comm.
Qed.

(** X3.  The fallback comparison does not depend on the order of the two
    files: it answers the same score and the same [isSameIssue] either
    way round. *)
Theorem fallbackImageSimilarity_symmetric (F : aiService.FileSystem)
    (imagePath1 imagePath2 : string) :
  aiService.similarityScore
    (aiService.fallbackImageSimilarity F imagePath1 imagePath2)
  = aiService.similarityScore
      (aiService.fallbackImageSimilarity F imagePath2 imagePath1)
  /\ aiService.isSameIssue
       (aiService.fallbackImageSimilarity F imagePath1 imagePath2)
     = aiService.isSameIssue
         (aiService.fallbackImageSimilarity F imagePath2 imagePath1).
Proof.
  unfold aiService.fallbackImageSimilarity.
  destruct (aiService.statSync F imagePath1) as [n1 | ],
           (aiService.statSync F imagePath2) as [n2 | ];
    cbn [aiService.similarityScore aiService.isSameIssue];
    try (split; reflexivity).
  rewrite (sizeDiff_sym n1 n2), (sizeSum_sym n1 n2). split; reflexivity.
Qed.

(** X4.  On two files that [statSync] can read and that are not both
    empty, the fallback answers a finite score between 0 and 50, exactly 50
    when the sizes are equal, and it reports [isSameIssue] exactly when the
    sizes differ by less than a fifth of their mean, so it can call two
    files the same issue while scoring them 50. *)
Theorem fallbackImageSimilarity_range (F : aiService.FileSystem)
    (imagePath1 imagePath2 : string) (size1 size2 : N) :
  aiService.statSync F imagePath1 = Some size1 ->
  aiService.statSync F imagePath2 = Some size2 ->
  (size1 + size2 <> 0)%N ->
  (exists x,
     aiService.similarityScore
       (aiService.fallbackImageSimilarity F imagePath1 imagePath2) = JS.Num x
     /\ (0 <= x <= 50)%R
     /\ (size1 = size2 -> x = 50%R))
  /\ (aiService.isSameIssue
        (aiService.fallbackImageSimilarity F imagePath1 imagePath2) = true
      <-> (5 * Rabs (IZR (Z.of_N size1) - IZR (Z.of_N size2))
           < (IZR (Z.of_N size1) + IZR (Z.of_N size2)) / 2)%R).
Proof.
  intros Ha Hb Hne. unfold aiService.fallbackImageSimilarity. rewrite Ha, Hb.
  cbn [aiService.similarityScore aiService.isSameIssue].
  unfold aiService.ofN.
  set (a := IZR (Z.of_N size1)). set (b := IZR (Z.of_N size2)).
  assert (Ha0 : (0 <= a)%R) by (apply IZR_le; lia).
  assert (Hb0 : (0 <= b)%R) by (apply IZR_le; lia).
  assert (Hab : (0 < a + b)%R).
  { unfold a, b. rewrite <- plus_IZR. apply IZR_lt. lia. }
  cbn [JS.sub JS.add JS.neg JS.abs JS.div]. unfold JS.Reqb.
  destruct (Req_dec_T 2 0) as [E | _]; [ exfalso; lra | ].
  cbn [JS.div]. unfold JS.Reqb.
  destruct (Req_dec_T ((a + b) / 2) 0) as [E | _]; [ exfalso; lra | ].
  cbn [JS.mul JS.sub JS.add JS.neg].
  replace (a + - b)%R with (a - b)%R by ring.
  set (d := Rabs (a - b)).
  assert (Hd0 : (0 <= d)%R) by apply Rabs_pos.
  set (q := (d / ((a + b) / 2) * 100)%R).
  assert (Hq0 : (0 <= q)%R).
  { unfold q. apply Rmult_le_pos; [ | lra ].
    unfold Rdiv at 1. apply Rmult_le_pos; [ exact Hd0 | ].
    left. apply Rinv_0_lt_compat. lra. }
  assert (Hq : (q * ((a + b) / 2) = 100 * d)%R).
  { unfold q. field. lra. }
  split.
  - unfold JS.max. cbn [JS.le]. unfold JS.Rleb.
    destruct (Rle_dec 0 (100 + - q)) as [Hpos | Hneg].
    + unfold JS.min. cbn [JS.le]. unfold JS.Rleb.
      destruct (Rle_dec 50 (100 + - q)) as [H50 | H50].
      * exists 50%R. split; [ reflexivity | ]. split; [ lra | reflexivity ].
      * exists (100 + - q)%R. split; [ reflexivity | ]. split; [ lra | ].
        intro Heq. exfalso. apply H50.
        assert (d = 0%R).
        { unfold d, a, b. rewrite Heq.
          replace (IZR (Z.of_N size2) - IZR (Z.of_N size2))%R with 0%R by ring.
          apply Rabs_R0. }
        assert (q = 0%R) by (unfold q; rewrite H; field; lra).
        lra.
    + unfold JS.min. cbn [JS.le]. unfold JS.Rleb.
      destruct (Rle_dec 50 0) as [H | _]; [ exfalso; lra | ].
      exists 0%R. split; [ reflexivity | ]. split; [ lra | ].
      intro Heq. exfalso. apply Hneg.
      assert (d = 0%R).
      { unfold d, a, b. rewrite Heq.
        replace (IZR (Z.of_N size2) - IZR (Z.of_N size2))%R with 0%R by ring.
        apply Rabs_R0. }
      assert (q = 0%R) by (unfold q; rewrite H; field; lra).
      lra.
  - unfold JS.max. cbn [JS.le]. unfold JS.Rleb.
    destruct (Rle_dec 0 (100 + - q)) as [Hpos | Hneg].
    + rewrite gt_Num. split; intro H; nra.
    + rewrite gt_Num. split; intro H; [ lra | nra ].
Qed.

Lemma fallbackImageSimilarity_range_witness :
  (exists x,
     aiService.similarityScore
       (aiService.fallbackImageSimilarity Sample.files "uploads/a.jpg"
          "uploads/b.jpg") = JS.Num x
     /\ (0 <= x <= 50)%R
     /\ (1000%N = 1000%N -> x = 50%R))
  /\ (aiService.isSameIssue
        (aiService.fallbackImageSimilarity Sample.files "uploads/a.jpg"
           "uploads/b.jpg") = true
      <-> (5 * Rabs (IZR (Z.of_N 1000) - IZR (Z.of_N 1000))
           < (IZR (Z.of_N 1000) + IZR (Z.of_N 1000)) / 2)%R).
Proof.
  apply (fallbackImageSimilarity_range Sample.files "uploads/a.jpg"
           "uploads/b.jpg" 1000 1000); [ reflexivity | reflexivity | ].
  discriminate.
Defined.

Lemma firstAnswered_Failed (call : nat -> aiService.Attempt) (k : nat)
    (rest : list nat) (st : option Z) :
  call k = aiService.Failed st ->
  firstAnswered call (k :: rest) = firstAnswered call rest.
Proof.
  intro H. cbn [firstAnswered]. rewrite H. reflexivity.
Qed.

(** X5.  With an API key, [compareImages] answers the first of the
    attempts 1, 2, 3 that the model answers, and the fallback when none
    does; without a key it answers the fallback and makes no attempt.  The
    status of a failed attempt (503 or not) changes the waiting, never the
    result, and no fourth attempt is made. *)
Theorem compareImages_first_of_three (G : aiService.Gemini)
    (F : aiService.FileSystem) (imagePath1 imagePath2 : string) :
  aiService.compareImages G F imagePath1 imagePath2
  = if aiService.apiKeyConfigured G then
      match firstAnswered (aiService.generateContent G imagePath1 imagePath2)
              [1%nat; 2%nat; 3%nat] with
      | Some similarity => Some similarity
      | None => Some (aiService.fallbackImageSimilarity F imagePath1 imagePath2)
      end
    else Some (aiService.fallbackImageSimilarity F imagePath1 imagePath2).
Proof.
  unfold_retries.
  destruct (aiService.apiKeyConfigured G); cbn [negb]; [ | reflexivity ].
  cbn [firstAnswered].
  destruct (aiService.generateContent G imagePath1 imagePath2 1)
    as [ ? ? ? | st1 ]; [ reflexivity | ].
  destruct (aiService.generateContent G imagePath1 imagePath2 2)
    as [ ? ? ? | st2 ]; [ split_status st1; reflexivity | ].
  destruct (aiService.generateContent G imagePath1 imagePath2 3)
    as [ ? ? ? | st3 ];
    split_status st1; split_status st2; try split_status st3; reflexivity.
Qed.

(* ================================================================= *)
(** ** Further properties: which report a submission is merged into *)

Lemma StronglySorted_after {A : Type} (R : A -> A -> Prop) (l1 l2 : list A)
    (x y : A) :
  StronglySorted R (l1 ++ x :: l2) -> In y l2 -> R x y.
Proof.
  induction l1 as [ | a l1 IH ]; cbn [app]; intros Hs Hy.
  - apply StronglySorted_inv in Hs. destruct Hs as [_ Hall].
    rewrite Forall_forall in Hall. apply Hall, Hy.
  - apply StronglySorted_inv in Hs. apply IH; [ apply Hs | exact Hy ].
Qed.

Section MergeTarget.

Context {oracle : SimilarityOracle}.
Variable F : aiService.FileSystem.
Variable projectRoot : string.

Local Abbreviation loop := (server.similarityLoop F projectRoot).
Local Abbreviation post := (server.postReport F projectRoot).

(** The match of the loop splits the list: nothing before it matches. *)
Lemma loop_first (imagePath : string) (l : list aiService.NearbyReport)
    (info : server.DuplicateInfo) :
  fst (loop imagePath l) = Some info ->
  exists before n after similarity,
    l = before ++ n :: after
    /\ Matches F projectRoot imagePath n similarity
    /\ (forall b similarity', In b before ->
          ~ Matches F projectRoot imagePath b similarity')
    /\ server.primaryReportId info = id (aiService.report n).
Proof.
  induction l as [ | n rest IH ]; [ discriminate | ].
  destruct (Matches_dec F projectRoot imagePath n) as [[sim Hm] | Hno].
  - rewrite (loop_accept F projectRoot _ _ _ _ Hm). cbn [fst].
    intro H. injection H as <-.
    exists [], n, rest, sim. cbn [app server.primaryReportId].
    repeat split; try apply Hm. intros b sim' [].
  - destruct (loop_skip F projectRoot imagePath n rest Hno) as [-> _].
    intro H. destruct (IH H) as [before [m [after [sim [-> [Hm [Hb Hid]]]]]]].
    exists (n :: before), m, after, sim.
    split; [ reflexivity | ]. split; [ exact Hm | ]. split; [ | exact Hid ].
    intros b sim' [<- | Hin]; [ apply Hno | apply Hb, Hin ].
Qed.

Lemma candidatesOf_sorted (req : server.ReportRequest) (s : Store) :
  StronglySorted newer_first (map aiService.report (candidatesOf req s)).
Proof.
  unfold candidatesOf. rewrite findNearbyReports_reports.
  apply filter_StronglySorted, order_by_sorted.
Qed.

Lemma candidatesOf_nil (req : server.ReportRequest) (s : Store) :
  (forall r, In r (rows s) ->
     ~ Candidate (queryLatitude req) (queryLongitude req) (JS.Num 50) None r) ->
  candidatesOf req s = [].
Proof.
  intro Hno. unfold candidatesOf.
  destruct (aiService.findNearbyReports _ _ _ _ s) as [ | n l ] eqn:E;
    [ reflexivity | exfalso ].
  assert (Hin : In (aiService.report n)
                  (map aiService.report
                     (aiService.findNearbyReports (queryLatitude req)
                        (queryLongitude req) (JS.Num 50) None s)))
    by (rewrite E; left; reflexivity).
  apply findNearbyReports_In in Hin. destruct Hin as [Hrow Hc].
  exact (Hno _ Hrow Hc).
Qed.

(** X6.  A submission the handler can store, made where the table has no
    pending or verified primary within 50 m, is stored as a primary
    whatever the oracle would answer: the oracle is not even asked. *)
Theorem no_candidate_is_primary (req : server.ReportRequest)
    (t : server.Triage) (s : Store) :
  Acceptable req t ->
  (forall r, In r (rows s) ->
     ~ Candidate (queryLatitude req) (queryLongitude req) (JS.Num 50) None r) ->
  post req t s = (server.Status201 (next_id s) false None, storedPrimary req t s)
  /\ snd (loop (imagePathOf req) (candidatesOf req s)) = [].
Proof.
  intros Hacc Hno.
  rewrite (postReport_accepted F projectRoot req t s Hacc).
  unfold matchOf. rewrite (candidatesOf_nil req s Hno). split; reflexivity.
Qed.

(** X7.  The primary a submission is merged into is the most recent of
    the pending or verified primaries within 50 m that match (photo on
    disk, oracle score of at least 80): no such primary was created after
    it. *)
Theorem duplicate_of_most_recent_match (req : server.ReportRequest)
    (s : Store) (info : server.DuplicateInfo) :
  matchOf F projectRoot req s = Some info ->
  exists p,
    In p (rows s)
    /\ id p = server.primaryReportId info
    /\ forall r similarity,
         In r (rows s) ->
         Candidate (queryLatitude req) (queryLongitude req) (JS.Num 50) None r ->
         Matches F projectRoot (imagePathOf req)
           {| aiService.report := r;
              aiService.distance :=
                aiService.calculateDistance (queryLatitude req)
                  (queryLongitude req) (latitude r) (longitude r) |}
           similarity ->
         (created_at r <= created_at p)%Z.
Proof.
  unfold matchOf. intro H.
  destruct (loop_first _ _ _ H) as [before [n [after [sim [E [Hm [Hb Hid]]]]]]].
  pose proof (candidatesOf_sorted req s) as Hs. rewrite E, map_app in Hs.
  cbn [map] in Hs.
  assert (Hn : In (aiService.report n)
                 (map aiService.report (candidatesOf req s)))
    by (rewrite E; apply in_map, in_or_app; right; left; reflexivity).
  unfold candidatesOf in Hn. apply findNearbyReports_In in Hn.
  exists (aiService.report n). split; [ apply Hn | ]. split; [ auto | ].
  intros r sim' Hrow Hc Hmr.
  assert (Hr : In r (map aiService.report (candidatesOf req s)))
    by (unfold candidatesOf; apply findNearbyReports_In; auto).
  rewrite E, map_app in Hr. apply in_app_or in Hr.
  destruct Hr as [Hr | [Hr | Hr]].
  - exfalso. apply in_map_iff in Hr. destruct Hr as [b [Eb Hbin]].
    apply (Hb b sim' Hbin).
    unfold Matches in *. cbn [aiService.report] in Hmr. rewrite Eb. exact Hmr.
  - rewrite Hr. lia.
  - apply (StronglySorted_after newer_first _ _ _ _ Hs Hr).
Qed.


End MergeTarget.


Lemma no_candidate_is_primary_witness :
  @server.postReport (Sample.scoring 100) Sample.files ""
    Sample.request Sample.triage More.resolvedStore
  = (server.Status201 2 false None,
     storedPrimary Sample.request Sample.triage More.resolvedStore)
  /\ snd (@server.similarityLoop (Sample.scoring 100) Sample.files ""
            (imagePathOf Sample.request)
            (candidatesOf Sample.request More.resolvedStore)) = [].
Proof.
  apply (@no_candidate_is_primary (Sample.scoring 100) Sample.files ""
           Sample.request Sample.triage More.resolvedStore).
  - exact request_acceptable.
  - intros r [<- | []] [_ [[H | H] _]]; discriminate H.
Defined.

(** The geo query of a third report at (12.00, 77.00) finds both
    reports of [More.twoReports], the more recent one first. *)
Lemma candidates_twoReports :
  candidatesOf Sample.request More.twoReports
  = [ {| aiService.report := More.newerReport;
         aiService.distance := JS.Num 0 |};
      {| aiService.report := More.olderReport;
         aiService.distance := JS.Num 0 |} ].
Proof.
  unfold candidatesOf, aiService.findNearbyReports.
  unfold queryLatitude, queryLongitude.
  cbn [Sample.request server.body_latitude server.body_longitude server.text].
  rewrite parseFloat_12, parseFloat_77.
  change (Db.order_by_created_at_desc
            (filter (aiService.activePrimary None) (rows More.twoReports)))
    with [More.newerReport; More.olderReport].
  cbn [filter latitude longitude More.newerReport More.olderReport
       server.primaryRow].
  rewrite calculateDistance_same.
  cbn [JS.le]. unfold JS.Rleb.
  destruct (Rle_dec 0 50) as [_ | H]; [ | exfalso; lra ].
  cbn [filter map latitude longitude More.newerReport More.olderReport
       server.primaryRow].
  rewrite calculateDistance_same.
  reflexivity.
Qed.

(** With an oracle score of 85 both reports match a third one at their
    place, and the more recent is the match. *)
Lemma match_twoReports :
  @matchOf (Sample.scoring 85) Sample.files "" Sample.request More.twoReports
  = Some {| server.primaryReportId := 2;
            server.similarityScore := JS.Num 85;
            server.distance := JS.Num 0;
            server.reasoning := "same pothole" |}.
Proof.
  unfold matchOf. rewrite candidates_twoReports.
  cbn [server.similarityLoop aiService.report aiService.existsSync Sample.files
       compare Sample.scoring aiService.similarityScore].
  unfold JS.ge. cbn [JS.le]. unfold JS.Rleb.
  destruct (Rle_dec 80 85) as [_ | H]; [ | exfalso; lra ].
  reflexivity.
Qed.

Lemma olderReport_matches :
  In More.olderReport (rows More.twoReports)
  /\ Candidate (queryLatitude Sample.request) (queryLongitude Sample.request)
       (JS.Num 50) None More.olderReport
  /\ @Matches (Sample.scoring 85) Sample.files ""
       (imagePathOf Sample.request)
       {| aiService.report := More.olderReport;
          aiService.distance :=
            aiService.calculateDistance (queryLatitude Sample.request)
              (queryLongitude Sample.request) (latitude More.olderReport)
              (longitude More.olderReport) |}
       {| aiService.similarityScore := JS.Num 85;
          aiService.isSameIssue := true;
          aiService.reasoning := "same pothole";
          aiService.aiProcessed := true;
          aiService.fallbackUsed := false |}.
Proof.
  split; [ left; reflexivity | ]. split.
  - unfold Candidate, queryLatitude, queryLongitude.
    cbn [Sample.request server.body_latitude server.body_longitude server.text].
    rewrite parseFloat_12, parseFloat_77.
    split; [ reflexivity | ]. split; [ left; reflexivity | ].
    split; [ discriminate | ].
    cbn [latitude longitude More.olderReport server.primaryRow].
    rewrite calculateDistance_same. cbn [JS.le]. unfold JS.Rleb.
    destruct (Rle_dec 0 50) as [_ | H]; [ reflexivity | exfalso; lra ].
  - unfold Matches.
    split; [ reflexivity | ]. split; [ reflexivity | ].
    cbn [aiService.similarityScore]. unfold JS.ge. cbn [JS.le]. unfold JS.Rleb.
    destruct (Rle_dec 80 85) as [_ | H]; [ reflexivity | exfalso; lra ].
Qed.

Lemma duplicate_of_most_recent_match_witness :
  (In More.olderReport (rows More.twoReports)
   /\ Candidate (queryLatitude Sample.request) (queryLongitude Sample.request)
        (JS.Num 50) None More.olderReport
   /\ @Matches (Sample.scoring 85) Sample.files ""
        (imagePathOf Sample.request)
        {| aiService.report := More.olderReport;
           aiService.distance :=
             aiService.calculateDistance (queryLatitude Sample.request)
               (queryLongitude Sample.request) (latitude More.olderReport)
               (longitude More.olderReport) |}
        {| aiService.similarityScore := JS.Num 85;
           aiService.isSameIssue := true;
           aiService.reasoning := "same pothole";
           aiService.aiProcessed := true;
           aiService.fallbackUsed := false |})
  /\ exists p,
       In p (rows More.twoReports)
       /\ id p = 2%positive
       /\ forall r similarity,
            In r (rows More.twoReports) ->
            Candidate (queryLatitude Sample.request)
              (queryLongitude Sample.request) (JS.Num 50) None r ->
            @Matches (Sample.scoring 85) Sample.files ""
              (imagePathOf Sample.request)
              {| aiService.report := r;
                 aiService.distance :=
                   aiService.calculateDistance (queryLatitude Sample.request)
                     (queryLongitude Sample.request) (latitude r)
                     (longitude r) |}
              similarity ->
            (created_at r <= created_at p)%Z.
Proof.
  split; [ exact olderReport_matches | ].
  exact (@duplicate_of_most_recent_match (Sample.scoring 85) Sample.files ""
           Sample.request More.twoReports _ match_twoReports).
Defined.


(* ================================================================= *)
(** ** Further properties: what the operations keep *)

Lemma update_no_match (i : Z) (g : Report -> Report) (s : Store) :
  Db.changes i s = O -> Db.update i g s = s.
Proof.
  unfold Db.changes, Db.update. destruct s as [l k]. cbn [rows next_id].
  intro H. f_equal.
  induction l as [ | x l IH ]; [ reflexivity | ].
  cbn [filter map] in *.
  destruct (Z.eqb (Zpos (id x)) i); [ discriminate H | ].
  rewrite IH by exact H. reflexivity.
Qed.

(** X9.  An operation that is answered with an error (400, 404 or 500)
    leaves the table exactly as it was: no handler writes part of its
    effect and then fails. *)
Theorem error_leaves_table (op : Operation) (s : Store) :
  match fst (run op s) with
  | server.Status400 _ | server.Status404 _ | server.Status500 _ =>
      snd (run op s) = s
  | _ => True
  end.
Proof.
  destruct op as [oracle F root req t | idParam body | idParam file v];
    cbn [run].
  - unfold server.postReport.
    destruct (server.files_photo req); [ | reflexivity ].
    destruct (negb _ || negb _); [ reflexivity | ].
    destruct (fst (server.similarityLoop _ _ _ _)) as [info | ];
      match goal with
      | |- context [Db.insert ?mk s] => destruct (Db.insert mk s) as [[n s1] | ]
      end; cbn [fst snd]; auto.
  - unfold server.patchReport.
    destruct body as [text0 | ]; [ | reflexivity ].
    destruct (server.parseStatus text0) as [st | ]; [ | reflexivity ].
    destruct (Db.get idParam s); [ | reflexivity ].
    destruct (Db.changes idParam s) eqn:E; cbn [fst snd]; [ | exact I ].
    destruct (Status_eqb st resolved); apply update_no_match, E.
  - unfold server.resolveReport.
    destruct file; [ | reflexivity ].
    destruct (Db.get idParam s); [ exact I | reflexivity ].
Qed.

Lemma birth_update (i : Z) (g : Report -> Report) (s : Store) :
  (forall r, birth (g r) = birth r) ->
  map birth (rows (Db.update i g s)) = map birth (rows s).
Proof.
  apply update_map_field.
Qed.

(** X10.  No operation deletes, reorders or renumbers a report, and the
    id, photo, coordinates, creation time, SLA deadline, category, severity
    and priority of a stored report never change: an operation keeps these
    of every row and at most appends one row, under the next id. *)
Theorem operations_keep_reports (op : Operation) (s : Store) :
  exists added,
    map birth (rows (snd (run op s))) = map birth (rows s) ++ map birth added
    /\ (added = []
        \/ exists r, added = [r] /\ id r = next_id s)
    /\ (next_id s <= next_id (snd (run op s)))%positive.
Proof.
  destruct op as [oracle F root req t | idParam body | idParam file v];
    cbn [run].
  - destruct (@postReport_store oracle F root req t s)
      as [-> | [[info [_ ->]] | [_ ->]]].
    + exists []. rewrite app_nil_r. split; [ reflexivity | ].
      split; [ left; reflexivity | lia ].
    + eexists [_]. unfold storedDuplicate.
      rewrite birth_update by reflexivity. cbn [rows next_id Db.update].
      rewrite map_app. split; [ reflexivity | ].
      split; [ right; eexists; split; reflexivity | lia ].
    + eexists [_]. unfold storedPrimary. cbn [rows next_id].
      rewrite map_app. split; [ reflexivity | ].
      split; [ right; eexists; split; reflexivity | lia ].
  - exists []. rewrite app_nil_r.
    split; [ | split; [ left; reflexivity | ] ]; unfold server.patchReport;
      destruct body as [text0 | ]; try reflexivity; try lia;
      destruct (server.parseStatus text0) as [st | ]; try reflexivity; try lia;
      destruct (Db.get idParam s); try reflexivity; try lia;
      destruct (Status_eqb st resolved), (Db.changes idParam s); cbn [snd];
      try (apply birth_update; reflexivity); cbn [Db.update next_id]; lia.
  - exists []. rewrite app_nil_r.
    split; [ | split; [ left; reflexivity | ] ]; unfold server.resolveReport;
      destruct file as [upload | ]; try reflexivity; try lia;
      destruct (Db.get idParam s); try reflexivity; try lia; cbn [snd];
      try (apply birth_update; reflexivity); cbn [Db.update next_id]; lia.
Qed.

Lemma ChainFree_update (i : Z) (g : Report -> Report) (s : Store) :
  (forall r, id (g r) = id r /\ is_primary (g r) = is_primary r
             /\ duplicate_of (g r) = duplicate_of r) ->
  ChainFree s -> ChainFree (Db.update i g s).
Proof.
  intros Hg Hc r' Hin. unfold Db.update in *. cbn [rows] in *.
  set (h := fun r => if Z.eqb (Zpos (id r)) i then g r else r) in *.
  assert (Hh : forall r, id (h r) = id r /\ is_primary (h r) = is_primary r
                         /\ duplicate_of (h r) = duplicate_of r).
  { intro r. unfold h. destruct (Z.eqb (Zpos (id r)) i);
      [ apply Hg | repeat split ]. }
  apply in_map_iff in Hin. destruct Hin as [r [<- Hin]].
  destruct (Hh r) as [Eid [Eprim Edup]]. rewrite Eid, Eprim, Edup.
  specialize (Hc r Hin). destruct (duplicate_of r) as [j | ]; [ | exact Hc ].
  destruct Hc as [H1 [H2 [p [Hp [H3 [H4 H5]]]]]].
  split; [ exact H1 | ]. split; [ exact H2 | ].
  exists (h p). destruct (Hh p) as [Pid [Pprim Pdup]].
  split; [ apply in_map, Hp | ]. rewrite Pid, Pprim, Pdup. auto.
Qed.

Lemma ChainFree_append (s : Store) (r : Report) (k : positive) :
  ChainFree s ->
  match duplicate_of r with
  | None => is_primary r = true
  | Some j =>
      is_primary r = false
      /\ (j < id r)%positive
      /\ exists p, In p (rows s) /\ id p = j
                   /\ is_primary p = true /\ duplicate_of p = None
  end ->
  ChainFree {| rows := rows s ++ [r]; next_id := k |}.
Proof.
  intros Hc Hr x Hin. cbn [rows] in *.
  assert (Hlift : forall y,
             match duplicate_of y with
             | None => is_primary y = true
             | Some j =>
                 is_primary y = false
                 /\ (j < id y)%positive
                 /\ exists p, In p (rows s) /\ id p = j
                              /\ is_primary p = true /\ duplicate_of p = None
             end ->
             match duplicate_of y with
             | None => is_primary y = true
             | Some j =>
                 is_primary y = false
                 /\ (j < id y)%positive
                 /\ exists p, In p (rows s ++ [r]) /\ id p = j
                              /\ is_primary p = true /\ duplicate_of p = None
             end).
  { intros y Hy. destruct (duplicate_of y) as [j | ]; [ | exact Hy ].
    destruct Hy as [H1 [H2 [p [Hp H3]]]].
    split; [ exact H1 | ]. split; [ exact H2 | ].
    exists p. split; [ apply in_or_app; left; exact Hp | exact H3 ]. }
  apply in_app_or in Hin. destruct Hin as [Hin | [<- | []]].
  - apply Hlift, Hc, Hin.
  - apply Hlift, Hr.
Qed.

Lemma run_ChainFree (op : Operation) (s : Store) :
  WellFormed s -> ChainFree s -> ChainFree (snd (run op s)).
Proof.
  intros Hwf Hc.
  destruct op as [oracle F root req t | idParam body | idParam file v];
    cbn [run].
  - destruct (@postReport_store oracle F root req t s)
      as [-> | [[info [Hm ->]] | [_ ->]]]; [ exact Hc | | ].
    + unfold storedDuplicate. apply ChainFree_update; [ repeat split | ].
      apply ChainFree_append; [ exact Hc | ].
      cbn [duplicate_of is_primary id server.duplicateRow].
      destruct (matchOf_candidate _ _ _ _ _ Hm) as [p [Hin [Hid [[Hprim _] _]]]].
      split; [ reflexivity | ]. split.
      * rewrite <- Hid. apply Hwf, Hin.
      * exists p. repeat split; auto.
        specialize (Hc p Hin). destruct (duplicate_of p); [ | reflexivity ].
        destruct Hc as [Hf _]. congruence.
    + unfold storedPrimary. apply ChainFree_append; [ exact Hc | reflexivity ].
  - destruct (patchReport_store idParam body s) as [-> | [g [Hg ->]]];
      [ exact Hc | ].
    apply ChainFree_update; [ | exact Hc ].
    intro r. destruct (Hg r) as [H1 [H2 [H3 _]]]. auto.
  - destruct (resolveReport_store idParam file v s) as [-> | [g [Hg ->]]];
      [ exact Hc | ].
    apply ChainFree_update; [ | exact Hc ].
    intro r. destruct (Hg r) as [H1 [H2 [H3 _]]]. auto.
Qed.

(** X11.  In every table the service can reach from the empty one, the
    ids are unique and below the AUTOINCREMENT counter, and there are no
    duplicate chains: a row is either a primary without [duplicate_of], or
    a non-primary whose [duplicate_of] is the id of an older row that is a
    primary without [duplicate_of]. *)
Theorem reachable_structure (s : Store) :
  reachable s ->
  NoDup (map id (rows s))
  /\ (forall r, In r (rows s) -> (id r < next_id s)%positive)
  /\ ChainFree s.
Proof.
  intro Hr.
  assert (H : WellFormed s /\ ChainFree s).
  { induction Hr as [ | op s Hr [Hwf Hc] ].
    - split; [ apply WellFormed_empty | intros r [] ].
    - split; [ | apply run_ChainFree; assumption ].
      apply run_invariants. split; [ exact Hwf | ].
      apply reachable_invariants, Hr. }
  destruct H as [[Hnd [Hlt _]] Hc]. auto.
Qed.

Lemma reachable_structure_witness :
  NoDup (map id (rows
    (snd (run (Submit (Sample.scoring 85) Sample.files "" Sample.request
                 Sample.triage)
            (snd (run (Submit Sample.failing Sample.files "" Sample.request
                         Sample.triage) emptyStore))))))
  /\ ChainFree
       (snd (run (Submit (Sample.scoring 85) Sample.files "" Sample.request
                    Sample.triage)
               (snd (run (Submit Sample.failing Sample.files "" Sample.request
                            Sample.triage) emptyStore)))).
Proof.
  pose proof (reachable_structure _
                (reachable_step
                   (Submit (Sample.scoring 85) Sample.files "" Sample.request
                      Sample.triage) _
                   (reachable_step
                      (Submit Sample.failing Sample.files "" Sample.request
                         Sample.triage) _ reachable_empty)))
    as [H1 [_ H3]].
  split; [ exact H1 | exact H3 ].
Defined.

Lemma update_update (i : Z) (g : Report -> Report) (s : Store) :
  (forall r, id (g r) = id r) -> (forall r, g (g r) = g r) ->
  Db.update i g (Db.update i g s) = Db.update i g s.
Proof.
  intros Hid Hgg. unfold Db.update. cbn [rows next_id]. f_equal.
  rewrite map_map. apply map_ext. intro r.
  destruct (Z.eqb (Zpos (id r)) i) eqn:E; [ | rewrite E; reflexivity ].
  rewrite Hid, E. apply Hgg.
Qed.

Lemma changes_update (i : Z) (g : Report -> Report) (s : Store) :
  (forall r, id (g r) = id r) ->
  Db.changes i (Db.update i g s) = Db.changes i s.
Proof.
  intro Hid. unfold Db.changes, Db.update. cbn [rows].
  induction (rows s) as [ | x l IH ]; [ reflexivity | ].
  cbn [map filter].
  destruct (Z.eqb (Zpos (id x)) i) eqn:E.
  - rewrite Hid, E. cbn [List.length]. rewrite IH. reflexivity.
  - rewrite E. exact IH.
Qed.

(** On the columns of [Report], sending a status update a second time
    gets the same status code and [clearedEscalation] and leaves the rows
    as the first one left them. *)
Lemma patchReport_again (idParam : Z) (body_status : option string)
    (s : Store) :
  server.patchReport idParam body_status
    (snd (server.patchReport idParam body_status s))
  = server.patchReport idParam body_status s.
Proof.
  unfold server.patchReport.
  destruct body_status as [text0 | ]; [ | reflexivity ].
  destruct (server.parseStatus text0) as [st | ]; [ | reflexivity ].
  destruct (Db.get idParam s) as [r | ] eqn:Hget;
    [ | cbn [snd]; rewrite Hget; reflexivity ].
  destruct (changes_positive idParam s r Hget) as [k Hk]. rewrite Hk.
  cbn [snd].
  destruct (Status_eqb st resolved).
  - rewrite get_update by reflexivity. rewrite Z.eqb_refl, Hget.
    cbn [option_map]. rewrite changes_update by reflexivity. rewrite Hk.
    rewrite update_update by reflexivity. reflexivity.
  - rewrite get_update by reflexivity. rewrite Z.eqb_refl, Hget.
    cbn [option_map]. rewrite changes_update by reflexivity. rewrite Hk.
    rewrite update_update by reflexivity. reflexivity.
Qed.

Lemma patchLogged_projects (logComplaintEvent : Z -> string -> Z -> option string)
    (dateNow : Z) (isoString : string) (idParam : Z)
    (body_status : option string) (s : Store) (c : BlockchainColumns) :
  (answer (patchLogged logComplaintEvent dateNow isoString idParam body_status
             s c),
   table (patchLogged logComplaintEvent dateNow isoString idParam body_status
            s c))
  = server.patchReport idParam body_status s.
Proof.
  unfold patchLogged, server.patchReport.
  destruct body_status as [text0 | ]; [ | reflexivity ].
  destruct (server.parseStatus text0) as [st | ]; [ | reflexivity ].
  destruct (Db.get idParam s); [ | reflexivity ].
  destruct (Db.changes idParam s); reflexivity.
Qed.

(** X12.  A status update is idempotent on the rows but not on the
    blockchain log.  Sending it a second time gets the same status code
    and [clearedEscalation] and leaves every column of [Report] as the
    first request left it; the columns [blockchain_tx_hash] and
    [last_blockchain_update] of the report, and the [blockchainTxHash] of
    the answer, are those of the second request's own transaction and
    time.  The two columns of every other report, and all of them after an
    error, stay as they were. *)
Theorem patchLogged_repeated
    (log1 log2 : Z -> string -> Z -> option string) (now1 now2 : Z)
    (iso1 iso2 : string) (idParam : Z) (body_status : option string)
    (s : Store) (c : BlockchainColumns) :
  let first := patchLogged log1 now1 iso1 idParam body_status s c in
  let second :=
    patchLogged log2 now2 iso2 idParam body_status (table first)
      (columns first) in
  (answer first, table first) = server.patchReport idParam body_status s
  /\ answer second = answer first
  /\ table second = table first
  /\ (forall j, j <> idParam ->
        blockchain_tx_hash (columns second) j = blockchain_tx_hash c j
        /\ last_blockchain_update (columns second) j
           = last_blockchain_update c j)
  /\ match answer first with
     | server.Status200 _ =>
         exists text0,
           body_status = Some text0
           /\ answer_blockchainTxHash first = log1 idParam text0 now1
           /\ blockchain_tx_hash (columns first) idParam
              = log1 idParam text0 now1
           /\ last_blockchain_update (columns first) idParam = Some iso1
           /\ answer_blockchainTxHash second = log2 idParam text0 now2
           /\ blockchain_tx_hash (columns second) idParam
              = log2 idParam text0 now2
           /\ last_blockchain_update (columns second) idParam = Some iso2
     | _ =>
         columns second = c
         /\ answer_blockchainTxHash first = None
         /\ answer_blockchainTxHash second = None
     end.
Proof.
  intros first second.
  split; [ apply patchLogged_projects | ].
  pose proof (patchReport_again idParam body_status s) as Hagain.
  rewrite <- (patchLogged_projects log1 now1 iso1 idParam body_status s c)
    in Hagain.
  fold first in Hagain. cbn [snd] in Hagain.
  rewrite <- (patchLogged_projects log2 now2 iso2 idParam body_status
                (table first) (columns first)) in Hagain.
  fold second in Hagain. injection Hagain as Hanswer Htable.
  split; [ exact Hanswer | ]. split; [ exact Htable | ].
  unfold second, first, patchLogged.
  destruct body_status as [text0 | ];
    [ | split; [ intros; split; reflexivity | repeat split ] ].
  destruct (server.parseStatus text0) as [st | ];
    [ | split; [ intros; split; reflexivity | repeat split ] ].
  destruct (Db.get idParam s) as [r | ] eqn:Hget;
    [ | cbn [table columns answer]; rewrite Hget;
        split; [ intros; split; reflexivity | repeat split ] ].
  destruct (changes_positive idParam s r Hget) as [k Hk]. rewrite Hk.
  cbn [table columns answer answer_blockchainTxHash].
  assert (Hget' :
    Db.get idParam
      (if Status_eqb st resolved
       then Db.update idParam (server.setStatusClearing st) s
       else Db.update idParam (server.setStatus st) s) <> None).
  { destruct (Status_eqb st resolved);
      rewrite get_update by reflexivity; rewrite Z.eqb_refl, Hget;
      discriminate. }
  assert (Hk' :
    Db.changes idParam
      (if Status_eqb st resolved
       then Db.update idParam (server.setStatusClearing st) s
       else Db.update idParam (server.setStatus st) s) = S k).
  { destruct (Status_eqb st resolved);
      rewrite changes_update by reflexivity; exact Hk. }
  match type of Hget' with
  | ?got <> None => destruct got as [r' | ] eqn:E
  end; [ | exfalso; exact (Hget' eq_refl) ].
  rewrite Hk'.
  cbn [table columns answer answer_blockchainTxHash setBlockchain
       blockchain_tx_hash last_blockchain_update].
  split.
  - intros j Hj.
    destruct (Z.eqb_spec j idParam) as [Ej | _]; [ contradiction | ].
    split; reflexivity.
  - exists text0. rewrite Z.eqb_refl. repeat split.
Qed.


(* ================================================================= *)
(** ** Further properties: the listings *)

Section SortFacts.

Variable earlier : Report -> Report -> bool.

Lemma insert_by_Permutation (r : Report) (l : list Report) :
  Permutation (r :: l) (server.insert_by earlier r l).
Proof.
  induction l as [ | x l IH ]; cbn [server.insert_by];
    [ apply Permutation_refl | ].
  destruct (earlier r x); [ apply Permutation_refl | ].
  eapply Permutation_trans; [ apply perm_swap | ].
  constructor. exact IH.
Qed.

Lemma order_by_generic_Permutation (l : list Report) :
  Permutation l (server.order_by earlier l).
Proof.
  induction l as [ | r l IH ]; cbn [server.order_by fold_right];
    [ constructor | ].
  eapply Permutation_trans; [ | apply insert_by_Permutation ].
  constructor. exact IH.
Qed.

Hypothesis earlier_total : forall a b, earlier a b = false -> earlier b a = true.
Hypothesis earlier_trans :
  forall a b c, earlier a b = true -> earlier b c = true -> earlier a c = true.

Lemma insert_by_sorted (r : Report) (l : list Report) :
  StronglySorted (fun a b => earlier a b = true) l ->
  StronglySorted (fun a b => earlier a b = true) (server.insert_by earlier r l).
Proof.
  induction 1 as [ | x l Hl IH Hx ]; cbn [server.insert_by].
  - repeat constructor.
  - destruct (earlier r x) eqn:E.
    + constructor; [ constructor; assumption | ].
      constructor; [ exact E | ].
      rewrite Forall_forall in *. intros y Hy.
      apply (earlier_trans r x y E), Hx, Hy.
    + constructor; [ exact IH | ].
      rewrite Forall_forall in *. intros y Hy.
      apply (Permutation_in _ (Permutation_sym (insert_by_Permutation r l))) in Hy.
      destruct Hy as [<- | Hy]; [ apply earlier_total, E | apply Hx, Hy ].
Qed.

Lemma order_by_generic_sorted (l : list Report) :
  StronglySorted (fun a b => earlier a b = true) (server.order_by earlier l).
Proof.
  induction l as [ | r l IH ]; cbn [server.order_by fold_right];
    [ constructor | ].
  apply insert_by_sorted, IH.
Qed.

End SortFacts.

Lemma lex_le_total (a b : list Z) :
  server.lex_le a b = false -> server.lex_le b a = true.
Proof.
  revert b. induction a as [ | x a IH ]; intros [ | y b ]; cbn [server.lex_le];
    try discriminate.
  intro H. apply orb_false_iff in H. destruct H as [H1 H2].
  apply Z.ltb_ge in H1.
  destruct (Z.eqb_spec x y) as [-> | Hne].
  - cbn [andb] in H2. rewrite Z.eqb_refl, (IH b H2). apply orb_true_r.
  - replace (y <? x)%Z with true by (symmetry; apply Z.ltb_lt; lia).
    reflexivity.
Qed.

Lemma lex_le_trans (a b c : list Z) :
  List.length a = List.length b -> List.length b = List.length c ->
  server.lex_le a b = true -> server.lex_le b c = true ->
  server.lex_le a c = true.
Proof.
  revert b c. induction a as [ | x a IH ]; intros [ | y b ] [ | z c ];
    cbn [server.lex_le List.length]; try discriminate; try reflexivity.
  intros Hab Hbc H1 H2. injection Hab as Hab. injection Hbc as Hbc.
  apply orb_true_iff in H1. apply orb_true_iff in H2.
  apply orb_true_iff.
  destruct H1 as [H1 | H1], H2 as [H2 | H2].
  - left. apply Z.ltb_lt in H1. apply Z.ltb_lt in H2. apply Z.ltb_lt. lia.
  - left. apply andb_true_iff in H2. destruct H2 as [E _].
    apply Z.eqb_eq in E. subst. exact H1.
  - left. apply andb_true_iff in H1. destruct H1 as [E _].
    apply Z.eqb_eq in E. subst. exact H2.
  - right. apply andb_true_iff in H1. apply andb_true_iff in H2.
    destruct H1 as [E1 L1], H2 as [E2 L2].
    apply Z.eqb_eq in E1. apply Z.eqb_eq in E2. subst.
    rewrite Z.eqb_refl, (IH b c Hab Hbc L1 L2). reflexivity.
Qed.

Lemma riskFirst_escalated (urgent : Report -> bool) (a b : Report) :
  server.riskFirst urgent a b = true -> escalated b = true -> escalated a = true.
Proof.
  unfold server.riskFirst, server.riskKey. cbn [server.lex_le].
  destruct (escalated a), (escalated b); cbn; congruence.
Qed.

Lemma StronglySorted_weaken {A : Type} (R Q : A -> A -> Prop) (l : list A) :
  (forall a b, R a b -> Q a b) -> StronglySorted R l -> StronglySorted Q l.
Proof.
  intros HRQ. induction 1 as [ | x l _ IH Hx ]; constructor; [ exact IH | ].
  rewrite Forall_forall in *. intros y Hy. apply HRQ, Hx, Hy.
Qed.

Lemma severityRank_levelOf (r : Report) :
  server.severityRank r = Z.of_nat (levelOf (severity r)).
Proof.
  unfold server.severityRank, levelOf.
  destruct (severity r) as [name | ]; [ | reflexivity ].
  destruct (string_dec name "HIGH") as [-> | H1]; [ reflexivity | ].
  destruct (String.eqb_spec name "HIGH") as [E | _]; [ contradiction | ].
  destruct (string_dec name "MEDIUM") as [-> | H2]; [ reflexivity | ].
  destruct (String.eqb_spec name "MEDIUM") as [E | _]; [ contradiction | ].
  destruct (string_dec name "LOW") as [-> | H3]; [ reflexivity | ].
  destruct (String.eqb_spec name "LOW") as [E | _]; [ contradiction | ].
  reflexivity.
Qed.

Lemma b2z_lt (x y : bool) :
  (server.b2z y <? server.b2z x)%Z = true <-> x = true /\ y = false.
Proof.
  destruct x, y; cbn; split; intros; try discriminate; try tauto;
    destruct H; discriminate.
Qed.

Lemma b2z_eq (x y : bool) :
  (server.b2z y =? server.b2z x)%Z = true <-> x = y.
Proof.
  destruct x, y; cbn; split; intros; try discriminate; reflexivity.
Qed.

(** The sort key of the listings orders the rows as [ListedBefore] says. *)
Lemma riskFirst_ListedBefore (urgent : Report -> bool) (a b : Report) :
  server.riskFirst urgent a b = true -> ListedBefore urgent a b.
Proof.
  unfold server.riskFirst, server.riskKey, ListedBefore.
  cbn [server.lex_le]. rewrite !severityRank_levelOf.
  repeat (progress rewrite ?orb_true_iff, ?andb_true_iff).
  rewrite !b2z_lt, !b2z_eq, !Z.ltb_lt, !Z.eqb_eq.
  intros [H | [He [H | [Hu [H | [Hs [H | [Hd [H | [Hc _]]]]]]]]]].
  - left. exact H.
  - right. split; [ exact He | ]. left. exact H.
  - right. split; [ exact He | ]. right. split; [ exact Hu | ].
    left. lia.
  - right. split; [ exact He | ]. right. split; [ exact Hu | ].
    right. split; [ lia | ]. left. exact H.
  - right. split; [ exact He | ]. right. split; [ exact Hu | ].
    right. split; [ lia | ]. right. split; [ lia | lia ].
  - right. split; [ exact He | ]. right. split; [ exact Hu | ].
    right. split; [ lia | ]. right. split; [ lia | lia ].
Qed.

(** X13.  [GET /reports] lists each primary of the table once, and each
    duplicate too exactly when [includeDuplicates] is the string "true".
    Of two rows of the list, the earlier one is escalated when the later
    is; among rows alike in that, it is urgent when the later is; among
    rows alike in both, its severity is at least as high (HIGH above
    MEDIUM above LOW above anything else); at one severity it has at
    least as many duplicates; and with as many it was not created
    before the later one. *)
Theorem getReports_sorted (urgent : Report -> bool)
    (includeDuplicates : option string) (s : Store) :
  (exists keep : Report -> bool,
     (forall r, keep r = true
                <-> is_primary r = true \/ includeDuplicates = Some "true"%string)
     /\ Permutation (server.getReports urgent includeDuplicates s)
          (filter keep (rows s)))
  /\ StronglySorted (ListedBefore urgent)
       (server.getReports urgent includeDuplicates s)
  /\ StronglySorted (fun a b => escalated b = true -> escalated a = true)
       (server.getReports urgent includeDuplicates s).
Proof.
  assert (Hs : StronglySorted (fun a b => server.riskFirst urgent a b = true)
                 (server.getReports urgent includeDuplicates s)).
  { unfold server.getReports. apply order_by_generic_sorted.
    - intros a b. unfold server.riskFirst. apply lex_le_total.
    - intros a b c. unfold server.riskFirst. intros H1 H2.
      apply (lex_le_trans _ (server.riskKey urgent b)); auto. }
  split; [ | split ].
  - unfold server.getReports.
    destruct includeDuplicates as [v | ].
    + destruct (String.eqb_spec v "true") as [-> | Hne].
      * exists (fun _ => true). split; [ intro r; split; auto | ].
        apply Permutation_sym.
        replace (filter (fun _ => true) (rows s)) with (rows s).
        -- apply order_by_generic_Permutation.
        -- induction (rows s) as [ | x l IH ]; cbn [filter]; congruence.
      * exists is_primary. split.
        -- intro r. split; [ auto | intros [H | H]; [ exact H | congruence ] ].
        -- apply Permutation_sym, order_by_generic_Permutation.
    + exists is_primary. split.
      * intro r. split; [ auto | intros [H | H]; [ exact H | discriminate H ] ].
      * apply Permutation_sym, order_by_generic_Permutation.
  - apply (StronglySorted_weaken _ _ _ (riskFirst_ListedBefore urgent) Hs).
  - apply (StronglySorted_weaken _ _ _ (riskFirst_escalated urgent) Hs).
Qed.

(* ================================================================= *)
(** ** Further properties: admin access *)

Lemma split_nonempty (sep : ascii) (s : string) : JS.split sep s <> [].
Proof.
  destruct s as [ | c r ]; cbn [JS.split]; [ discriminate | ].
  destruct (Ascii.eqb c sep); [ discriminate | ].
  destruct (JS.split sep r); discriminate.
Qed.

Lemma split_prefix (sep : ascii) (p s : string) :
  (forall c, In c (list_ascii_of_string p) -> Ascii.eqb c sep = false) ->
  exists h t, JS.split sep s = h :: t
              /\ JS.split sep (String.append p s) = String.append p h :: t.
Proof.
  induction p as [ | c p IH ]; intro Hp.
  - destruct (JS.split sep s) as [ | h t ] eqn:E;
      [ exfalso; exact (split_nonempty sep s E) | ].
    exists h, t. auto.
  - destruct IH as [h [t [E1 E2]]].
    { intros c' Hc'. apply Hp. right. exact Hc'. }
    exists h, t. split; [ exact E1 | ].
    cbn [String.append JS.split].
    rewrite (Hp c (or_introl eq_refl)), E2. reflexivity.
Qed.

Lemma no_space_in (p : string) :
  forallb (fun c => negb (Ascii.eqb c " ")) (list_ascii_of_string p) = true ->
  forall c, In c (list_ascii_of_string p) -> Ascii.eqb c " " = false.
Proof.
  intros H c Hc. rewrite forallb_forall in H.
  apply negb_true_iff, H, Hc.
Qed.

(** The second part of ["Bearer admin-token-" ++ suffix]. *)
Lemma bearerToken_admin (suffix : string) :
  exists rest,
    server.bearerToken
      (Some (String.append "Bearer admin-token-" suffix))
    = Some (String.append "admin-token-" rest).
Proof.
  unfold server.bearerToken.
  destruct (split_prefix " " "admin-token-" suffix
              (no_space_in "admin-token-" eq_refl))
    as [h [t [_ E]]].
  destruct (split_prefix " " "Bearer"
              (String " " (String.append "admin-token-" suffix))
              (no_space_in "Bearer" eq_refl)) as [h' [t' [E1 E2]]].
  cbn [JS.split] in E1. rewrite Ascii.eqb_refl, E in E1.
  injection E1 as <- <-.
  change (String.append "Bearer admin-token-" suffix)
    with (String.append "Bearer"
            (String " " (String.append "admin-token-" suffix))).
  rewrite E2.
  exists h. reflexivity.
Qed.

(** X14.  The admin login answers a token exactly for the user name and
    password "admin", and the token is "admin-token-" followed by the
    clock.  [verifyAdmin] lets every header "Bearer admin-token-..." pass,
    issued or not, whatever follows the prefix; so a token of the login
    opens [GET /admin/reports], which then answers what [GET /reports]
    answers.  Without a header, or with a header that has no second part
    after a space, the answer is 401 and no report is disclosed. *)
Theorem admin_access (urgent : Report -> bool)
    (includeDuplicates : option string) (s : Store) :
  (forall username password now token,
     server.adminLogin username password now = server.Reply200 token
     <-> username = Some "admin"%string /\ password = Some "admin"%string
         /\ token = String.append "admin-token-" (JS.decimal now))
  /\ (forall suffix,
        server.verifyAdmin (Some (String.append "Bearer admin-token-" suffix))
        = None
        /\ server.getAdminReports urgent
             (Some (String.append "Bearer admin-token-" suffix))
             includeDuplicates s
           = server.Reply200 (server.getReports urgent includeDuplicates s))
  /\ (forall now,
        server.getAdminReports urgent
          (Some (String.append "Bearer "
                   (String.append "admin-token-" (JS.decimal now))))
          includeDuplicates s
        = server.Reply200 (server.getReports urgent includeDuplicates s))
  /\ server.getAdminReports urgent None includeDuplicates s
     = server.ReplyError 401 "Access denied. No token provided."
  /\ (forall header,
        (forall c, In c (list_ascii_of_string header) ->
                   Ascii.eqb c " " = false) ->
        server.getAdminReports urgent (Some header) includeDuplicates s
        = server.ReplyError 401 "Access denied. No token provided.").
Proof.
  assert (Hpass : forall suffix,
             server.verifyAdmin
               (Some (String.append "Bearer admin-token-" suffix)) = None).
  { intro suffix. unfold server.verifyAdmin.
    destruct (bearerToken_admin suffix) as [rest ->].
    unfold JS.startsWith. destruct rest; reflexivity. }
  split; [ | split; [ | split; [ | split ] ] ].
  - intros username password now token. unfold server.adminLogin.
    destruct username as [u | ], password as [pw | ];
      try (split; [ discriminate | intros [H1 [H2 _]]; discriminate ]).
    destruct (String.eqb_spec u "admin") as [-> | Hu];
      destruct (String.eqb_spec pw "admin") as [-> | Hpw]; cbn [andb].
    + split; [ intro H; injection H as <-; auto | ].
      intros [_ [_ ->]]. reflexivity.
    + split; [ discriminate | intros [_ [H _]]; congruence ].
    + split; [ discriminate | intros [H _]; congruence ].
    + split; [ discriminate | intros [H _]; congruence ].
  - intro suffix. split; [ apply Hpass | ].
    unfold server.getAdminReports. rewrite Hpass. reflexivity.
  - intro now. unfold server.getAdminReports.
    change (String.append "Bearer "
              (String.append "admin-token-" (JS.decimal now)))
      with (String.append "Bearer admin-token-" (JS.decimal now)).
    rewrite Hpass. reflexivity.
  - reflexivity.
  - intros header Hfree. unfold server.getAdminReports, server.verifyAdmin,
      server.bearerToken.
    destruct (String.eqb header ""); [ reflexivity | ].
    destruct (split_prefix " " header "" Hfree) as [h [t [E1 E2]]].
    cbn [JS.split] in E1. injection E1 as <- <-.
    replace (String.append header "") with header in E2.
    + rewrite E2. reflexivity.
    + clear. induction header as [ | c r IH ]; cbn [String.append];
        [ reflexivity | rewrite <- IH; reflexivity ].
Qed.

Lemma admin_access_witness :
  server.getAdminReports (fun _ => false) (Some "admin-token-1700000000000"%string)
    None Sample.escalatedStore
  = server.ReplyError 401 "Access denied. No token provided.".
Proof.
  apply (proj2 (proj2 (proj2 (proj2
    (admin_access (fun _ => false) None Sample.escalatedStore))))).
  apply no_space_in. reflexivity.
Defined.

(* ================================================================= *)
(** ** Further properties: escalations and single reports *)

Lemma filter_partition_length {A : Type} (f g : A -> bool) (l : list A) :
  List.length (filter f l)
  = (List.length (filter (fun x => f x && negb (g x)) l)
     + List.length (filter (fun x => f x && g x) l))%nat.
Proof.
  induction l as [ | x l IH ]; [ reflexivity | ].
  cbn [filter]. destruct (f x), (g x); cbn [andb negb List.length]; lia.
Qed.

Lemma getEscalations_Permutation (s : Store) :
  Permutation (server.getEscalations s)
    (filter (fun r => escalated r && negb (Status_eqb (status r) resolved))
       (rows s)).
Proof.
  apply Permutation_sym, order_by_generic_Permutation.
Qed.

Lemma getEscalations_In (s : Store) (r : Report) :
  In r (server.getEscalations s)
  <-> In r (rows s) /\ escalated r = true /\ status r <> resolved.
Proof.
  pose proof (getEscalations_Permutation s) as Hp. split.
  - intro H. apply (Permutation_in _ Hp) in H. apply filter_In in H.
    destruct H as [Hin H]. apply andb_true_iff in H. destruct H as [He Hs].
    split; [ exact Hin | ]. split; [ exact He | ].
    apply negb_true_iff in Hs. intro E. rewrite E in Hs. discriminate Hs.
  - intros [Hin [He Hs]]. apply (Permutation_in _ (Permutation_sym Hp)).
    apply filter_In. split; [ exact Hin | ]. rewrite He. cbn [andb].
    apply negb_true_iff. destruct (status r); try reflexivity. congruence.
Qed.

(** X15.  [GET /escalations] lists exactly the rows that are escalated
    and not resolved, each once, by ascending SLA deadline; and the
    [escalationStats] of [GET /analytics] agree with it:
    [pendingEscalated] is the number of rows it lists, and
    [totalEscalated = pendingEscalated + resolvedEscalated]. *)
Theorem getEscalations_exact (s : Store) :
  (forall r, In r (server.getEscalations s)
             <-> In r (rows s) /\ escalated r = true /\ status r <> resolved)
  /\ Permutation (server.getEscalations s)
       (filter (fun r => escalated r && negb (Status_eqb (status r) resolved))
          (rows s))
  /\ StronglySorted (fun a b => (sla_deadline a <= sla_deadline b)%Z)
       (server.getEscalations s)
  /\ server.pendingEscalated (server.escalationStats s)
     = List.length (server.getEscalations s)
  /\ server.totalEscalated (server.escalationStats s)
     = (server.pendingEscalated (server.escalationStats s)
        + server.resolvedEscalated (server.escalationStats s))%nat.
Proof.
  split; [ intro r; apply getEscalations_In | ].
  split; [ apply getEscalations_Permutation | ].
  split; [ | split ].
  - unfold server.getEscalations.
    apply (StronglySorted_weaken
             (fun a b => (sla_deadline a <=? sla_deadline b)%Z = true)).
    + intros a b. apply Z.leb_le.
    + apply order_by_generic_sorted.
      * intros a b H. apply Z.leb_gt in H. apply Z.leb_le. lia.
      * intros a b c H1 H2. apply Z.leb_le in H1. apply Z.leb_le in H2.
        apply Z.leb_le. lia.
  - cbn [server.escalationStats server.pendingEscalated].
    symmetry. apply Permutation_length, getEscalations_Permutation.
  - cbn [server.escalationStats server.pendingEscalated server.totalEscalated
         server.resolvedEscalated].
    apply (filter_partition_length escalated
             (fun r => Status_eqb (status r) resolved)).
Qed.

Lemma get_None_changes (i : Z) (s : Store) :
  Db.get i s = None -> Db.changes i s = O.
Proof.
  unfold Db.get, Db.changes.
  induction (rows s) as [ | x l IH ]; [ reflexivity | ].
  cbn [find filter].
  destruct (Z.eqb (Zpos (id x)) i); [ discriminate | exact IH ].
Qed.

Lemma escalations_after_clearing (i : Z) (g : Report -> Report) (s : Store) :
  (forall r, id (g r) = id r /\ escalated (g r) = false) ->
  Permutation (server.getEscalations (Db.update i g s))
    (filter (fun x => negb (Z.eqb (Zpos (id x)) i)) (server.getEscalations s)).
Proof.
  intro Hg.
  eapply Permutation_trans; [ apply getEscalations_Permutation | ].
  eapply Permutation_trans;
    [ | apply filter_Permutation, Permutation_sym, getEscalations_Permutation ].
  unfold Db.update. cbn [rows].
  induction (rows s) as [ | x l IH ]; [ constructor | ].
  cbn [map filter].
  destruct (Z.eqb (Zpos (id x)) i) eqn:E.
  - destruct (Hg x) as [_ Hesc]. rewrite Hesc. cbn [andb].
    destruct (escalated x && negb (Status_eqb (status x) resolved));
      [ cbn [filter]; rewrite E; cbn [negb] | ]; exact IH.
  - destruct (escalated x && negb (Status_eqb (status x) resolved));
      [ cbn [filter]; rewrite E; cbn [negb]; constructor | ]; exact IH.
Qed.

(** X16.  Resolving a report, by a status update to [resolved] or by a
    resolution upload, takes the rows of that id off the list of
    [GET /escalations] and leaves every other entry of the list as it
    was. *)
Theorem resolving_leaves_escalations (idParam : Z) (upload : server.Upload)
    (verification : option JS.number) (s : Store) :
  Permutation
    (server.getEscalations
       (snd (server.patchReport idParam (Some "resolved"%string) s)))
    (filter (fun x => negb (Z.eqb (Zpos (id x)) idParam))
       (server.getEscalations s))
  /\ Permutation
       (server.getEscalations
          (snd (server.resolveReport idParam (Some upload) verification s)))
       (filter (fun x => negb (Z.eqb (Zpos (id x)) idParam))
          (server.getEscalations s)).
Proof.
  split.
  - assert (E : snd (server.patchReport idParam (Some "resolved"%string) s)
                = Db.update idParam (server.setStatusClearing resolved) s).
    { unfold server.patchReport.
      change (server.parseStatus "resolved") with (Some resolved). cbv iota.
      destruct (Db.get idParam s) eqn:Hget.
      - cbn [Status_eqb]. destruct (Db.changes idParam s); reflexivity.
      - cbn [snd]. symmetry. apply update_no_match, get_None_changes, Hget. }
    rewrite E. apply escalations_after_clearing. intro r. split; reflexivity.
  - assert (E : snd (server.resolveReport idParam (Some upload) verification s)
                = Db.update idParam
                    (server.setResolution
                       (String.append "/uploads/" (server.filename upload))
                       verification) s).
    { unfold server.resolveReport.
      destruct (Db.get idParam s) eqn:Hget; [ reflexivity | ].
      cbn [snd]. symmetry. apply update_no_match, get_None_changes, Hget. }
    rewrite E. apply escalations_after_clearing. intro r. split; reflexivity.
Qed.

Section RoundTrip.

Context {oracle : SimilarityOracle}.
Variable F : aiService.FileSystem.
Variable projectRoot : string.

(** X17.  A submission that is stored can be read back: [GET /report/:id]
    on the id of the 201 answered 404 before, and afterwards serves a
    pending, unescalated, unresolved row with the submitted photo and
    coordinates and the triage, clock and SLA deadline of the submission,
    primary exactly when the answer says it is no duplicate. *)
Theorem submitted_report_is_served (req : server.ReportRequest)
    (t : server.Triage) (s : Store) :
  WellFormed s -> Acceptable req t ->
  exists reportId isDuplicate info row,
    fst (server.postReport F projectRoot req t s)
    = server.Status201 reportId isDuplicate info
    /\ server.getReport (Zpos reportId) s
       = server.ReplyError 404 "Report not found"
    /\ server.getReport (Zpos reportId)
         (snd (server.postReport F projectRoot req t s))
       = server.Reply200 row
    /\ birth row
       = (reportId, photoUrlOf req, queryLatitude req, queryLongitude req,
          server.now t, server.slaDeadline t, server.ai_category t,
          server.ai_severity t, server.priorityOf t)
    /\ status row = pending
    /\ escalated row = false
    /\ escalation_notified row = false
    /\ resolution_photo_url row = None
    /\ is_primary row = negb isDuplicate.
Proof.
  intros Hwf Hacc. rewrite (postReport_accepted F projectRoot req t s Hacc).
  destruct Hwf as [_ [Hlt _]].
  assert (Hnone : Db.get (Zpos (next_id s)) s = None)
    by (apply get_fresh; exact Hlt).
  destruct (matchOf F projectRoot req s) as [info | ] eqn:Hm; cbn [fst snd].
  - destruct (matchOf_candidate F projectRoot req s info Hm)
      as [p [Hin [Hid _]]].
    pose proof (Hlt p Hin) as Hp.
    exists (next_id s), true, (Some info). eexists.
    split; [ reflexivity | ].
    split; [ unfold server.getReport; rewrite Hnone; reflexivity | ].
    split.
    + unfold server.getReport, storedDuplicate.
      rewrite get_update by reflexivity.
      destruct (Z.eqb_spec (Zpos (next_id s))
                  (Zpos (server.primaryReportId info))) as [E | _];
        [ exfalso; injection E as E; rewrite <- Hid in E; lia | ].
      rewrite get_appended, Hnone.
      cbn [id server.duplicateRow]. rewrite Z.eqb_refl. reflexivity.
    + repeat split.
  - exists (next_id s), false, None. eexists.
    split; [ reflexivity | ].
    split; [ unfold server.getReport; rewrite Hnone; reflexivity | ].
    split.
    + unfold server.getReport, storedPrimary.
      rewrite get_appended, Hnone.
      cbn [id server.primaryRow]. rewrite Z.eqb_refl. reflexivity.
    + repeat split.
Qed.

End RoundTrip.

Lemma submitted_report_is_served_witness :
  exists reportId isDuplicate info row,
    fst (@server.postReport (Sample.scoring 92) Sample.files "/srv"
           Sample.request Sample.triage Sample.oneReport)
    = server.Status201 reportId isDuplicate info
    /\ server.getReport (Zpos reportId) Sample.oneReport
       = server.ReplyError 404 "Report not found"
    /\ server.getReport (Zpos reportId)
         (snd (@server.postReport (Sample.scoring 92) Sample.files "/srv"
                 Sample.request Sample.triage Sample.oneReport))
       = server.Reply200 row
    /\ birth row
       = (reportId, photoUrlOf Sample.request, queryLatitude Sample.request,
          queryLongitude Sample.request, server.now Sample.triage,
          server.slaDeadline Sample.triage, server.ai_category Sample.triage,
          server.ai_severity Sample.triage, server.priorityOf Sample.triage)
    /\ status row = pending
    /\ escalated row = false
    /\ escalation_notified row = false
    /\ resolution_photo_url row = None
    /\ is_primary row = negb isDuplicate.
Proof.
  apply (@submitted_report_is_served (Sample.scoring 92) Sample.files "/srv"
           Sample.request Sample.triage Sample.oneReport).
  - exact oneReport_WellFormed.
  - exact request_acceptable.
Defined.

Lemma patchReport_get (idParam : Z) (text0 : string) (st : Status) (s : Store)
    (r : Report) :
  server.parseStatus text0 = Some st ->
  Db.get idParam s = Some r ->
  exists r',
    Db.get idParam (snd (server.patchReport idParam (Some text0) s)) = Some r'
    /\ status r' = st
    /\ id r' = id r
    /\ photo_url r' = photo_url r
    /\ resolution_photo_url r' = resolution_photo_url r
    /\ ai_verification_score r' = ai_verification_score r.
Proof.
  intros Hp Hget. unfold server.patchReport. rewrite Hp, Hget.
  destruct (Status_eqb st resolved);
    [ exists (server.setStatusClearing st r) | exists (server.setStatus st r) ];
    (split; [ | repeat split ]);
    destruct (Db.changes idParam s); cbn [snd];
    rewrite get_update by reflexivity; rewrite Z.eqb_refl, Hget; reflexivity.
Qed.

(** X18.  After a resolution upload on an existing report,
    [GET /report/:id/resolution] serves the report's photo as the before
    photo, the uploaded one as the after photo, and the verification score
    (the stored score when the verification failed).  The view answers 404
    while the report is reopened and is served again, unchanged, once a
    status update resolves the report anew; a report resolved by status
    update alone, without a photo, has no resolution view. *)
Theorem resolution_is_served (idParam : Z) (upload : server.Upload)
    (verification : option JS.number) (s : Store) (r : Report) :
  Db.get idParam s = Some r ->
  let s1 := snd (server.resolveReport idParam (Some upload) verification s) in
  let view :=
    {| server.view_reportId := id r;
       server.view_beforePhoto := photo_url r;
       server.view_afterPhoto :=
         String.append "/uploads/" (server.filename upload);
       server.view_verificationScore :=
         match verification with
         | Some score => score
         | None => ai_verification_score r
         end |} in
  server.getResolution idParam s1 = server.Reply200 view
  /\ (forall text0,
        text0 = "pending"%string \/ text0 = "verified"%string ->
        let s2 := snd (server.patchReport idParam (Some text0) s1) in
        server.getResolution idParam s2
        = server.ReplyError 404 "No resolution data available"
        /\ server.getResolution idParam
             (snd (server.patchReport idParam (Some "resolved"%string) s2))
           = server.Reply200 view)
  /\ (resolution_photo_url r = None ->
      server.getResolution idParam
        (snd (server.patchReport idParam (Some "resolved"%string) s))
      = server.ReplyError 404 "No resolution data available").
Proof.
  intros Hget s1 view.
  assert (H1 : Db.get idParam s1
               = Some (server.setResolution
                         (String.append "/uploads/" (server.filename upload))
                         verification r)).
  { unfold s1, server.resolveReport. rewrite Hget. cbn [snd].
    rewrite get_update by reflexivity. rewrite Z.eqb_refl, Hget. reflexivity. }
  split; [ | split ].
  - unfold server.getResolution. rewrite H1. reflexivity.
  - intros text0 Htext s2.
    assert (Hst : exists st, server.parseStatus text0 = Some st
                             /\ Status_eqb st resolved = false).
    { destruct Htext as [-> | ->]; eexists; split; reflexivity. }
    destruct Hst as [st [Hp Hnr]].
    destruct (patchReport_get idParam text0 st s1 _ Hp H1)
      as [r2 [H2 [Hs2 [Hi2 [Hb2 [Ha2 Hv2]]]]]].
    fold s2 in H2. split.
    + unfold server.getResolution. rewrite H2, Hs2, Hnr. reflexivity.
    + destruct (patchReport_get idParam "resolved" resolved s2 r2 eq_refl H2)
        as [r3 [H3 [Hs3 [Hi3 [Hb3 [Ha3 Hv3]]]]]].
      unfold server.getResolution. rewrite H3, Hs3, Ha3, Ha2, Hi3, Hi2, Hb3, Hb2,
        Hv3, Hv2.
      reflexivity.
  - intro Hnone.
    destruct (patchReport_get idParam "resolved" resolved s r eq_refl Hget)
      as [r1 [Hg1 [Hs1 [_ [_ [Ha1 _]]]]]].
    unfold server.getResolution. rewrite Hg1, Hs1, Ha1, Hnone. reflexivity.
Qed.

Lemma resolution_is_served_witness :
  server.getResolution 1
    (snd (server.resolveReport 1 (Some Sample.upload) (Some (JS.Num 90))
            Sample.escalatedStore))
  = server.Reply200
      {| server.view_reportId := 1;
         server.view_beforePhoto := photo_url Sample.escalatedReport;
         server.view_afterPhoto := "/uploads/a.jpg";
         server.view_verificationScore := JS.Num 90 |}.
Proof.
  exact (proj1 (resolution_is_served 1 Sample.upload (Some (JS.Num 90))
                  Sample.escalatedStore Sample.escalatedReport eq_refl)).
Defined.

(* ================================================================= *)
(** ** Further properties: the triage and verification services *)

Lemma keywordTriage_outcome (descriptionLower : string) :
  In (aiService.keywordTriage descriptionLower) keywordOutcomes.
Proof.
  unfold aiService.keywordTriage, keywordOutcomes.
  repeat match goal with
         | |- context [if ?c then _ else _] => destruct c
         end;
    cbn [In]; tauto.
Qed.

Lemma fallback_outcome (description : string) :
  exists category severity,
    In (category, severity) keywordOutcomes
    /\ (aiService.hasText description = false ->
        category = "OTHER"%string /\ severity = "MEDIUM"%string)
    /\ aiService.fallbackAnalysis description
       = aiService.withCategoryInfo
           (JS.getProperty aiService.issueCategories category)
           (Some category) (Some severity)
           (JS.Num (if aiService.hasText description then 60 else 40))
           (Some (if String.eqb severity "HIGH" then "URGENT"%string
                  else "MODERATE"%string))
           false true.
Proof.
  unfold aiService.fallbackAnalysis.
  destruct (aiService.hasText description).
  - pose proof (keywordTriage_outcome (JS.toLowerCase description)) as Hin.
    destruct (aiService.keywordTriage (JS.toLowerCase description))
      as [category severity].
    exists category, severity. split; [ exact Hin | ].
    split; [ discriminate | reflexivity ].
  - exists "OTHER"%string, "MEDIUM"%string.
    split; [ unfold keywordOutcomes; cbn [In]; tauto | ].
    split; [ split; reflexivity | reflexivity ].
Qed.

Lemma fallbackAnalysis_severity (description : string) :
  aiService.analysis_severity (aiService.fallbackAnalysis description)
  = Some "LOW"%string
  \/ aiService.analysis_severity (aiService.fallbackAnalysis description)
     = Some "MEDIUM"%string
  \/ aiService.analysis_severity (aiService.fallbackAnalysis description)
     = Some "HIGH"%string.
Proof.
  destruct (fallback_outcome description) as [c [sv [Hin [_ ->]]]].
  cbn [aiService.analysis_severity aiService.withCategoryInfo].
  unfold keywordOutcomes in Hin. cbn [In] in Hin.
  repeat destruct Hin as [Hin | Hin]; try contradiction;
    injection Hin as _ <-; tauto.
Qed.

(** X19.  Whatever the description, the keyword fallback of the triage
    names a category of [issueCategories] and takes department, cost and
    repair time from its entry; its severity is the priority of that
    entry, one of the three levels the table's CHECK accepts; it is marked
    urgent exactly when the severity is HIGH; and with a blank description
    it is OTHER, MEDIUM, with confidence 40 instead of 60. *)
Theorem fallbackAnalysis_sound (description : string) :
  exists category info,
    JS.ownProperty aiService.issueCategories category = Some info
    /\ aiService.fallbackAnalysis description
       = {| aiService.analysis_category := Some category;
            aiService.analysis_severity := Some (aiService.info_priority info);
            aiService.analysis_confidence :=
              JS.Num (if aiService.hasText description then 60 else 40);
            aiService.analysis_estimatedUrgency :=
              Some (if String.eqb (aiService.info_priority info) "HIGH"
                    then "URGENT"%string else "MODERATE"%string);
            aiService.analysis_departmentResponsible :=
              Some (aiService.info_department info);
            aiService.analysis_estimatedCost :=
              Some (aiService.info_estimatedCost info);
            aiService.analysis_estimatedRepairTime :=
              Some (aiService.info_estimatedTime info);
            aiService.analysis_aiProcessed := false;
            aiService.analysis_fallbackUsed := true |}
    /\ Db.check_level
         (aiService.analysis_severity (aiService.fallbackAnalysis description))
       = true
    /\ server.isUrgent (aiService.fallbackAnalysis description)
       = String.eqb (aiService.info_priority info) "HIGH"
    /\ (aiService.hasText description = false ->
        category = "OTHER"%string
        /\ aiService.info_priority info = "MEDIUM"%string).
Proof.
  destruct (fallback_outcome description) as [c [sv [Hin [Hblank ->]]]].
  unfold keywordOutcomes in Hin. cbn [In] in Hin.
  repeat destruct Hin as [Hin | Hin]; try contradiction;
    injection Hin as <- <-;
    match goal with
    | |- context [aiService.withCategoryInfo _ (Some ?c) _ _ _ _ _] => exists c
    end;
    (eexists; split; [ reflexivity | ]);
    (split; [ reflexivity | ]); (split; [ reflexivity | ]);
    (split; [ reflexivity | ]);
    intro Hb; destruct (Hblank Hb) as [H1 H2];
    try discriminate H1; try discriminate H2; split; reflexivity.
Qed.

(** X20.  The keyword fallback tests the words of a drain blockage before
    those of a leak: a description that mentions water is never triaged
    as WATER_LEAK, whatever else it says. *)
Theorem fallback_water_is_no_leak (description : string) :
  JS.includes (JS.toLowerCase description) "water" = true ->
  aiService.analysis_category (aiService.fallbackAnalysis description)
  <> Some "WATER_LEAK"%string.
Proof.
  intro Hwater. unfold aiService.fallbackAnalysis.
  destruct (aiService.hasText description);
    [ | cbn [aiService.analysis_category aiService.withCategoryInfo];
        discriminate ].
  unfold aiService.keywordTriage. rewrite Hwater.
  rewrite ?orb_true_r. cbn [orb].
  repeat match goal with
         | |- context [if ?c then _ else _] => destruct c
         end;
    cbn [aiService.analysis_category aiService.withCategoryInfo];
    discriminate.
Qed.

Lemma fallback_water_is_no_leak_witness :
  JS.includes (JS.toLowerCase "Water leak at the corner") "water" = true
  /\ JS.includes (JS.toLowerCase "Water leak at the corner") "leak" = true
  /\ aiService.analysis_category
       (aiService.fallbackAnalysis "Water leak at the corner")
     <> Some "WATER_LEAK"%string.
Proof.
  split; [ reflexivity | ]. split; [ reflexivity | ].
  apply (fallback_water_is_no_leak "Water leak at the corner"). reflexivity.
Defined.

Ltac unfold_attempts :=
  unfold aiService.analyzeImage, aiService.verifyResolution,
    aiService.maxRetries;
  cbn [aiService.analyzeFrom aiService.verifyFrom];
  unfold aiService.maxRetries; cbn [Nat.ltb Nat.leb Nat.eqb].

Lemma analyzeImage_result (configured : bool)
    (model : nat -> aiService.Try aiService.TriageAnswer)
    (userDescription : string) :
  aiService.analyzeImage configured model userDescription
  = if configured then
      (Some match firstGot model [1%nat; 2%nat; 3%nat] with
            | Some answer => analysisOf answer
            | None => aiService.fallbackAnalysis userDescription
            end,
       waitedOn model [1%nat; 2%nat])
    else (Some (aiService.fallbackAnalysis userDescription), O).
Proof.
  unfold_attempts. destruct configured; cbn [negb]; [ | reflexivity ].
  cbn [firstGot waitedOn].
  destruct (model 1%nat) as [ a1 | st1 ]; [ reflexivity | ].
  destruct (model 2%nat) as [ a2 | st2 ];
    [ split_status st1; reflexivity | ].
  destruct (model 3%nat) as [ a3 | st3 ];
    split_status st1; split_status st2; try split_status st3; reflexivity.
Qed.

Lemma verifyResolution_result (configured : bool)
    (model : nat -> aiService.Try aiService.VerificationAnswer) :
  aiService.verifyResolution configured model
  = if configured then
      (Some match firstGot model [1%nat; 2%nat; 3%nat] with
            | Some answer => verificationOf answer
            | None => aiService.fallbackResolutionVerification
            end,
       waitedOn model [1%nat; 2%nat])
    else (Some aiService.fallbackResolutionVerification, O).
Proof.
  unfold_attempts. destruct configured; cbn [negb]; [ | reflexivity ].
  cbn [firstGot waitedOn].
  destruct (model 1%nat) as [ a1 | st1 ]; [ reflexivity | ].
  destruct (model 2%nat) as [ a2 | st2 ];
    [ split_status st1; reflexivity | ].
  destruct (model 3%nat) as [ a3 | st3 ];
    split_status st1; split_status st2; try split_status st3; reflexivity.
Qed.

Lemma waitedOn_two {A : Type} (model : nat -> aiService.Try A) :
  (waitedOn model [1%nat; 2%nat] <= 2 * aiService.retryDelay)%nat.
Proof.
  cbn [waitedOn]. unfold aiService.retryDelay.
  destruct (model 1%nat) as [ | [ c1 | ] ]; [ lia | | ];
    destruct (model 2%nat) as [ | [ c2 | ] ];
    try destruct (Z.eqb c1 503); try destruct (Z.eqb c2 503); lia.
Qed.

(** X21.  [analyzeImage] always answers an analysis: with an API key the
    one built from the first of the attempts 1, 2, 3 that yields an
    answer, else the keyword fallback on the description; without a key
    the fallback, with no attempt.  It waits the retry delay after each of
    the first two attempts that fails with status 503, twice the delay
    at most, and never after the third. *)
Theorem analyzeImage_first_of_three (configured : bool)
    (model : nat -> aiService.Try aiService.TriageAnswer)
    (userDescription : string) :
  fst (aiService.analyzeImage configured model userDescription)
  = Some (if configured then
            match firstGot model [1%nat; 2%nat; 3%nat] with
            | Some answer => analysisOf answer
            | None => aiService.fallbackAnalysis userDescription
            end
          else aiService.fallbackAnalysis userDescription)
  /\ snd (aiService.analyzeImage configured model userDescription)
     = (if configured then waitedOn model [1%nat; 2%nat] else O)
  /\ (snd (aiService.analyzeImage configured model userDescription)
      <= 2 * aiService.retryDelay)%nat.
Proof.
  rewrite analyzeImage_result.
  pose proof (waitedOn_two model) as Hw.
  destruct configured; cbn [fst snd]; repeat split; try exact Hw.
  apply Nat.le_0_l.
Qed.

(** X22.  [verifyResolution] always answers a verification: with an API
    key the first answer among the attempts 1, 2, 3, else the fallback
    (unresolved, score 50, NEEDS_REVIEW); without a key the fallback, with
    no attempt.  It waits as [analyzeImage] does, twice the retry delay
    at most. *)
Theorem verifyResolution_first_of_three (configured : bool)
    (model : nat -> aiService.Try aiService.VerificationAnswer) :
  fst (aiService.verifyResolution configured model)
  = Some (if configured then
            match firstGot model [1%nat; 2%nat; 3%nat] with
            | Some answer => verificationOf answer
            | None => aiService.fallbackResolutionVerification
            end
          else aiService.fallbackResolutionVerification)
  /\ snd (aiService.verifyResolution configured model)
     = (if configured then waitedOn model [1%nat; 2%nat] else O)
  /\ (snd (aiService.verifyResolution configured model)
      <= 2 * aiService.retryDelay)%nat.
Proof.
  rewrite verifyResolution_result.
  pose proof (waitedOn_two model) as Hw.
  destruct configured; cbn [fst snd]; repeat split; try exact Hw.
  apply Nat.le_0_l.
Qed.

(** X23.  Without an API key no submission is ever merged: every request
    with a photo and numeric coordinates is answered 201 as a new primary,
    stored with the category and severity of the keyword fallback on its
    description, whatever the table holds and whatever photos are on
    disk. *)
Theorem submitReport_without_key (G : aiService.Gemini)
    (model : nat -> aiService.Try aiService.TriageAnswer)
    (F : aiService.FileSystem) (projectRoot : string) (clock deadline : Z)
    (req : server.ReportRequest) (s : Store) :
  aiService.apiKeyConfigured G = false ->
  server.files_photo req <> None ->
  JS.truthy (server.body_latitude req) = true ->
  JS.truthy (server.body_longitude req) = true ->
  queryLatitude req <> JS.NaN ->
  queryLongitude req <> JS.NaN ->
  server.submitReport G model F projectRoot clock deadline req s
  = (server.Status201 (next_id s) false None,
     storedPrimary req
       (triageOf
          (aiService.fallbackAnalysis
             (server.text (server.body_description req)))
          clock deadline) s).
Proof.
  intros Hkey Hphoto Hlat Hlon Hla Hlo.
  unfold server.submitReport. rewrite analyzeImage_result, Hkey. cbn [fst].
  apply (fallback_only_is_primary G F F projectRoot req).
  - intros a b similarity H.
    rewrite compareImages_unconfigured in H by exact Hkey.
    injection H as <-. unfold aiService.fallbackImageSimilarity.
    destruct (aiService.statSync F a), (aiService.statSync F b); reflexivity.
  - repeat split; try assumption.
    unfold triageOf. cbn [server.ai_severity].
    destruct (fallbackAnalysis_severity
                (server.text (server.body_description req)))
      as [-> | [-> | ->]]; tauto.
Qed.

Lemma submitReport_without_key_witness :
  server.submitReport Sample.unconfigured (fun _ => aiService.Threw None)
    Sample.files "" 1700000500 1700086900 Sample.request Sample.oneReport
  = (server.Status201 2 false None,
     storedPrimary Sample.request
       (triageOf (aiService.fallbackAnalysis "pothole") 1700000500 1700086900)
       Sample.oneReport).
Proof.
  apply (submitReport_without_key Sample.unconfigured
           (fun _ => aiService.Threw None) Sample.files "" 1700000500
           1700086900 Sample.request Sample.oneReport).
  - reflexivity.
  - discriminate.
  - reflexivity.
  - reflexivity.
  - exact (proj1 (proj2 (proj2 (proj2 request_acceptable)))).
  - exact (proj1 (proj2 (proj2 (proj2 (proj2 request_acceptable))))).
Defined.

(** X24.  A resolution upload on an existing report always takes the
    verified branch of the handler: the report is marked resolved whether
    or not the verification calls the issue resolved, and the stored score
    is that of the verification, 50 when the fallback answered;
    [GET /report/:id/resolution] then serves that score. *)
Theorem resolveWithVerification_stores_score (configured : bool)
    (model : nat -> aiService.Try aiService.VerificationAnswer)
    (idParam : Z) (upload : server.Upload) (s : Store) (r : Report) :
  Db.get idParam s = Some r ->
  let score :=
    if configured then
      match firstGot model [1%nat; 2%nat; 3%nat] with
      | Some answer => aiService.answer_verificationScore answer
      | None => JS.Num 50
      end
    else JS.Num 50 in
  let resolutionPhotoUrl := String.append "/uploads/" (server.filename upload) in
  let after :=
    server.resolveWithVerification configured model idParam (Some upload) s in
  fst after = server.Status200Resolved resolutionPhotoUrl
  /\ Db.get idParam (snd after)
     = Some (server.setResolution resolutionPhotoUrl (Some score) r)
  /\ server.getResolution idParam (snd after)
     = server.Reply200
         {| server.view_reportId := id r;
            server.view_beforePhoto := photo_url r;
            server.view_afterPhoto := resolutionPhotoUrl;
            server.view_verificationScore := score |}.
Proof.
  intros Hget score resolutionPhotoUrl after.
  assert (E : after
              = server.resolveReport idParam (Some upload) (Some score) s).
  { unfold after, server.resolveWithVerification, score.
    rewrite verifyResolution_result.
    destruct configured; cbn [fst option_map]; [ | reflexivity ].
    destruct (firstGot model [1%nat; 2%nat; 3%nat]); reflexivity. }
  rewrite E. unfold server.resolveReport. rewrite Hget. cbn [fst snd].
  assert (H1 : Db.get idParam
                 (Db.update idParam
                    (server.setResolution
                       (String.append "/uploads/" (server.filename upload))
                       (Some score)) s)
               = Some (server.setResolution resolutionPhotoUrl (Some score) r)).
  { rewrite get_update by reflexivity. rewrite Z.eqb_refl, Hget. reflexivity. }
  split; [ reflexivity | ]. split; [ exact H1 | ].
  unfold server.getResolution. rewrite H1. reflexivity.
Qed.

Lemma resolveWithVerification_stores_score_witness :
  Db.get 1
    (snd (server.resolveWithVerification false (fun _ => aiService.Threw None)
            1 (Some Sample.upload) Sample.escalatedStore))
  = Some (server.setResolution "/uploads/a.jpg" (Some (JS.Num 50))
            Sample.escalatedReport).
Proof.
  exact (proj1 (proj2
    (resolveWithVerification_stores_score false
       (fun _ => aiService.Threw None) 1 Sample.upload Sample.escalatedStore
       Sample.escalatedReport eq_refl))).
Defined.

(** X25.  The handler stores the severity of the model's answer
    unchecked: when the first answer of the model to the triage prompt
    names a severity other than LOW, MEDIUM and HIGH, the INSERT fails the
    table's CHECK, the submission is answered 500, and the report is not
    stored, whether or not it would have been a duplicate. *)
Theorem submitReport_unknown_severity (G : aiService.Gemini)
    (model : nat -> aiService.Try aiService.TriageAnswer)
    (F : aiService.FileSystem) (projectRoot : string) (clock deadline : Z)
    (req : server.ReportRequest) (s : Store)
    (answer : aiService.TriageAnswer) (level : string) :
  aiService.apiKeyConfigured G = true ->
  firstGot model [1%nat; 2%nat; 3%nat] = Some answer ->
  aiService.answer_severity answer = Some level ->
  level <> "LOW"%string -> level <> "MEDIUM"%string -> level <> "HIGH"%string ->
  server.files_photo req <> None ->
  JS.truthy (server.body_latitude req) = true ->
  JS.truthy (server.body_longitude req) = true ->
  server.submitReport G model F projectRoot clock deadline req s
  = (server.Status500 "Failed to save report", s).
Proof.
  intros Hkey Hgot Hsev Hl Hm Hh Hphoto Hlat Hlon.
  assert (Hcheck : Db.check_level (Some level) = false).
  { cbn [Db.check_level].
    destruct (String.eqb_spec level "LOW"); [ contradiction | ].
    destruct (String.eqb_spec level "MEDIUM"); [ contradiction | ].
    destruct (String.eqb_spec level "HIGH"); [ contradiction | reflexivity ]. }
  unfold server.submitReport. rewrite analyzeImage_result, Hkey, Hgot.
  cbn [fst]. unfold server.postReport.
  destruct (server.files_photo req) as [file | ]; [ | congruence ].
  rewrite Hlat, Hlon. cbn [negb orb].
  destruct (fst (server.similarityLoop F projectRoot _ _)) as [info | ];
    unfold Db.insert, Db.constraints;
    cbn [severity server.duplicateRow server.primaryRow server.ai_severity
         analysisOf aiService.analysis_severity aiService.withCategoryInfo];
    rewrite Hsev, Hcheck, andb_false_r; reflexivity.
Qed.

Lemma submitReport_unknown_severity_witness :
  server.submitReport More.configured (fun _ => aiService.Got More.critical)
    Sample.files "" 1700000500 1700086900 Sample.request Sample.oneReport
  = (server.Status500 "Failed to save report", Sample.oneReport).
Proof.
  apply (submitReport_unknown_severity More.configured
           (fun _ => aiService.Got More.critical) Sample.files ""
           1700000500 1700086900 Sample.request Sample.oneReport
           More.critical "CRITICAL");
    try reflexivity; discriminate.
Defined.
